(** * Search pipeline of firecrawl-customgoogle: provider resolution, key
    rotation, scrape-job admission and result aggregation.

    The development embeds four source files:
    - [apps/api/src/search/google_custom_search.ts]: [getAllApiKeys],
      [getNextApiKey], [googleCustomSearch]   (module [GoogleCustomSearch])
    - the file that exports [search], imported as ["../../search"]
      (module [SearchResolver])
    - [apps/api/src/controllers/v1/search.ts]: [scrapeSearchResult],
      [searchController]                      (module [V1])
    - the legacy controller file that exports [searchHelper] and
      [searchController]                      (module [V0])

    JavaScript values are modelled as the code uses them: [process.env] is a
    finite map from names to strings, arrays are lists, optional object
    fields are [option]s, thrown values are an explicit outcome.  Effects
    (the shared round-robin index, fresh job ids, calls to the provider, the
    queue and billing) are threaded through a small state-and-log monad.
    External collaborators whose code is outside the four files (the HTTP
    client, the queue, the blocklist, the other providers) are fields of a
    [World] record over which every theorem quantifies.  So is timing: what
    other requests in flight do to the shared index while a call waits for
    the provider, and which rejected promise of a [Promise.all] rejected
    first. *)

From Stdlib Require Import ZArith QArith Qround String Ascii List Lia Bool.
From stdpp Require Import base strings gmap pretty.

Local Open Scope Z_scope.

(** ** JavaScript strings and thrown values *)

Module JS.

(** [s.startsWith(p)] *)
Definition startsWith (s p : string) : bool := String.prefix p s.

(** [s.includes(p)] *)
Fixpoint includes (s p : string) : bool :=
  String.prefix p s ||
  match s with
  | EmptyString => false
  | String _ s' => includes s' p
  end.

(** A JavaScript string is modelled by the Rocq string of its UTF-8 bytes,
    which is what a string literal of this file denotes.  [chars s] splits
    [s] into its characters: a well-formed sequence of two, three or four
    bytes is one character, and any other byte is a character by itself (a
    byte outside such a sequence stands for the Latin-1 character of that
    code). *)
Definition byte_in (lo hi : nat) (c : ascii) : bool :=
  let n := nat_of_ascii c in (lo <=? n)%nat && (n <=? hi)%nat.

Definition continuation (c : ascii) : bool := byte_in 128 191 c.

Fixpoint chars (s : string) : list string :=
  match s with
  | EmptyString => []
  | String c0 s1 =>
      match s1 with
      | EmptyString => [String c0 EmptyString]
      | String c1 s2 =>
          if byte_in 194 223 c0 && continuation c1
          then String c0 (String c1 EmptyString) :: chars s2
          else
            match s2 with
            | EmptyString => String c0 EmptyString :: chars s1
            | String c2 s3 =>
                if byte_in 224 239 c0 && continuation c1 && continuation c2
                then String c0 (String c1 (String c2 EmptyString)) :: chars s3
                else
                  match s3 with
                  | EmptyString => String c0 EmptyString :: chars s1
                  | String c3 s4 =>
                      if byte_in 240 244 c0 && continuation c1 && continuation c2
                         && continuation c3
                      then String c0 (String c1 (String c2 (String c3 EmptyString)))
                           :: chars s4
                      else String c0 EmptyString :: chars s1
                  end
            end
      end
  end.

Definition of_bytes (l : list Z) : string :=
  fold_right (fun b s => String (ascii_of_nat (Z.to_nat b)) s) EmptyString l.

(** The characters removed by [String.prototype.trim], ECMAScript's
    WhiteSpace and LineTerminator: U+0009 to U+000D, U+0020, U+00A0, U+1680,
    U+2000 to U+200A, U+2028, U+2029, U+202F, U+205F, U+3000 and U+FEFF.
    U+00A0 is listed as the single byte 160 as well as by its two-byte
    sequence. *)
Definition whiteSpace : list string :=
  map of_bytes
    [[9]; [10]; [11]; [12]; [13]; [32]; [160]; [194; 160];
     [225; 154; 128];
     [226; 128; 128]; [226; 128; 129]; [226; 128; 130]; [226; 128; 131];
     [226; 128; 132]; [226; 128; 133]; [226; 128; 134]; [226; 128; 135];
     [226; 128; 136]; [226; 128; 137]; [226; 128; 138];
     [226; 128; 168]; [226; 128; 169]; [226; 128; 175];
     [226; 129; 159];
     [227; 128; 128];
     [239; 187; 191]].

Definition isWhiteSpace (ch : string) : bool := existsb (String.eqb ch) whiteSpace.

Fixpoint dropWhile {A : Type} (f : A -> bool) (l : list A) : list A :=
  match l with
  | [] => []
  | x :: l' => if f x then dropWhile f l' else l
  end.

(** [s.trim()]: [s] without its leading and trailing white space. *)
Definition trim (s : string) : string :=
  String.concat EmptyString
    (rev (dropWhile isWhiteSpace (rev (dropWhile isWhiteSpace (chars s))))).

(** Truthiness of a string: the empty string is falsy. *)
Definition truthy (s : string) : bool := negb (String.eqb s "").

(** Truthiness of a possibly undefined string. *)
Definition truthy_opt (o : option string) : bool :=
  match o with
  | Some s => truthy s
  | None => false
  end.

(** [a ?? b] *)
Definition nullish {A : Type} (a : option A) (b : A) : A :=
  match a with
  | Some x => x
  | None => b
  end.

(** [a || b] on possibly undefined strings. *)
Definition or_default (a : option string) (b : string) : string :=
  match a with
  | Some s => if truthy s then s else b
  | None => b
  end.

(** A thrown (or rejected-with) value: an [Error]-like object with a name, a
    message and, for HTTP client errors, [response.status]; or a bare string
    (a promise rejected with a reason string). *)
Inductive Thrown : Type :=
| ErrorObject (name message : string) (response_status : option Z)
| ThrownString (s : string).

(** [new Error(msg)] *)
Definition new_Error (msg : string) : Thrown := ErrorObject "Error" msg None.

(** [error.message] ([undefined] on a string). *)
Definition message_of (e : Thrown) : option string :=
  match e with
  | ErrorObject _ m _ => Some m
  | ThrownString _ => None
  end.

(** [error.response?.status] *)
Definition status_of (e : Thrown) : option Z :=
  match e with
  | ErrorObject _ _ st => st
  | ThrownString _ => None
  end.

(** [String(error)] *)
Definition String_of (e : Thrown) : string :=
  match e with
  | ErrorObject n m _ =>
      if truthy m then (if truthy n then n +:+ ": " +:+ m else m) else n
  | ThrownString s => s
  end.

(** [error && error.message ? error.message : String(error)], the idiom both
    controllers use to obtain a message from a caught value. *)
Definition errorMessage (e : Thrown) : string :=
  match e with
  | ErrorObject _ m _ => if truthy m then m else String_of e
  | ThrownString s => String_of e
  end.

(** A value interpolated in a template literal. *)
Definition interpolate_str (o : option string) : string :=
  match o with
  | Some s => s
  | None => "undefined"
  end.

Definition interpolate_num (o : option Z) : string :=
  match o with
  | Some z => pretty z
  | None => "undefined"
  end.

(** [arr.slice(0, n)] for an integer [n]: a negative [n] counts from the end. *)
Definition slice0 {A : Type} (l : list A) (n : Z) : list A :=
  if 0 <=? n then firstn (Z.to_nat n) l
  else firstn (length l - Z.to_nat (- n)) l.

(** [Math.floor(x)] and [Math.ceil(x)] on exact rationals. *)
Definition Math_floor (x : Q) : Z := Qfloor x.
Definition Math_ceil (x : Q) : Z := Qceiling x.

End JS.

Import JS.

(** ** Data model *)

(** [SearchResult] of [lib/entities]: url, title, description. *)
Record SearchResult : Type := mkSearchResult {
  sr_url : string;
  sr_title : string;
  sr_description : string
}.

(** The part of a v1 [Document]'s metadata the controllers read or write. *)
Record Metadata : Type := mkMetadata {
  statusCode : option Z;
  error : option string;
  sourceURL : option string
}.

(** A v1 [Document], with the fields the controllers read, write or copy.
    All are optional here: the SERP-only documents of the fast path carry
    no [metadata]. *)
Record Document : Type := mkDocument {
  title : option string;
  description : option string;
  url : option string;
  markdown : option string;
  html : option string;
  rawHtml : option string;
  serpResults : option SearchResult;
  metadata : option Metadata
}.

(** A legacy (v0) document; the helper only reads [content]. *)
Record LegacyDocument : Type := mkLegacyDocument {
  content : option string;
  legacy_markdown : option string;
  legacy_url : option string
}.

(** Which upstream service answers a query. *)
Inductive Provider : Type :=
| GoogleCustomSearch_API
| Serper
| SearchAPI
| RawGoogle.

(** Options forwarded to a provider. *)
Record ProviderOptions : Type := mkProviderOptions {
  po_num_results : Z;
  po_tbs : option string;
  po_filter : option string;
  po_lang : string;
  po_country : string;
  po_location : option string;
  po_advanced : bool;
  po_proxy : option string;
  po_sleep_interval : Z;
  po_timeout : Z
}.

(** One item of a Custom Search JSON response. *)
Record CseItem : Type := mkCseItem {
  link : option string;
  item_title : option string;
  snippet : option string
}.

(** Observable effects, in the order they are issued: a key handed out by
    [getNextApiKey] (its pool index), a request to the Custom Search endpoint
    with its [params], a call of one of the other providers, the
    [redisConnection.sadd] of the v0 controller, the queue calls, billing and
    logging. *)
Inductive Event : Type :=
| KeySelected (index : nat)
| CseRequest (key cx q : string) (num : Z)
| ProviderRequest (p : Provider) (num : Z)
| RedisSadd (set member : string)
| AddScrapeJob (jobId : nat) (job_url : string) (priority : Z)
| WaitForJob (jobId : nat) (timeout : Z)
| QueueRemove (jobId : nat)
| BillTeam (credits : nat)
| LogJob (num_docs : nat)
| LoggerError (msg : string).

(** Mutable state: the module-level round-robin index of
    [google_custom_search.ts] and the supply of fresh [uuidv4()] values. *)
Record State : Type := mkState {
  currentKeyIndex : nat;
  uuidCounter : nat
}.

(** The collaborators outside the embedded files.  [axios_get i key cx q num]
    is the answer to the [i]-th request of one call ([inl e] when the request
    fails with [e]); the three other providers answer a query and its
    options; [addScrapeJob_outcome j u] is [Some e] when admitting job [j] for
    URL [u] throws [e]; [waitForJob_outcome j t] is [inl e] when the wait on
    job [j] rejects with [e] (a timeout is such a rejection).
    [getJobPriority] is a pure function of plan, team and base priority.
    Removing a job from the queue, billing and logging are taken not to
    throw; console output is left out of the event log.

    Two fields stand for timing.  Requests are served concurrently and the
    round-robin index is shared by all of them: [concurrent_selections i] is
    the number of keys that other calls in flight take from the pool while
    the [i]-th request of this call is awaited.  [first_to_reject es] says
    which of the rejections [es] of the promises given to one [Promise.all]
    (in list order) happened first: its position, taken modulo the length. *)
Record World : Type := mkWorld {
  env : gmap string string;
  axios_get : nat -> string -> string -> string -> Z -> Thrown + list CseItem;
  serper_search : string -> ProviderOptions -> Thrown + list SearchResult;
  searchapi_search : string -> ProviderOptions -> Thrown + list SearchResult;
  googleSearch : string -> ProviderOptions -> Thrown + list SearchResult;
  isUrlBlocked : string -> bool;
  BLOCKLISTED_URL_MESSAGE : string;
  getJobPriority : option string -> string -> Z -> Z;
  addScrapeJob_outcome : nat -> string -> option Thrown;
  waitForJob_outcome : nat -> Z -> Thrown + Document;
  toLegacyDocument : Document -> option LegacyDocument;
  concurrent_selections : nat -> nat;
  first_to_reject : list Thrown -> nat
}.

(** ** The effect monad: state, an event log, and exceptions *)

Inductive Outcome (A : Type) : Type :=
| Returned (a : A)
| Threw (e : Thrown).

Arguments Returned {A} a.
Arguments Threw {A} e.

Definition M (A : Type) : Type := State -> Outcome A * State * list Event.

Definition ret {A : Type} (a : A) : M A := fun st => (Returned a, st, []).

Definition throw {A : Type} (e : Thrown) : M A := fun st => (Threw e, st, []).

Definition bind {A B : Type} (m : M A) (k : A -> M B) : M B :=
  fun st =>
    match m st with
    | (Returned a, st1, log1) =>
        match k a st1 with
        | (r, st2, log2) => (r, st2, log1 ++ log2)
        end
    | (Threw e, st1, log1) => (Threw e, st1, log1)
    end.

(** [try { body } catch (error) { handler }] *)
Definition try_catch {A : Type} (body : M A) (handler : Thrown -> M A) : M A :=
  fun st =>
    match body st with
    | (Returned a, st1, log1) => (Returned a, st1, log1)
    | (Threw e, st1, log1) =>
        match handler e st1 with
        | (r, st2, log2) => (r, st2, log1 ++ log2)
        end
    end.

Definition emit (ev : Event) : M unit := fun st => (Returned tt, st, [ev]).

(** Lifts an oracle answer: a rejection is thrown at the [await]. *)
Definition await {A : Type} (r : Thrown + A) : M A :=
  match r with
  | inl e => throw e
  | inr a => ret a
  end.

(** [uuidv4()]: a fresh identifier. *)
Definition uuidv4 : M nat :=
  fun st =>
    (Returned (uuidCounter st),
     mkState (currentKeyIndex st) (S (uuidCounter st)), []).

Notation "x <- c1 ;; c2" := (bind c1 (fun x => c2))
  (at level 100, c1 at next level, right associativity).
Notation "c1 ;;; c2" := (bind c1 (fun _ => c2))
  (at level 100, right associativity).

(** Runs [f] on each element in order, stopping at the first throw. *)
Fixpoint mapM {A B : Type} (f : A -> M B) (l : list A) : M (list B) :=
  match l with
  | [] => ret []
  | x :: l' =>
      y <- f x ;;
      ys <- mapM f l' ;;
      ret (y :: ys)
  end.

(** The promises [l.map(f)], each run to its end: their outcomes in list
    order.  The tasks are run one after the other in list order: the log
    keeps the order of the events of each task, not their interleaving
    across tasks. *)
Fixpoint settleAll {A B : Type} (f : A -> M B) (l : list A)
    (st : State) : list (Outcome B) * State * list Event :=
  match l with
  | [] => ([], st, [])
  | x :: l' =>
      match f x st with
      | (r, st1, log1) =>
          match settleAll f l' st1 with
          | (rs, st2, log2) => (r :: rs, st2, log1 ++ log2)
          end
      end
  end.

Definition rejections {B : Type} (rs : list (Outcome B)) : list Thrown :=
  flat_map (fun r => match r with Threw e => [e] | Returned _ => [] end) rs.

Definition fulfilled {B : Type} (rs : list (Outcome B)) : list B :=
  flat_map (fun r => match r with Returned b => [b] | Threw _ => [] end) rs.

(** [Promise.all(l.map(f))]: every promise is started and runs to its end;
    the aggregate resolves with the results in list order when all of them
    resolve, and otherwise rejects with the rejection that happened first. *)
Definition promiseAll {A B : Type} (w : World) (f : A -> M B) (l : list A) : M (list B) :=
  fun st =>
    match settleAll f l st with
    | (rs, st', log) =>
        (match rejections rs with
         | [] => Returned (fulfilled rs)
         | e :: es =>
             Threw (nth (first_to_reject w (e :: es) mod length (e :: es))%nat
                        (e :: es) e)
         end, st', log)
    end.

(** ** [search/google_custom_search.ts] *)

Module GoogleCustomSearch.

(** The ten environment variables read by [getAllApiKeys], in order. *)
Definition key_variables : list string :=
  ["GOOGLE_API_KEY"; "GOOGLE_API_KEY2"; "GOOGLE_API_KEY3"; "GOOGLE_API_KEY4";
   "GOOGLE_API_KEY5"; "GOOGLE_API_KEY6"; "GOOGLE_API_KEY7"; "GOOGLE_API_KEY8";
   "GOOGLE_API_KEY9"; "GOOGLE_API_KEY10"].

(** [if (process.env.X) keys.push(process.env.X)] *)
Definition push_if_set (e : gmap string string) (name : string) : list string :=
  match e !! name with
  | Some v => if truthy v then [v] else []
  | None => []
  end.

Definition getAllApiKeys (e : gmap string string) : list string :=
  let keys := flat_map (push_if_set e) key_variables in
  List.filter (fun k => negb (String.eqb (trim k) "")) keys.

(** [getNextApiKey]: reads [googleApiKeys[currentKeyIndex]] (undefined when
    the index is past the end) and advances the shared index modulo the pool
    size. *)
Definition getNextApiKey (googleApiKeys : list string) : M (option string) :=
  fun st =>
    if (length googleApiKeys =? 0)%nat then
      (Threw (new_Error "No Google API keys found in environment variables!"),
       st, [])
    else
      let key := nth_error googleApiKeys (currentKeyIndex st) in
      (Returned key,
       mkState ((currentKeyIndex st + 1) mod length googleApiKeys)%nat
               (uuidCounter st),
       [KeySelected (currentKeyIndex st)]).

(** [status === 400 || status === 403 || status === 429] *)
Definition retryable (status : option Z) : bool :=
  match status with
  | Some s => (s =? 400) || (s =? 403) || (s =? 429)
  | None => false
  end.

Definition toSearchResult (item : CseItem) : SearchResult :=
  mkSearchResult (nullish (link item) "") (nullish (item_title item) "")
                 (nullish (snippet item) "").

(** What the other calls in flight do to the shared index while this call
    is suspended: each key they take is a call of [getNextApiKey] on the
    pool. *)
Definition selected_by_others (googleApiKeys : list string) (d : nat) : M unit :=
  fun st =>
    (Returned tt,
     Nat.iter d (fun s => snd (fst (getNextApiKey googleApiKeys s))) st, []).

(** The body of the [try] block of one iteration.  [apiKey.slice(-6)] in the
    first log line throws a [TypeError] when the key is undefined.  The call
    is suspended at [await axios.get(...)] until the answer arrives. *)
Definition attempt (w : World) (i : nat) (apiKey : option string)
    (cseId query : string) (num_results : Z) : M (list SearchResult) :=
  match apiKey with
  | None =>
      throw (ErrorObject "TypeError"
               "Cannot read properties of undefined (reading 'slice')" None)
  | Some key =>
      emit (CseRequest key cseId query num_results) ;;;
      selected_by_others (getAllApiKeys (env w)) (concurrent_selections w i) ;;;
      items <- await (axios_get w i key cseId query num_results) ;;
      ret (map toSearchResult items)
  end.

(** The error thrown once the loop is over. *)
Definition exhausted_error (lastError : option Thrown) : Thrown :=
  let status := match lastError with Some e => status_of e | None => None end in
  let errMsg :=
    or_default (match lastError with Some e => message_of e | None => None end)
               "Unknown error" in
  new_Error ("All Google CSE keys exhausted. Last error code: "
             +:+ interpolate_num status +:+ ", message: " +:+ errMsg).

(** The error thrown for a caught error that is not retried. *)
Definition abort_error (e : Thrown) : Thrown :=
  new_Error ("Error calling Google Custom Search: "
             +:+ interpolate_str (message_of e)).

(** [for (let i = 0; i < googleApiKeys.length; i++)]: [remaining] is
    [googleApiKeys.length - i].  An iteration either returns the results,
    continues with [lastError] set, or throws.  Between the selection of one
    iteration and that of the next the call has waited for the provider, so
    the index the next selection reads is the one the other calls left. *)
Fixpoint keyLoop (w : World) (googleApiKeys : list string)
    (cseId query : string) (num_results : Z)
    (remaining i : nat) (lastError : option Thrown) : M (list SearchResult) :=
  match remaining with
  | O => throw (exhausted_error lastError)
  | S remaining' =>
      apiKey <- getNextApiKey googleApiKeys ;;
      step <- try_catch
                (results <- attempt w i apiKey cseId query num_results ;;
                 ret (inr results))
                (fun e =>
                   if retryable (status_of e) then ret (inl e)
                   else throw (abort_error e)) ;;
      match step with
      | inr results => ret results
      | inl e =>
          keyLoop w googleApiKeys cseId query num_results remaining' (S i)
                  (Some e)
      end
  end.

Definition googleCustomSearch (w : World) (query : string)
    (num_results : option Z) : M (list SearchResult) :=
  let num_results := nullish num_results 5 in
  let googleApiKeys := getAllApiKeys (env w) in
  let cseId := env w !! "GOOGLE_CSE_ID" in
  if negb (truthy_opt cseId) then
    throw (new_Error "Missing GOOGLE_CSE_ID environment variable.")
  else if (length googleApiKeys =? 0)%nat then
    throw (new_Error "No valid GOOGLE_API_KEY environment variables found.")
  else
    keyLoop w googleApiKeys (nullish cseId "") query num_results
            (length googleApiKeys) 0 None.

End GoogleCustomSearch.

(** ** [search/index.ts] *)

Module SearchResolver.

Record SearchArgs : Type := mkSearchArgs {
  sa_query : string;
  sa_advanced : option bool;
  sa_num_results : option Z;
  sa_tbs : option string;
  sa_filter : option string;
  sa_lang : option string;
  sa_country : option string;
  sa_location : option string;
  sa_proxy : option string;
  sa_sleep_interval : option Z;
  sa_timeout : option Z
}.

(** The chain of environment checks that picks the provider. *)
Definition selectedProvider (e : gmap string string) : Provider :=
  if truthy_opt (e !! "GOOGLE_API_KEY") && truthy_opt (e !! "GOOGLE_CSE_ID")
  then GoogleCustomSearch_API
  else if truthy_opt (e !! "SERPER_API_KEY") then Serper
  else if truthy_opt (e !! "SEARCHAPI_API_KEY") then SearchAPI
  else RawGoogle.

(** Parameters with their defaults applied. *)
Definition resolved_options (a : SearchArgs) : ProviderOptions :=
  mkProviderOptions (nullish (sa_num_results a) 5) (sa_tbs a) (sa_filter a)
    (nullish (sa_lang a) "en") (nullish (sa_country a) "us") (sa_location a)
    (nullish (sa_advanced a) false) (sa_proxy a)
    (nullish (sa_sleep_interval a) 0) (nullish (sa_timeout a) 5000).

(** The body of the [try] block of [search]. *)
Definition search_body (w : World) (a : SearchArgs) : M (list SearchResult) :=
  let o := resolved_options a in
  match selectedProvider (env w) with
  | GoogleCustomSearch_API =>
      GoogleCustomSearch.googleCustomSearch w (sa_query a)
        (Some (po_num_results o))
  | Serper =>
      emit (ProviderRequest Serper (po_num_results o)) ;;;
      await (serper_search w (sa_query a) o)
  | SearchAPI =>
      emit (ProviderRequest SearchAPI (po_num_results o)) ;;;
      await (searchapi_search w (sa_query a) o)
  | RawGoogle =>
      emit (ProviderRequest RawGoogle (po_num_results o)) ;;;
      await (googleSearch w (sa_query a) o)
  end.

Definition search (w : World) (a : SearchArgs) : M (list SearchResult) :=
  try_catch (search_body w a)
    (fun e =>
       emit (LoggerError ("Error in search function: " +:+ String_of e)) ;;;
       ret []).

End SearchResolver.

(** ** Queue client calls shared by both controllers *)

(** [await addScrapeJob(data, {}, jobId, priority)]: the job is admitted, or
    the call throws. *)
Definition addScrapeJob (w : World) (job_url : string) (jobId : nat)
    (priority : Z) : M unit :=
  match addScrapeJob_outcome w jobId job_url with
  | Some e => throw e
  | None => emit (AddScrapeJob jobId job_url priority)
  end.

(** [await waitForJob(jobId, timeout)] *)
Definition waitForJob (w : World) (jobId : nat) (timeout : Z) : M Document :=
  emit (WaitForJob jobId timeout) ;;;
  await (waitForJob_outcome w jobId timeout).

(** [await getScrapeQueue().remove(jobId)] *)
Definition queue_remove (jobId : nat) : M unit := emit (QueueRemove jobId).

(** The check both controllers use to recognise a timed-out wait. *)
Definition is_timeout_message (errorMessage : string) : bool :=
  startsWith errorMessage "Job wait" || String.eqb errorMessage "timeout".

(** ** [controllers/v1/search.ts] *)

Module V1.

Record ScrapeOptions : Type := mkScrapeOptions {
  formats : option (list string)
}.

(** The request body after [searchRequestSchema.parse]. *)
Record SearchRequest : Type := mkSearchRequest {
  query : string;
  limit : Z;
  tbs : option string;
  filter : option string;
  lang : option string;
  country : option string;
  location : option string;
  origin : string;
  timeout : Z;
  scrapeOptions : ScrapeOptions
}.

(** [req.auth] and [req.acuc?.sub_id]. *)
Record Auth : Type := mkAuth {
  team_id : string;
  plan : option string;
  sub_id : option string
}.

(** The [options] argument of [scrapeSearchResult]. *)
Record Options : Type := mkOptions {
  o_teamId : string;
  o_plan : option string;
  o_origin : string;
  o_timeout : Z;
  o_scrapeOptions : ScrapeOptions
}.

(** The HTTP status and JSON body sent to the caller. *)
Record SearchResponse : Type := mkSearchResponse {
  status : Z;
  success : bool;
  data : option (list Document);
  warning : option string;
  response_error : option string
}.

(** [{ title: r.title, description: r.description, url: r.url, ...doc }]:
    a property of [doc] replaces the SERP property of the same name. *)
Definition spread_over_serp (searchResult : SearchResult) (doc : Document) : Document :=
  mkDocument
    (Some (nullish (title doc) (sr_title searchResult)))
    (Some (nullish (description doc) (sr_description searchResult)))
    (Some (nullish (url doc) (sr_url searchResult)))
    (markdown doc) (html doc) (rawHtml doc) (serpResults doc) (metadata doc).

(** The minimal document returned from the [catch] block. *)
Definition error_document (searchResult : SearchResult) (errorMessage : string) : Document :=
  let statusCode := if includes errorMessage "Could not scrape url" then 403 else 0 in
  mkDocument
    (Some (sr_title searchResult)) (Some (sr_description searchResult))
    (Some (sr_url searchResult)) None None None None
    (Some (mkMetadata (Some statusCode) (Some errorMessage) None)).

(** The error thrown for a blocklisted URL. *)
Definition blocked_error (w : World) : Thrown :=
  new_Error ("Could not scrape url: " +:+ BLOCKLISTED_URL_MESSAGE w).

Definition scrapeSearchResult (w : World) (searchResult : SearchResult)
    (options : Options) : M Document :=
  jobId <- uuidv4 ;;
  let jobPriority := getJobPriority w (o_plan options) (o_teamId options) 10 in
  try_catch
    ((if isUrlBlocked w (sr_url searchResult) then throw (blocked_error w)
      else ret tt) ;;;
     addScrapeJob w (sr_url searchResult) jobId jobPriority ;;;
     doc <- waitForJob w jobId (o_timeout options) ;;
     queue_remove jobId ;;;
     ret (spread_over_serp searchResult doc))
    (fun e =>
       let errorMessage := errorMessage e in
       emit (LoggerError ("Error in scrapeSearchResult: " +:+ errorMessage)) ;;;
       ret (error_document searchResult errorMessage)).

(** [!formats || formats.length === 0] *)
Definition no_formats (s : ScrapeOptions) : bool :=
  match formats s with
  | None => true
  | Some l => (length l =? 0)%nat
  end.

(** The SERP-only document of the fast path. *)
Definition serp_document (r : SearchResult) : Document :=
  mkDocument (Some (sr_title r)) (Some (sr_description r)) (Some (sr_url r))
             None None None None None.

(** [doc.serpResults || (doc.markdown && doc.markdown.trim().length > 0)] *)
Definition has_content (doc : Document) : bool :=
  match serpResults doc with
  | Some _ => true
  | None =>
      match markdown doc with
      | Some m => truthy m && (0 <? String.length (trim m))%nat
      | None => false
      end
  end.

(** [Math.floor(limit * 1.5)] *)
Definition num_results_buffer (limit : Z) : Z :=
  Math_floor (inject_Z limit * (3 # 2)).

(** The [try] block of the controller; [parsed] is the outcome of
    [searchRequestSchema.parse(req.body)]. *)
Definition controller_body (w : World) (auth : Auth)
    (parsed : Thrown + SearchRequest) : M SearchResponse :=
  body <- await parsed ;;
  jobId <- uuidv4 ;;
  let limit := limit body in
  let num_results_buffer := num_results_buffer limit in
  searchResults <-
    SearchResolver.search w
      (SearchResolver.mkSearchArgs (query body) (Some false)
         (Some num_results_buffer) (tbs body) (filter body) (lang body)
         (country body) (location body) None None None) ;;
  let searchResults :=
    if Z.of_nat (length searchResults) >? limit
    then slice0 searchResults limit else searchResults in
  if (length searchResults =? 0)%nat then
    ret (mkSearchResponse 200 true (Some []) (Some "No search results found") None)
  else if no_formats (scrapeOptions body) then
    emit (BillTeam (length searchResults)) ;;;
    ret (mkSearchResponse 200 true (Some (map serp_document searchResults)) None None)
  else
    docs <- promiseAll w
              (fun result =>
                 scrapeSearchResult w result
                   (mkOptions (team_id auth) (plan auth) (origin body)
                              (timeout body) (scrapeOptions body)))
              searchResults ;;
    emit (BillTeam (length docs)) ;;;
    let filteredDocs := List.filter has_content docs in
    if (length filteredDocs =? 0)%nat then
      ret (mkSearchResponse 200 true (Some docs)
             (Some "No content found in search results") None)
    else
      emit (LogJob (length filteredDocs)) ;;;
      ret (mkSearchResponse 200 true (Some filteredDocs) None None).

(** The [catch] block of the controller. *)
Definition controller_catch (e : Thrown) : M SearchResponse :=
  let errorMessage := errorMessage e in
  if is_timeout_message errorMessage then
    ret (mkSearchResponse 408 false None None (Some "Request timed out"))
  else
    emit (LoggerError "Unhandled error occurred in search") ;;;
    ret (mkSearchResponse 500 false None None (Some errorMessage)).

Definition searchController (w : World) (auth : Auth)
    (parsed : Thrown + SearchRequest) : M SearchResponse :=
  try_catch (controller_body w auth parsed) controller_catch.

End V1.

(** ** [controllers/v0/search.ts] *)

Module V0.

Record PageOptions : Type := mkPageOptions {
  fetchPageContent : option bool;
  includeHtml : option bool;
  onlyMainContent : option bool
}.

Record SearchOptions : Type := mkSearchOptions {
  limit : option Z;
  tbs : option string;
  filter : option string;
  lang : option string;
  country : option string;
  location : option string
}.

(** [data] of a helper result: the raw SERP list on the fast path, legacy
    documents otherwise. *)
Inductive Data : Type :=
| SerpData (l : list SearchResult)
| DocData (l : list (option LegacyDocument)).

Definition data_length (d : Data) : nat :=
  match d with
  | SerpData l => length l
  | DocData l => length l
  end.

(** The value [searchHelper] resolves with. *)
Record HelperResult : Type := mkHelperResult {
  success : bool;
  error : option string;
  data : option Data;
  returnCode : Z
}.

(** What [authenticateUser] answered. *)
Record AuthResult : Type := mkAuthResult {
  auth_success : bool;
  auth_status : Z;
  auth_error : option string;
  team_id : string;
  plan : option string;
  chunk_sub_id : option string
}.

(** The HTTP status and JSON body sent to the caller: a helper result, or a
    bare [{ error }] object. *)
Record Response : Type := mkResponse {
  status : Z;
  body_success : option bool;
  body_error : option string;
  body_data : option Data
}.

(** The team whose searches are forced to a single result. *)
Definition single_result_team : string := "d97c4ceb-290b-4957-8432-2b2a02727d95".

(** [Math.min(searchOptions.limit ?? 7, 10)], then the per-team override. *)
Definition num_results_of (team_id : string) (searchOptions : SearchOptions) : Z :=
  let num_results := Z.min (nullish (limit searchOptions) 7) 10 in
  if String.eqb team_id single_result_team then 1 else num_results.

(** [Math.floor(num_results * 1.5)] *)
Definition num_results_buffer (num_results : Z) : Z :=
  Math_floor (inject_Z num_results * (3 # 2)).

(** [doc && doc.content && doc.content.trim().length > 0] *)
Definition has_content (doc : option LegacyDocument) : bool :=
  match doc with
  | Some d =>
      match content d with
      | Some c => truthy c && (0 <? String.length (trim c))%nat
      | None => false
      end
  | None => false
  end.

Definition searchHelper (w : World) (query : option string) (team_id : string)
    (subscription_id : option string) (pageOptions : PageOptions)
    (searchOptions : SearchOptions) (plan : option string) : M HelperResult :=
  if negb (truthy_opt query) then
    ret (mkHelperResult false (Some "Query is required") None 400)
  else
    let num_results := num_results_of team_id searchOptions in
    let num_results_buffer := num_results_buffer num_results in
    res <-
      SearchResolver.search w
        (SearchResolver.mkSearchArgs (nullish query "") (Some false)
           (Some num_results_buffer) (tbs searchOptions) (filter searchOptions)
           (Some (nullish (lang searchOptions) "en"))
           (Some (nullish (country searchOptions) "us"))
           (location searchOptions) None None None) ;;
    let justSearch :=
      match fetchPageContent pageOptions with
      | Some false => true
      | _ => false
      end in
    if justSearch then
      emit (BillTeam (length res)) ;;;
      ret (mkHelperResult true None (Some (SerpData res)) 200)
    else
      let res := List.filter (fun r => negb (isUrlBlocked w (sr_url r))) res in
      let res :=
        if Z.of_nat (length res) >? num_results
        then slice0 res num_results else res in
      if (length res =? 0)%nat then
        ret (mkHelperResult true (Some "No search results found") None 200)
      else
        let jobPriority := getJobPriority w plan team_id 20 in
        jobDatas <- mapM (fun x => uuid <- uuidv4 ;; ret (uuid, sr_url x)) res ;;
        mapM (fun job => addScrapeJob w (snd job) (fst job) jobPriority)
             jobDatas ;;;
        waited <- promiseAll w (fun x => waitForJob w (fst x) 60000) jobDatas ;;
        let docs := map (toLegacyDocument w) waited in
        if (length docs =? 0)%nat then
          ret (mkHelperResult true (Some "No search results found") None 200)
        else
          promiseAll w (fun x => queue_remove (fst x)) jobDatas ;;;
          let filteredDocs := List.filter has_content docs in
          if (length filteredDocs =? 0)%nat then
            ret (mkHelperResult true (Some "No page found") (Some (DocData docs)) 200)
          else
            ret (mkHelperResult true None (Some (DocData filteredDocs)) 200).

(** The part of the controller after the credit check: the helper is run,
    the job is logged and the helper's result is sent. *)
Definition run_helper (w : World) (auth : AuthResult) (query : option string)
    (pageOptions : PageOptions) (searchOptions : SearchOptions) : M Response :=
  result <- searchHelper w query (team_id auth) (chunk_sub_id auth)
              pageOptions searchOptions (plan auth) ;;
  emit (LogJob (match data result with Some d => data_length d | None => 0%nat end)) ;;;
  ret (mkResponse (returnCode result) (Some (success result)) (error result)
                  (data result)).

(** The outer [catch] block of the controller. *)
Definition controller_catch (e : Thrown) : M Response :=
  let errorMessage := errorMessage e in
  if is_timeout_message errorMessage then
    ret (mkResponse 408 None (Some "Request timed out") None)
  else
    emit (LoggerError "Unhandled error occurred in search") ;;;
    ret (mkResponse 500 None (Some errorMessage) None).

(** [searchController]: [credits] is the outcome of [checkTeamCredits].
    The team is recorded and the job id drawn before the credit check. *)
Definition searchController (w : World) (auth : AuthResult)
    (credits : Thrown + bool) (query : option string)
    (pageOptions : option PageOptions) (searchOptions : option SearchOptions) : M Response :=
  try_catch
    (if negb (auth_success auth) then
       ret (mkResponse (auth_status auth) None (auth_error auth) None)
     else
       emit (RedisSadd "teams_using_v0" (team_id auth)) ;;;
       let pageOptions :=
         nullish pageOptions (mkPageOptions (Some true) (Some false) (Some false)) in
       let searchOptions :=
         nullish searchOptions (mkSearchOptions (Some 5) None None None None None) in
       jobId <- uuidv4 ;;
       match credits with
       | inl e =>
           emit (LoggerError (errorMessage e)) ;;;
           ret (mkResponse 500 None (Some "Internal server error") None)
       | inr false => ret (mkResponse 402 None (Some "Insufficient credits") None)
       | inr true => run_helper w auth query pageOptions searchOptions
       end)
    controller_catch.

End V0.

(** ** Observations on a run *)

Definition outcome_of {A : Type} (r : Outcome A * State * list Event) : Outcome A :=
  fst (fst r).

Definition state_of {A : Type} (r : Outcome A * State * list Event) : State :=
  snd (fst r).

Definition log_of {A : Type} (r : Outcome A * State * list Event) : list Event :=
  snd r.

(** The pool indices selected during a run, in order. *)
Definition selected_indices (log : list Event) : list nat :=
  flat_map (fun ev => match ev with KeySelected i => [i] | _ => [] end) log.

(** The sizes of the provider requests issued during a run, in order. *)
Definition requested_sizes (log : list Event) : list Z :=
  flat_map (fun ev =>
              match ev with
              | CseRequest _ _ _ n => [n]
              | ProviderRequest _ n => [n]
              | _ => []
              end) log.

(** The job ids admitted to the queue during a run, with their URLs. *)
Definition admitted_jobs (log : list Event) : list (nat * string) :=
  flat_map (fun ev => match ev with AddScrapeJob j u _ => [(j, u)] | _ => [] end) log.

(** The job ids removed from the queue during a run. *)
Definition removed_jobs (log : list Event) : list nat :=
  flat_map (fun ev => match ev with QueueRemove j => [j] | _ => [] end) log.

(** [released_after_admission log j]: the log admits job [j] and issues a
    removal of [j] at a later position. *)
Definition released_after_admission (log : list Event) (j : nat) : Prop :=
  exists before u p after,
    log = before ++ AddScrapeJob j u p :: after /\ In (QueueRemove j) after.

(** The over-fetch size as the specification words it: [ceil(L * 1.5)]. *)
Definition spec_overfetch (L : Z) : Z := Math_ceil (inject_Z L * (3 # 2)).

(** The successive values of the round-robin index over [n] selections out of
    a pool of [K] keys, starting from index [c]. *)
Fixpoint rotation (K c n : nat) : list nat :=
  match n with
  | O => []
  | S n' => c :: rotation K ((c + 1) mod K)%nat n'
  end.


(** ** Auxiliary definitions used in the statements *)

(** The job list built by [res.map(...)] in [searchHelper]: consecutive
    fresh ids paired with the URLs in result order. *)
Definition jobDatas_of (c : nat) (res : list SearchResult) : list (nat * string) :=
  combine (seq c (length res)) (map sr_url res).

(** The invariant "every provider request asks for [n] results". *)
Definition asks_for (n : Z) (ev : Event) : Prop :=
  match ev with
  | CseRequest _ _ _ m => m = n
  | ProviderRequest _ m => m = n
  | _ => True
  end.

(** The events of a task whose job was admitted and waited for. *)
Definition admitted_then_waited (w : World) (r : SearchResult) (o : V1.Options)
    (j : nat) : list Event :=
  [AddScrapeJob j (sr_url r)
     (getJobPriority w (V1.o_plan o) (V1.o_teamId o) 10);
   WaitForJob j (V1.o_timeout o)].

(** What the [catch] block of [scrapeSearchResult] produces for [e] after the
    events [log]. *)
Definition recovered (r : SearchResult) (st : State) (e : Thrown)
    (log : list Event) : Outcome Document * State * list Event :=
  (Returned (V1.error_document r (errorMessage e)),
   mkState (currentKeyIndex st) (S (uuidCounter st)),
   log ++ [LoggerError ("Error in scrapeSearchResult: " +:+ errorMessage e)]).

(** The invariant "no job is admitted for a blocklisted URL". *)
Definition admits_unblocked (w : World) (ev : Event) : Prop :=
  match ev with
  | AddScrapeJob _ u _ => isUrlBlocked w u = false
  | _ => True
  end.

Definition only_b_blocked (u : string) : bool := String.eqb u "https://b.example/".



(** The options the v1 controller passes to each scrape task. *)
Definition v1_options (auth : V1.Auth) (body : V1.SearchRequest) : V1.Options :=
  V1.mkOptions (V1.team_id auth) (V1.plan auth) (V1.origin body)
               (V1.timeout body) (V1.scrapeOptions body).

(** The part of [searchHelper] that runs once the job list is built: enqueue
    every job, wait for all of them, remove them, filter the documents. *)
Definition v0_batch (w : World) (jobPriority : Z)
    (jobDatas : list (nat * string)) : M V0.HelperResult :=
  mapM (fun job => addScrapeJob w (snd job) (fst job) jobPriority) jobDatas ;;;
  waited <- promiseAll w (fun x => waitForJob w (fst x) 60000) jobDatas ;;
  let docs := map (toLegacyDocument w) waited in
  if (length docs =? 0)%nat then
    ret (V0.mkHelperResult true (Some "No search results found") None 200)
  else
    promiseAll w (fun x => queue_remove (fst x)) jobDatas ;;;
    let filteredDocs := List.filter V0.has_content docs in
    if (length filteredDocs =? 0)%nat then
      ret (V0.mkHelperResult true (Some "No page found") (Some (V0.DocData docs)) 200)
    else
      ret (V0.mkHelperResult true None (Some (V0.DocData filteredDocs)) 200).

(** The answers to the waits of a batch, in job order. *)
Definition wait_answers (w : World) (jobs : list (nat * string)) : list (Outcome Document) :=
  map (fun job =>
         match waitForJob_outcome w (fst job) 60000 with
         | inl e => Threw e
         | inr d => Returned d
         end) jobs.

(** The aggregate of the waits of a batch: the documents in job order, or
    the rejection that happened first. *)
Definition await_all (w : World) (jobs : list (nat * string)) : Thrown + list Document :=
  match rejections (wait_answers w jobs) with
  | [] => inr (fulfilled (wait_answers w jobs))
  | e :: es =>
      inl (nth (first_to_reject w (e :: es) mod length (e :: es))%nat (e :: es) e)
  end.

Definition add_events (priority : Z) (jobs : list (nat * string)) : list Event :=
  map (fun job => AddScrapeJob (fst job) (snd job) priority) jobs.

Definition wait_events (jobs : list (nat * string)) : list Event :=
  map (fun job => WaitForJob (fst job) 60000) jobs.

Definition remove_events (jobs : list (nat * string)) : list Event :=
  map (fun job => QueueRemove (fst job)) jobs.

(** The invariant "no queue admission and no queue removal". *)
Definition no_queue_change (ev : Event) : Prop :=
  match ev with
  | AddScrapeJob _ _ _ => False
  | QueueRemove _ => False
  | _ => True
  end.

(** The invariant "no queue removal". *)
Definition no_removal (ev : Event) : Prop :=
  match ev with
  | QueueRemove _ => False
  | _ => True
  end.

(** The [TypeError] raised by [apiKey.slice(-6)] on an undefined key. *)
Definition undefined_key_error : Thrown :=
  ErrorObject "TypeError"
    "Cannot read properties of undefined (reading 'slice')" None.

(** The state after one call of [getNextApiKey] on a pool of [K] keys. *)
Definition advanced (K : nat) (st : State) : State :=
  mkState ((currentKeyIndex st + 1) mod K)%nat (uuidCounter st).

(** The events of one iteration that reaches the provider: the selection of
    the key at the current index and the request sent with that key. *)
Definition tried (st : State) (key cse q : string) (num_results : Z) : list Event :=
  [KeySelected (currentKeyIndex st); CseRequest key cse q num_results].

(** The index after [d] selections on a pool of [K] keys. *)
Definition moved (K d c : nat) : nat :=
  Nat.iter d (fun c => ((c + 1) mod K)%nat) c.

(** The state in which a call goes on after its [i]-th request on a pool of
    [K] keys: the index has moved by its own selection and by those of the
    other calls in flight. *)
Definition resumed (w : World) (K i : nat) (st : State) : State :=
  mkState (moved K (concurrent_selections w i) ((currentKeyIndex st + 1) mod K)%nat)
          (uuidCounter st).

(** "No other call takes a key while a request of this call is awaited." *)
Definition undisturbed (w : World) : Prop :=
  forall i, concurrent_selections w i = 0%nat.

(** The keys the requests of a run were sent with, in order. *)
Definition keys_sent (log : list Event) : list string :=
  flat_map (fun ev => match ev with CseRequest key _ _ _ => [key] | _ => [] end) log.

(** The indices at the successive selections of one call on a pool of [K]
    keys, [c] being the index at the selection before request [i]. *)
Fixpoint selections (w : World) (K c i n : nat) : list nat :=
  match n with
  | O => []
  | S n' =>
      c :: selections w K
             (moved K (concurrent_selections w i) ((c + 1) mod K)%nat) (S i) n'
  end.

(** ** Further observations *)

(** The credit counts of the billing calls of a run, in order. *)
Definition billed (log : list Event) : list nat :=
  flat_map (fun ev => match ev with BillTeam c => [c] | _ => [] end) log.

(** The providers contacted during a run, in order. *)
Definition contacted (log : list Event) : list Provider :=
  flat_map (fun ev =>
              match ev with
              | CseRequest _ _ _ _ => [GoogleCustomSearch_API]
              | ProviderRequest p _ => [p]
              | _ => []
              end) log.

(** The job ids waited for during a run, in order. *)
Definition waited_jobs (log : list Event) : list nat :=
  flat_map (fun ev => match ev with WaitForJob j _ => [j] | _ => [] end) log.

(** The list a resolved promise carries; empty for a rejected one. *)
Definition results_of {A : Type} (o : Outcome (list A)) : list A :=
  match o with
  | Returned l => l
  | Threw _ => []
  end.

(** [if (l.length > limit) l = l.slice(0, limit)] *)
Definition truncate {A : Type} (l : list A) (limit : Z) : list A :=
  if Z.of_nat (length l) >? limit then slice0 l limit else l.

(** The arguments the v1 controller passes to [search]. *)
Definition v1_search_args (body : V1.SearchRequest) : SearchResolver.SearchArgs :=
  SearchResolver.mkSearchArgs (V1.query body) (Some false)
    (Some (V1.num_results_buffer (V1.limit body))) (V1.tbs body) (V1.filter body)
    (V1.lang body) (V1.country body) (V1.location body) None None None.

(** The arguments the v0 helper passes to [search]. *)
Definition v0_search_args (query : option string) (team : string)
    (so : V0.SearchOptions) : SearchResolver.SearchArgs :=
  SearchResolver.mkSearchArgs (nullish query "") (Some false)
    (Some (V0.num_results_buffer (V0.num_results_of team so))) (V0.tbs so)
    (V0.filter so) (Some (nullish (V0.lang so) "en"))
    (Some (nullish (V0.country so) "us")) (V0.location so) None None None.

(** The state after one [uuidv4()]. *)
Definition after_uuid (st : State) : State :=
  mkState (currentKeyIndex st) (S (uuidCounter st)).

(** [n] successive calls of [getNextApiKey] on the same pool. *)
Fixpoint draw_keys (keys : list string) (n : nat) : M (list (option string)) :=
  match n with
  | O => ret []
  | S n' =>
      key <- GoogleCustomSearch.getNextApiKey keys ;;
      rest <- draw_keys keys n' ;;
      ret (key :: rest)
  end.

(** [d] is the document of the scrape task of [r]: the recovered document of
    a failed task, or the merge of [r] with the scraped document. *)
Definition task_document (r : SearchResult) (d : Document) : Prop :=
  (exists msg, d = V1.error_document r msg) \/
  (exists doc, d = V1.spread_over_serp r doc).

(** The invariant "no billing call". *)
Definition no_billing (ev : Event) : Prop :=
  match ev with
  | BillTeam _ => False
  | _ => True
  end.

(** The invariant "no call to the queue": no admission, wait or removal. *)
Definition no_queue_call (ev : Event) : Prop :=
  match ev with
  | AddScrapeJob _ _ _ => False
  | WaitForJob _ _ => False
  | QueueRemove _ => False
  | _ => True
  end.

(** The truncated result list the v1 controller works on. *)
Definition v1_results (w : World) (body : V1.SearchRequest) (st : State) : list SearchResult :=
  truncate
    (results_of (outcome_of (SearchResolver.search w (v1_search_args body) (after_uuid st))))
    (V1.limit body).

(** The invariant "every admission uses priority [p] and every wait uses
    timeout [t]". *)
Definition queued_with (p t : Z) (ev : Event) : Prop :=
  match ev with
  | AddScrapeJob _ _ p' => p' = p
  | WaitForJob _ t' => t' = t
  | _ => True
  end.

(** "Every admitted job is waited for, in admission order, nothing else is
    waited for, and only waited jobs are removed." *)
Definition admitted_are_waited (log : list Event) : Prop :=
  waited_jobs log = map fst (admitted_jobs log) /\
  incl (removed_jobs log) (waited_jobs log).
(** ** Concrete scenarios *)

(** A world with no provider credentials configured: [search] falls back to
    the raw provider, which answers with at most the requested number of
    [results]; the queue admits every job and [waits] answers the waits. *)
Definition raw_world (results : list SearchResult) (blocked : string -> bool)
    (waits : nat -> Thrown + Document) : World :=
  mkWorld ∅ (fun _ _ _ _ _ => inr [])
    (fun _ _ => inr []) (fun _ _ => inr [])
    (fun _ o => inr (firstn (Z.to_nat (po_num_results o)) results))
    blocked "URL is blocked"
    (fun _ _ base => base) (fun _ _ => None) (fun j _ => waits j)
    (fun d => Some (mkLegacyDocument (markdown d) (markdown d) (url d)))
    (fun _ => 0%nat) (fun _ => 0%nat).

Definition three_results : list SearchResult :=
  [mkSearchResult "https://a.example/" "A" "first";
   mkSearchResult "https://b.example/" "B" "second";
   mkSearchResult "https://c.example/" "C" "third"].

(** The error a timed-out wait rejects with, as the handlers expect it. *)
Definition job_wait_timeout : Thrown := new_Error "Job wait ".

Definition scraped_page : Document :=
  mkDocument (Some "Scraped title") (Some "Scraped description") None
    (Some "# Page body") None None None
    (Some (mkMetadata (Some 200) None (Some "https://a.example/"))).

Definition initial_state : State := mkState 0 0.

Definition v1_auth : V1.Auth := V1.mkAuth "team-1" None None.

Definition v1_request (limit : Z) (formats : list string) : V1.SearchRequest :=
  V1.mkSearchRequest "rust ownership" limit None None None None None "api"
    60000 (V1.mkScrapeOptions (Some formats)).

Definition v0_auth : V0.AuthResult :=
  V0.mkAuthResult true 200 None "team-1" None None.

Definition v0_options (limit : Z) : V0.SearchOptions :=
  V0.mkSearchOptions (Some limit) None None None None None.

(** An environment that sets only GOOGLE_API_KEY2 and GOOGLE_CSE_ID. *)
Definition env_only_key2 : gmap string string :=
  <["GOOGLE_API_KEY2" := "second-key"]> (<["GOOGLE_CSE_ID" := "engine"]> ∅).

(** An environment with two keys, and a world over it whose Custom Search
    endpoint answers every request with the given error. *)
Definition env_two_keys : gmap string string :=
  <["GOOGLE_API_KEY" := "key-one"]>
    (<["GOOGLE_API_KEY2" := "key-two"]> (<["GOOGLE_CSE_ID" := "engine"]> ∅)).

Definition failing_cse_world (errors : nat -> string -> Thrown) : World :=
  mkWorld env_two_keys (fun i key _ _ _ => inl (errors i key))
    (fun _ _ => inr []) (fun _ _ => inr []) (fun _ _ => inr [])
    (fun _ => false) "URL is blocked"
    (fun _ _ base => base) (fun _ _ => None)
    (fun _ _ => inl job_wait_timeout)
    (fun d => Some (mkLegacyDocument (markdown d) (markdown d) (url d)))
    (fun _ => 0%nat) (fun _ => 0%nat).

(** Every key is answered with HTTP 429, except that the second request of a
    call is answered with HTTP 403. *)
Definition quota_errors (i : nat) (key : string) : Thrown :=
  if (i =? 1)%nat
  then ErrorObject "AxiosError" "Request failed with status code 403" (Some 403)
  else ErrorObject "AxiosError" "Request failed with status code 429" (Some 429).

Definition plain_args (num : Z) : SearchResolver.SearchArgs :=
  SearchResolver.mkSearchArgs "rust ownership" None (Some num) None None None
    None None None None None.

(** A world in which every wait times out. *)
Definition all_timeouts_world : World :=
  raw_world three_results (fun _ => false) (fun _ => inl job_wait_timeout).

(** A world in which every wait resolves with a scraped page. *)
Definition all_scraped_world : World :=
  raw_world three_results (fun _ => false) (fun _ => inr scraped_page).

(** An environment whose GOOGLE_API_KEY is a single space, with a Serper key
    configured as well, and a world over it whose providers all answer. *)
Definition env_blank_key : gmap string string :=
  <["GOOGLE_API_KEY" := " "]>
    (<["GOOGLE_CSE_ID" := "engine"]> (<["SERPER_API_KEY" := "serper-key"]> ∅)).

Definition blank_key_world : World :=
  mkWorld env_blank_key (fun _ _ _ _ _ => inr [])
    (fun _ _ => inr three_results) (fun _ _ => inr three_results)
    (fun _ _ => inr three_results)
    (fun _ => false) "URL is blocked"
    (fun _ _ base => base) (fun _ _ => None) (fun _ _ => inr scraped_page)
    (fun d => Some (mkLegacyDocument (markdown d) (markdown d) (url d)))
    (fun _ => 0%nat) (fun _ => 0%nat).

(** A world over two keys whose first request of a call is answered with
    HTTP 429 and whose later requests succeed with one item. *)
Definition one_item : list CseItem :=
  [mkCseItem (Some "https://a.example/") (Some "A") None].

Definition second_try_world : World :=
  mkWorld env_two_keys
    (fun i _ _ _ _ =>
       if (i =? 0)%nat
       then inl (ErrorObject "AxiosError" "Request failed with status code 429" (Some 429))
       else inr one_item)
    (fun _ _ => inr []) (fun _ _ => inr []) (fun _ _ => inr [])
    (fun _ => false) "URL is blocked"
    (fun _ _ base => base) (fun _ _ => None) (fun _ _ => inr scraped_page)
    (fun d => Some (mkLegacyDocument (markdown d) (markdown d) (url d)))
    (fun _ => 0%nat) (fun _ => 0%nat).

(** Two calls in flight over two keys: the first request of this call is
    answered with HTTP 429 and, while it is awaited, another call takes one
    key from the pool; the second request succeeds with one item. *)
Definition overlapping_calls_world : World :=
  mkWorld env_two_keys
    (fun i _ _ _ _ =>
       if (i =? 0)%nat
       then inl (ErrorObject "AxiosError" "Request failed with status code 429" (Some 429))
       else inr one_item)
    (fun _ _ => inr []) (fun _ _ => inr []) (fun _ _ => inr [])
    (fun _ => false) "URL is blocked"
    (fun _ _ base => base) (fun _ _ => None) (fun _ _ => inr scraped_page)
    (fun d => Some (mkLegacyDocument (markdown d) (markdown d) (url d)))
    (fun i => if (i =? 0)%nat then 1%nat else 0%nat) (fun _ => 0%nat).

(** A world in which the wait on job 1 resolves and every other wait times
    out. *)
Definition first_only_world : World :=
  raw_world three_results (fun _ => false)
    (fun j => if (j =? 1)%nat then inr scraped_page else inl job_wait_timeout).

(** * Properties *)

(** ** Reasoning about runs *)

Lemma run_bind {A B : Type} (m : M A) (k : A -> M B) (st : State) :
  bind m k st =
  match outcome_of (m st) with
  | Returned a =>
      (outcome_of (k a (state_of (m st))), state_of (k a (state_of (m st))),
       log_of (m st) ++ log_of (k a (state_of (m st))))
  | Threw e => (Threw e, state_of (m st), log_of (m st))
  end.
Proof.
  unfold bind, outcome_of, state_of, log_of.
  destruct (m st) as [[[a | e] st1] log1]; simpl; [| reflexivity].
  destruct (k a st1) as [[r st2] log2]; reflexivity.
Qed.

Lemma run_try_catch {A : Type} (body : M A) (handler : Thrown -> M A) (st : State) :
  try_catch body handler st =
  match outcome_of (body st) with
  | Returned a => (Returned a, state_of (body st), log_of (body st))
  | Threw e =>
      (outcome_of (handler e (state_of (body st))),
       state_of (handler e (state_of (body st))),
       log_of (body st) ++ log_of (handler e (state_of (body st))))
  end.
Proof.
  unfold try_catch, outcome_of, state_of, log_of.
  destruct (body st) as [[[a | e] st1] log1]; simpl; [reflexivity |].
  destruct (handler e st1) as [[r st2] log2]; reflexivity.
Qed.

Lemma run_eta {A : Type} (r : Outcome A * State * list Event) :
  r = (outcome_of r, state_of r, log_of r).
Proof. destruct r as [[o s] l]; reflexivity. Qed.

Section LogInvariant.

Variable P : Event -> Prop.

Lemma log_ret {A : Type} (a : A) (st : State) : Forall P (log_of (ret a st)).
Proof. constructor. Qed.

Lemma log_throw {A : Type} (e : Thrown) (st : State) :
  Forall P (log_of (@throw A e st)).
Proof. constructor. Qed.

Lemma log_await {A : Type} (r : Thrown + A) (st : State) :
  Forall P (log_of (await r st)).
Proof. destruct r; constructor. Qed.

Lemma log_uuidv4 (st : State) : Forall P (log_of (uuidv4 st)).
Proof. constructor. Qed.

Lemma log_emit (ev : Event) (st : State) : P ev -> Forall P (log_of (emit ev st)).
Proof. intros H. repeat constructor. exact H. Qed.

Lemma log_bind {A B : Type} (m : M A) (k : A -> M B) (st : State) :
  Forall P (log_of (m st)) ->
  (forall a, outcome_of (m st) = Returned a ->
             Forall P (log_of (k a (state_of (m st))))) ->
  Forall P (log_of (bind m k st)).
Proof.
  intros Hm Hk. rewrite run_bind.
  destruct (outcome_of (m st)) as [a | e] eqn:E; simpl; [| exact Hm].
  apply Forall_app. split; [exact Hm | apply Hk; reflexivity].
Qed.

Lemma log_try_catch {A : Type} (body : M A) (handler : Thrown -> M A) (st : State) :
  Forall P (log_of (body st)) ->
  (forall e, outcome_of (body st) = Threw e ->
             Forall P (log_of (handler e (state_of (body st))))) ->
  Forall P (log_of (try_catch body handler st)).
Proof.
  intros Hb Hh. rewrite run_try_catch.
  destruct (outcome_of (body st)) as [a | e] eqn:E; simpl; [exact Hb |].
  apply Forall_app. split; [exact Hb | apply Hh; reflexivity].
Qed.

Lemma log_mapM {A B : Type} (f : A -> M B) (l : list A) :
  (forall x st, In x l -> Forall P (log_of (f x st))) ->
  forall st, Forall P (log_of (mapM f l st)).
Proof.
  induction l as [| x l IH]; intros Hf st; cbn [mapM].
  - apply log_ret.
  - apply log_bind; [apply Hf; left; reflexivity |].
    intros y _. apply log_bind.
    + apply IH. intros x' st' Hx'. apply Hf. right. exact Hx'.
    + intros ys _. apply log_ret.
Qed.

Lemma log_settleAll {A B : Type} (f : A -> M B) (l : list A) :
  (forall x st, In x l -> Forall P (log_of (f x st))) ->
  forall st, Forall P (snd (settleAll f l st)).
Proof.
  induction l as [| x l IH]; intros Hf st; cbn [settleAll].
  - constructor.
  - assert (Hx : Forall P (log_of (f x st))) by (apply Hf; left; reflexivity).
    destruct (f x st) as [[r st1] log1].
    assert (Hl : Forall P (snd (settleAll f l st1))).
    { apply IH. intros x' st' Hx'. apply Hf. right. exact Hx'. }
    destruct (settleAll f l st1) as [[rs st2] log2].
    unfold log_of in *; simpl in *. apply Forall_app. split; assumption.
Qed.

Lemma log_promiseAll {A B : Type} (w : World) (f : A -> M B) (l : list A) :
  (forall x st, In x l -> Forall P (log_of (f x st))) ->
  forall st, Forall P (log_of (promiseAll w f l st)).
Proof.
  intros Hf st. pose proof (log_settleAll f l Hf st) as H.
  unfold promiseAll. destruct (settleAll f l st) as [[rs st'] log]. exact H.
Qed.

End LogInvariant.

(** [emits H]: the run starts by issuing an event that satisfies the
    invariant by [H]; what remains is the continuation. *)
Ltac emits H := apply log_bind; [apply log_emit, H | intros _ _].

(** [emits_only H]: the run issues one such event and returns. *)
Ltac emits_only H := emits H; apply log_ret.

(** ** Provider selection and the resolver boundary *)

Lemma trim_nonempty_truthy (v : string) : trim v <> "" -> truthy v = true.
Proof. destruct v; [intros H; elim H; reflexivity | reflexivity]. Qed.

(** [trim] on a few texts: white space is removed at both ends only; every
    character of [whiteSpace] is removed, the no-break space and the
    separators beyond ASCII included; a letter whose encoding ends in the
    byte 160 is kept. *)
Lemma trim_examples :
  trim "  a b  " = "a b" /\
  trim (of_bytes [9; 10; 11; 12; 13; 32]) = "" /\
  trim (of_bytes [160]) = "" /\
  trim (of_bytes [194; 160; 97; 226; 128; 168; 239; 187; 191]) = "a" /\
  trim (of_bytes [32; 195; 160; 32]) = of_bytes [195; 160] /\
  Forall (fun ch => trim ch = "") whiteSpace.
Proof.
  repeat split; try reflexivity. repeat constructor.
Qed.




Lemma search_outcome (w : World) (a : SearchResolver.SearchArgs) (st : State) :
  outcome_of (SearchResolver.search w a st) =
  match outcome_of (SearchResolver.search_body w a st) with
  | Returned rs => Returned rs
  | Threw _ => Returned []
  end.
Proof.
  unfold SearchResolver.search. rewrite run_try_catch.
  destruct (outcome_of (SearchResolver.search_body w a st)); reflexivity.
Qed.

(** C9. [search] never throws: whatever the chosen provider does, the caller
    gets a list, and a failure raised inside the resolver (key exhaustion, a
    provider error, any rejected provider call) gives the empty list. *)
Theorem search_fails_open (w : World) (a : SearchResolver.SearchArgs) (st : State) :
  (exists results,
     outcome_of (SearchResolver.search w a st) = Returned results) /\
  (forall e,
     outcome_of (SearchResolver.search_body w a st) = Threw e ->
     outcome_of (SearchResolver.search w a st) = Returned []).
Proof.
  rewrite search_outcome.
  destruct (outcome_of (SearchResolver.search_body w a st)) as [rs | e] eqn:E.
  - split; [exists rs; reflexivity | intros e He; discriminate].
  - split; [exists [] | intros e' _]; reflexivity.
Qed.

Lemma search_fails_open_witness :
  outcome_of
    (SearchResolver.search (failing_cse_world quota_errors) (plain_args 3)
       (mkState 1 0)) = Returned [].
Proof.
  apply (proj2 (search_fails_open (failing_cse_world quota_errors) (plain_args 3)
                  (mkState 1 0))
           (new_Error
              "All Google CSE keys exhausted. Last error code: 403, message: Request failed with status code 403")).
  vm_compute. reflexivity.
Defined.

(** ** Which events a run can issue *)

Section EventInvariant.

Variable w : World.
Variable P : Event -> Prop.
Variable n : Z.

Hypothesis P_key : forall i, P (KeySelected i).
Hypothesis P_cse : forall key cx q, P (CseRequest key cx q n).
Hypothesis P_request : forall p, P (ProviderRequest p n).
Hypothesis P_sadd : forall s m, P (RedisSadd s m).
Hypothesis P_add :
  forall j u p, isUrlBlocked w u = false -> P (AddScrapeJob j u p).
Hypothesis P_wait : forall j t, P (WaitForJob j t).
Hypothesis P_remove : forall j, P (QueueRemove j).
Hypothesis P_bill : forall c, P (BillTeam c).
Hypothesis P_logjob : forall c, P (LogJob c).
Hypothesis P_logger : forall m, P (LoggerError m).

Lemma getNextApiKey_log (keys : list string) (st : State) :
  Forall P (log_of (GoogleCustomSearch.getNextApiKey keys st)).
Proof.
  unfold GoogleCustomSearch.getNextApiKey.
  destruct (length keys =? 0)%nat; repeat constructor. apply P_key.
Qed.

Lemma attempt_log (i : nat) (apiKey : option string) (cse q : string) (st : State) :
  Forall P (log_of (GoogleCustomSearch.attempt w i apiKey cse q n st)).
Proof.
  unfold GoogleCustomSearch.attempt. destruct apiKey as [key |].
  - emits P_cse.
    apply log_bind; [constructor |]. intros _ _.
    apply log_bind; [apply log_await |]. intros items _. apply log_ret.
  - apply log_throw.
Qed.

Lemma keyLoop_log (keys : list string) (cse q : string) (remaining : nat) :
  forall i lastError st,
    Forall P (log_of (GoogleCustomSearch.keyLoop w keys cse q n remaining i lastError st)).
Proof.
  induction remaining as [| r IH]; intros i lastError st;
    cbn [GoogleCustomSearch.keyLoop].
  - apply log_throw.
  - apply log_bind; [apply getNextApiKey_log |]. intros apiKey _.
    apply log_bind.
    + apply log_try_catch.
      * apply log_bind; [apply attempt_log |]. intros rs _. apply log_ret.
      * intros e _. destruct (GoogleCustomSearch.retryable (status_of e));
          [apply log_ret | apply log_throw].
    + intros [e | rs] _; [apply IH | apply log_ret].
Qed.

Lemma googleCustomSearch_log (q : string) (st : State) :
  Forall P (log_of (GoogleCustomSearch.googleCustomSearch w q (Some n) st)).
Proof.
  unfold GoogleCustomSearch.googleCustomSearch. cbn [nullish].
  destruct (negb (truthy_opt (env w !! "GOOGLE_CSE_ID"))); [apply log_throw |].
  destruct (length (GoogleCustomSearch.getAllApiKeys (env w)) =? 0)%nat;
    [apply log_throw | apply keyLoop_log].
Qed.

Lemma search_log (a : SearchResolver.SearchArgs) (st : State) :
  SearchResolver.sa_num_results a = Some n ->
  Forall P (log_of (SearchResolver.search w a st)).
Proof.
  intros Hn. unfold SearchResolver.search. apply log_try_catch.
  - unfold SearchResolver.search_body, SearchResolver.resolved_options.
    rewrite Hn. cbn [po_num_results nullish].
    destruct (SearchResolver.selectedProvider (env w)).
    + apply googleCustomSearch_log.
    + emits P_request; apply log_await.
    + emits P_request; apply log_await.
    + emits P_request; apply log_await.
  - intros e _. emits_only P_logger.
Qed.

Lemma addScrapeJob_log (u : string) (j : nat) (p : Z) (st : State) :
  isUrlBlocked w u = false ->
  Forall P (log_of (addScrapeJob w u j p st)).
Proof.
  intros Hu. unfold addScrapeJob.
  destruct (addScrapeJob_outcome w j u);
    [apply log_throw | apply log_emit, P_add, Hu].
Qed.

Lemma waitForJob_log (j : nat) (t : Z) (st : State) :
  Forall P (log_of (waitForJob w j t st)).
Proof.
  unfold waitForJob. emits P_wait. apply log_await.
Qed.

Lemma scrapeSearchResult_log (r : SearchResult) (o : V1.Options) (st : State) :
  Forall P (log_of (V1.scrapeSearchResult w r o st)).
Proof.
  unfold V1.scrapeSearchResult.
  apply log_bind; [apply log_uuidv4 |]. intros j _.
  apply log_try_catch.
  - destruct (isUrlBlocked w (sr_url r)) eqn:B.
    + rewrite run_bind. cbn. constructor.
    + apply log_bind; [apply log_ret |]. intros _ _.
      apply log_bind; [apply addScrapeJob_log, B |]. intros _ _.
      apply log_bind; [apply waitForJob_log |]. intros doc _.
      emits P_remove. apply log_ret.
  - intros e _. emits_only P_logger.
Qed.

Lemma v1_controller_log (auth : V1.Auth) (parsed : Thrown + V1.SearchRequest)
    (st : State) :
  (forall body, parsed = inr body -> V1.num_results_buffer (V1.limit body) = n) ->
  Forall P (log_of (V1.searchController w auth parsed st)).
Proof.
  intros Hn. unfold V1.searchController. apply log_try_catch.
  - unfold V1.controller_body.
    apply log_bind; [apply log_await |]. intros body Hbody.
    assert (Hb : parsed = inr body).
    { destruct parsed as [e | b]; [discriminate Hbody |].
      cbn in Hbody. congruence. }
    apply log_bind; [apply log_uuidv4 |]. intros j _.
    apply log_bind; [apply search_log; cbn; f_equal; apply Hn, Hb |].
    intros rs _.
    match goal with |- context [(length ?l =? 0)%nat] => destruct (length l =? 0)%nat end;
      [apply log_ret |].
    destruct (V1.no_formats (V1.scrapeOptions body)).
    + emits_only P_bill.
    + apply log_bind.
      * apply log_promiseAll. intros x st' _. apply scrapeSearchResult_log.
      * intros docs _. emits P_bill.
        destruct (length (List.filter V1.has_content docs) =? 0)%nat;
          [apply log_ret |].
        emits_only P_logjob.
  - intros e _. unfold V1.controller_catch.
    destruct (is_timeout_message (errorMessage e)); [apply log_ret |].
    emits_only P_logger.
Qed.

End EventInvariant.

(** ** The v0 helper: job creation and its events *)

Lemma jobDatas_run (res : list SearchResult) :
  forall st,
    mapM (fun x => uuid <- uuidv4 ;; ret (uuid, sr_url x)) res st =
    (Returned (jobDatas_of (uuidCounter st) res),
     mkState (currentKeyIndex st) (uuidCounter st + length res), []).
Proof.
  induction res as [| x res IH]; intros [k c]; cbn [mapM].
  - unfold ret, jobDatas_of. cbn. rewrite Nat.add_0_r. reflexivity.
  - rewrite run_bind. cbn. rewrite run_bind. rewrite IH. cbn.
    unfold jobDatas_of. cbn. repeat f_equal. lia.
Qed.

Lemma jobDatas_urls (c : nat) (res : list SearchResult) (job : nat * string) :
  In job (jobDatas_of c res) -> exists x, In x res /\ snd job = sr_url x.
Proof.
  unfold jobDatas_of. destruct job as [j u]. intros H.
  apply in_combine_r in H. apply in_map_iff in H.
  destruct H as [x [Hx Hin]]. exists x. split; [exact Hin | symmetry; exact Hx].
Qed.

Lemma slice0_incl {A : Type} (l : list A) (k : Z) (x : A) :
  In x (slice0 l k) -> In x l.
Proof.
  assert (Hfirst : forall m, In x (firstn m l) -> In x l).
  { intros m H. rewrite <- (firstn_skipn m l). apply in_or_app. left. exact H. }
  unfold slice0. destruct (0 <=? k); apply Hfirst.
Qed.

Section EventInvariantV0.

Variable w : World.
Variable P : Event -> Prop.
Variable n : Z.

Hypothesis P_key : forall i, P (KeySelected i).
Hypothesis P_cse : forall key cx q, P (CseRequest key cx q n).
Hypothesis P_request : forall p, P (ProviderRequest p n).
Hypothesis P_sadd : forall s m, P (RedisSadd s m).
Hypothesis P_add :
  forall j u p, isUrlBlocked w u = false -> P (AddScrapeJob j u p).
Hypothesis P_wait : forall j t, P (WaitForJob j t).
Hypothesis P_remove : forall j, P (QueueRemove j).
Hypothesis P_bill : forall c, P (BillTeam c).
Hypothesis P_logjob : forall c, P (LogJob c).
Hypothesis P_logger : forall m, P (LoggerError m).

Lemma v0_helper_log (query : option string) (team : string)
    (sub : option string) (po : V0.PageOptions) (so : V0.SearchOptions)
    (plan : option string) (st : State) :
  V0.num_results_buffer (V0.num_results_of team so) = n ->
  Forall P (log_of (V0.searchHelper w query team sub po so plan st)).
Proof.
  intros Hn. unfold V0.searchHelper.
  destruct (negb (truthy_opt query)); [apply log_ret |].
  apply log_bind.
  { apply (search_log w P n); auto. cbn. f_equal. exact Hn. }
  intros res _.
  match goal with |- context [if ?b then _ else _] => destruct b end.
  { emits_only P_bill. }
  set (kept := List.filter (fun r => negb (isUrlBlocked w (sr_url r))) res).
  set (sliced := if Z.of_nat (length kept) >? V0.num_results_of team so
                 then slice0 kept (V0.num_results_of team so) else kept).
  assert (Hkept : forall x, In x sliced -> isUrlBlocked w (sr_url x) = false).
  { intros x Hx.
    assert (Hk : In x kept).
    { subst sliced. destruct (Z.of_nat (length kept) >? _);
        [apply (slice0_incl _ _ _ Hx) | exact Hx]. }
    subst kept. apply filter_In in Hk. destruct Hk as [_ Hk].
    apply negb_true_iff in Hk. exact Hk. }
  destruct (length sliced =? 0)%nat; [apply log_ret |].
  rewrite run_bind, jobDatas_run. cbn [outcome_of state_of log_of fst snd app].
  set (st1 := state_of (SearchResolver.search w _ st)).
  set (jobs := jobDatas_of (uuidCounter st1) sliced).
  apply log_bind.
  { apply log_mapM. intros job st' Hjob.
    destruct (jobDatas_urls _ _ _ Hjob) as [x [Hx Hu]].
    apply (addScrapeJob_log w P); [exact P_add | rewrite Hu; apply Hkept, Hx]. }
  intros _ _. apply log_bind.
  { apply log_promiseAll. intros job st' _. apply (waitForJob_log w P), P_wait. }
  intros waited _.
  destruct (length (map (toLegacyDocument w) waited) =? 0)%nat; [apply log_ret |].
  apply log_bind.
  { apply log_promiseAll. intros job st' _. apply log_emit, P_remove. }
  intros _ _.
  destruct (length (List.filter V0.has_content (map (toLegacyDocument w) waited)) =? 0)%nat;
    apply log_ret.
Qed.

Lemma v0_controller_log (auth : V0.AuthResult) (credits : Thrown + bool)
    (query : option string) (po : option V0.PageOptions)
    (so : option V0.SearchOptions) (st : State) :
  V0.num_results_buffer
    (V0.num_results_of (V0.team_id auth)
       (nullish so (V0.mkSearchOptions (Some 5) None None None None None))) = n ->
  Forall P (log_of (V0.searchController w auth credits query po so st)).
Proof.
  intros Hn. unfold V0.searchController. apply log_try_catch.
  - destruct (negb (V0.auth_success auth)); [apply log_ret |].
    emits P_sadd.
    apply log_bind; [apply log_uuidv4 |]. intros j _.
    destruct credits as [e | [|]].
    + emits_only P_logger.
    + unfold V0.run_helper.
      apply log_bind; [apply v0_helper_log, Hn |]. intros result _.
      emits_only P_logjob.
    + apply log_ret.
  - intros e _. unfold V0.controller_catch.
    destruct (is_timeout_message (errorMessage e)); [apply log_ret |].
    emits_only P_logger.
Qed.

End EventInvariantV0.

(** ** Over-fetch size *)

Lemma floor_three_halves (L : Z) :
  Math_floor (inject_Z L * (3 # 2)) = (3 * L) / 2.
Proof.
  unfold Math_floor, Qfloor. cbn. f_equal. lia.
Qed.

Lemma ceil_three_halves (L : Z) :
  Math_ceil (inject_Z L * (3 # 2)) = - ((- (3 * L)) / 2).
Proof.
  unfold Math_ceil, Qceiling, Qfloor. cbn. f_equal. f_equal. lia.
Qed.

Lemma floor_is_ceil_iff_even (L : Z) :
  (3 * L) / 2 = - ((- (3 * L)) / 2) <-> Z.even L = true.
Proof.
  rewrite Z.even_spec. split.
  - intros H. exists ((3 * L) / 2 - L).
    pose proof (Z.div_mod (3 * L) 2 ltac:(lia)) as H1.
    pose proof (Z.div_mod (- (3 * L)) 2 ltac:(lia)) as H2.
    pose proof (Z.mod_pos_bound (3 * L) 2 ltac:(lia)).
    pose proof (Z.mod_pos_bound (- (3 * L)) 2 ltac:(lia)).
    lia.
  - intros [k ->].
    replace (3 * (2 * k)) with ((3 * k) * 2) by lia.
    replace (- (3 * k * 2)) with ((- (3 * k)) * 2) by lia.
    rewrite !Z.div_mul by lia. lia.
Qed.

Lemma requested_sizes_all (n : Z) (log : list Event) :
  Forall (asks_for n) log -> forall m, In m (requested_sizes log) -> m = n.
Proof.
  intros HF m Hm. unfold requested_sizes in Hm.
  apply in_flat_map in Hm. destruct Hm as [ev [Hev Hin]].
  rewrite Forall_forall in HF. specialize (HF ev).
  destruct ev; try (destruct Hin; fail);
    (destruct Hin as [<- | []]; apply HF, list_elem_of_In; exact Hev).
Qed.

(** C2 (as the code has it). The number of results requested from the
    provider is [floor(L * 1.5)], that is [(3 * L) / 2]; it equals the
    specification's [ceil(L * 1.5)] exactly when [L] is even.  Every provider
    request of the v1 controller carries that number; the v0 helper first
    caps the limit at 10 (or forces 1 for one team) and then applies the same
    formula. *)
Theorem overfetch_is_floor (L : Z) :
  V1.num_results_buffer L = (3 * L) / 2 /\
  (V1.num_results_buffer L = spec_overfetch L <-> Z.even L = true) /\
  (forall w auth body st m,
     V1.limit body = L ->
     In m (requested_sizes (log_of (V1.searchController w auth (inr body) st))) ->
     m = (3 * L) / 2) /\
  (forall w query team sub po so plan st m,
     V0.limit so = Some L ->
     In m (requested_sizes
             (log_of (V0.searchHelper w query team sub po so plan st))) ->
     m = (3 * (if String.eqb team V0.single_result_team then 1
               else Z.min L 10)) / 2).
Proof.
  split; [| split; [| split]].
  - apply floor_three_halves.
  - unfold V1.num_results_buffer, spec_overfetch.
    rewrite floor_three_halves, ceil_three_halves.
    apply floor_is_ceil_iff_even.
  - intros w auth body st m HL Hm.
    apply (requested_sizes_all ((3 * L) / 2) _) in Hm; [exact Hm |].
    apply (v1_controller_log w (asks_for ((3 * L) / 2)) ((3 * L) / 2));
      try (intros; exact I); try reflexivity.
    intros b Hb. injection Hb as <-. rewrite HL. apply floor_three_halves.
  - intros w query team sub po so plan st m HL Hm.
    set (n := (3 * (if String.eqb team V0.single_result_team then 1
                    else Z.min L 10)) / 2) in *.
    apply (requested_sizes_all n _) in Hm; [exact Hm |].
    apply (v0_helper_log w (asks_for n) n);
      try (intros; exact I); try reflexivity.
    unfold V0.num_results_buffer, V0.num_results_of.
    rewrite floor_three_halves, HL. cbn [nullish]. subst n.
    destruct (String.eqb team V0.single_result_team); reflexivity.
Qed.

Lemma overfetch_is_floor_witness :
  In 4 (requested_sizes
          (log_of (V1.searchController
                     (raw_world three_results (fun _ => false) (fun _ => inr scraped_page))
                     v1_auth (inr (v1_request 3 ["markdown"])) initial_state))) /\
  4 = (3 * 3) / 2.
Proof.
  split.
  - vm_compute. left. reflexivity.
  - apply (proj1 (proj2 (proj2 (overfetch_is_floor 3)))
             (raw_world three_results (fun _ => false) (fun _ => inr scraped_page))
             v1_auth (v1_request 3 ["markdown"]) initial_state 4).
    + reflexivity.
    + vm_compute. left. reflexivity.
Defined.

(** C2 (as the specification words it) fails for an odd limit: with limit 3
    the controller asks the provider for 4 results, while [ceil(3 * 1.5)] is 5. *)
Lemma overfetch_not_ceil :
  requested_sizes
    (log_of (V1.searchController
               (raw_world three_results (fun _ => false) (fun _ => inr scraped_page))
               v1_auth (inr (v1_request 3 ["markdown"])) initial_state)) = [4] /\
  spec_overfetch 3 = 5 /\
  V1.num_results_buffer 3 <> spec_overfetch 3.
Proof.
  split; [vm_compute; reflexivity |].
  split; [vm_compute; reflexivity |].
  vm_compute. discriminate.
Qed.

(** ** One scrape task of the v1 controller *)

Lemma scrapeSearchResult_run (w : World) (r : SearchResult) (o : V1.Options)
    (st : State) :
  V1.scrapeSearchResult w r o st =
  let j := uuidCounter st in
  if isUrlBlocked w (sr_url r) then recovered r st (V1.blocked_error w) []
  else
    match addScrapeJob_outcome w j (sr_url r) with
    | Some e => recovered r st e []
    | None =>
        match waitForJob_outcome w j (V1.o_timeout o) with
        | inl e => recovered r st e (admitted_then_waited w r o j)
        | inr doc =>
            (Returned (V1.spread_over_serp r doc),
             mkState (currentKeyIndex st) (S j),
             admitted_then_waited w r o j ++ [QueueRemove j])
        end
    end.
Proof.
  unfold V1.scrapeSearchResult, recovered, admitted_then_waited.
  unfold bind, try_catch, uuidv4, addScrapeJob, waitForJob, queue_remove,
    emit, throw, ret, await.
  destruct st as [k c]. cbn.
  destruct (isUrlBlocked w (sr_url r)); cbn; [reflexivity |].
  destruct (addScrapeJob_outcome w c (sr_url r)); cbn; [reflexivity |].
  destruct (waitForJob_outcome w c (V1.o_timeout o)); reflexivity.
Qed.

Lemma blocked_error_message (w : World) :
  errorMessage (V1.blocked_error w) =
  "Could not scrape url: " +:+ BLOCKLISTED_URL_MESSAGE w.
Proof. reflexivity. Qed.

Lemma blocked_error_is_403 (w : World) (r : SearchResult) :
  metadata (V1.error_document r (errorMessage (V1.blocked_error w))) =
  Some (mkMetadata (Some 403)
          (Some ("Could not scrape url: " +:+ BLOCKLISTED_URL_MESSAGE w)) None).
Proof. reflexivity. Qed.

(** ** Blocklisted URLs *)

Lemma admitted_jobs_all (w : World) (log : list Event) :
  Forall (admits_unblocked w) log ->
  forall j u, In (j, u) (admitted_jobs log) -> isUrlBlocked w u = false.
Proof.
  intros HF j u Hm. unfold admitted_jobs in Hm.
  apply in_flat_map in Hm. destruct Hm as [ev [Hev Hin]].
  rewrite Forall_forall in HF. specialize (HF ev).
  destruct ev; try (destruct Hin; fail).
  destruct Hin as [Heq | []]. injection Heq as <- <-. apply HF.
  apply list_elem_of_In. exact Hev.
Qed.

(** ** Merging SERP fields with the scraped document *)

(** C4 (as the code has it). The SERP title, description and url are
    defaults: the merged document keeps them only where the scraped document
    has no property of that name, and every other field is the scraped
    document's.  A task that fails keeps the SERP title, description and url. *)
Theorem serp_fields_are_defaults (w : World) (r : SearchResult) (o : V1.Options)
    (st : State) :
  isUrlBlocked w (sr_url r) = false ->
  addScrapeJob_outcome w (uuidCounter st) (sr_url r) = None ->
  (forall doc,
     waitForJob_outcome w (uuidCounter st) (V1.o_timeout o) = inr doc ->
     exists d,
       outcome_of (V1.scrapeSearchResult w r o st) = Returned d /\
       title d = Some (nullish (title doc) (sr_title r)) /\
       description d = Some (nullish (description doc) (sr_description r)) /\
       url d = Some (nullish (url doc) (sr_url r)) /\
       markdown d = markdown doc /\ html d = html doc /\
       rawHtml d = rawHtml doc /\ serpResults d = serpResults doc /\
       metadata d = metadata doc) /\
  (forall e,
     waitForJob_outcome w (uuidCounter st) (V1.o_timeout o) = inl e ->
     exists d,
       outcome_of (V1.scrapeSearchResult w r o st) = Returned d /\
       title d = Some (sr_title r) /\
       description d = Some (sr_description r) /\
       url d = Some (sr_url r) /\ markdown d = None).
Proof.
  intros Hb Ha. rewrite scrapeSearchResult_run. cbn zeta. rewrite Hb, Ha.
  split.
  - intros doc ->. eexists. split; [reflexivity |].
    cbn. repeat split; reflexivity.
  - intros e ->. eexists. split; [reflexivity |].
    cbn. repeat split; reflexivity.
Qed.

Lemma serp_fields_are_defaults_witness :
  exists d,
    outcome_of
      (V1.scrapeSearchResult
         (raw_world three_results (fun _ => false) (fun _ => inr scraped_page))
         (mkSearchResult "https://a.example/" "A" "first")
         (v1_options v1_auth (v1_request 3 ["markdown"])) initial_state)
    = Returned d /\
    title d = Some "Scraped title" /\
    url d = Some "https://a.example/".
Proof.
  destruct (proj1 (serp_fields_are_defaults
              (raw_world three_results (fun _ => false) (fun _ => inr scraped_page))
              (mkSearchResult "https://a.example/" "A" "first")
              (v1_options v1_auth (v1_request 3 ["markdown"])) initial_state
              eq_refl eq_refl) scraped_page eq_refl)
    as [d [Hd [Ht [_ [Hu _]]]]].
  exists d. split; [exact Hd |]. split; [exact Ht | exact Hu].
Defined.

(** C4 (as the specification words it) fails when the scraped document
    has a title of its own: the merged title is the scraped one, not the
    SERP one. *)
Lemma scraped_title_overrides_serp :
  outcome_of
    (V1.scrapeSearchResult
       (raw_world three_results (fun _ => false) (fun _ => inr scraped_page))
       (mkSearchResult "https://a.example/" "A" "first")
       (v1_options v1_auth (v1_request 3 ["markdown"])) initial_state)
  = Returned
      (mkDocument (Some "Scraped title") (Some "Scraped description")
         (Some "https://a.example/") (Some "# Page body") None None None
         (Some (mkMetadata (Some 200) None (Some "https://a.example/")))) /\
  Some "Scraped title" <> Some (sr_title (mkSearchResult "https://a.example/" "A" "first")).
Proof.
  split; [vm_compute; reflexivity | discriminate].
Qed.

(** ** The v1 controller never fails on a task *)

Lemma outcome_bind {A B : Type} (m : M A) (k : A -> M B) (st : State) :
  outcome_of (bind m k st) =
  match outcome_of (m st) with
  | Returned a => outcome_of (k a (state_of (m st)))
  | Threw e => Threw e
  end.
Proof. rewrite run_bind. destruct (outcome_of (m st)); reflexivity. Qed.

Lemma outcome_try_catch {A : Type} (body : M A) (handler : Thrown -> M A)
    (st : State) :
  outcome_of (try_catch body handler st) =
  match outcome_of (body st) with
  | Returned a => Returned a
  | Threw e => outcome_of (handler e (state_of (body st)))
  end.
Proof. rewrite run_try_catch. destruct (outcome_of (body st)); reflexivity. Qed.

Lemma rejections_Returned {B : Type} (ys : list B) :
  rejections (map Returned ys) = [] /\ fulfilled (map Returned ys) = ys.
Proof.
  induction ys as [| y ys [IH1 IH2]]; [split; reflexivity |].
  cbn. split; [exact IH1 | f_equal; exact IH2].
Qed.

Lemma promiseAll_resolves {A B : Type} (w : World) (f : A -> M B) (l : list A)
    (st : State) (ys : list B) :
  fst (fst (settleAll f l st)) = map Returned ys ->
  outcome_of (promiseAll w f l st) = Returned ys.
Proof.
  intros H. unfold promiseAll. destruct (settleAll f l st) as [[rs st'] log].
  cbn in H. subst rs. destruct (rejections_Returned ys) as [-> ->]. reflexivity.
Qed.

Lemma settleAll_returns {A B : Type} (f : A -> M B) (Q : B -> Prop)
    (l : list A) :
  (forall x st, exists y, outcome_of (f x st) = Returned y /\ Q y) ->
  forall st, exists ys,
    fst (fst (settleAll f l st)) = map Returned ys /\
    Forall Q ys /\ length ys = length l.
Proof.
  intros Hf. induction l as [| x l IH]; intros st; cbn [settleAll].
  - exists []. repeat split. constructor.
  - destruct (Hf x st) as [y [Hy HQ]].
    destruct (f x st) as [[r st1] log1]. cbn in Hy. subst r.
    destruct (IH st1) as [ys [Hys [HF Hlen]]].
    destruct (settleAll f l st1) as [[rs st2] log2]. cbn in Hys. subst rs.
    exists (y :: ys). repeat split.
    + constructor; assumption.
    + cbn. rewrite Hlen. reflexivity.
Qed.

Lemma promiseAll_returns {A B : Type} (w : World) (f : A -> M B) (Q : B -> Prop)
    (l : list A) :
  (forall x st, exists y, outcome_of (f x st) = Returned y /\ Q y) ->
  forall st, exists ys,
    outcome_of (promiseAll w f l st) = Returned ys /\
    Forall Q ys /\ length ys = length l.
Proof.
  intros Hf st. destruct (settleAll_returns f Q l Hf st) as [ys [Hys [HF Hlen]]].
  exists ys. split; [apply promiseAll_resolves, Hys | split; assumption].
Qed.

Lemma scrape_returns (w : World) (r : SearchResult) (o : V1.Options) (st : State) :
  exists d, outcome_of (V1.scrapeSearchResult w r o st) = Returned d /\ True.
Proof.
  rewrite scrapeSearchResult_run. cbn zeta. unfold recovered.
  destruct (isUrlBlocked w (sr_url r)); [eexists; split; [reflexivity | exact I] |].
  destruct (addScrapeJob_outcome w (uuidCounter st) (sr_url r));
    [eexists; split; [reflexivity | exact I] |].
  destruct (waitForJob_outcome w (uuidCounter st) (V1.o_timeout o));
    eexists; (split; [reflexivity | exact I]).
Qed.



Lemma search_returns (w : World) (a : SearchResolver.SearchArgs) (st : State) :
  exists rs, outcome_of (SearchResolver.search w a st) = Returned rs.
Proof.
  rewrite search_outcome.
  destruct (outcome_of (SearchResolver.search_body w a st)); eauto.
Qed.


(** ** The batch of the v0 helper *)

Lemma no_queue_change_jobs (log : list Event) :
  Forall no_queue_change log -> admitted_jobs log = [] /\ removed_jobs log = [].
Proof.
  induction 1 as [| ev log Hev _ [IHa IHr]]; [split; reflexivity |].
  unfold admitted_jobs, removed_jobs in *. cbn [flat_map].
  rewrite IHa, IHr. destruct ev; cbn in Hev; try contradiction; split; reflexivity.
Qed.

Lemma no_removal_jobs (log : list Event) :
  Forall no_removal log -> removed_jobs log = [].
Proof.
  induction 1 as [| ev log Hev _ IH]; [reflexivity |].
  unfold removed_jobs in *. cbn [flat_map].
  rewrite IH. destruct ev; cbn in Hev; try contradiction; reflexivity.
Qed.

Lemma admitted_jobs_app (l1 l2 : list Event) :
  admitted_jobs (l1 ++ l2) = admitted_jobs l1 ++ admitted_jobs l2.
Proof. apply flat_map_app. Qed.

Lemma removed_jobs_app (l1 l2 : list Event) :
  removed_jobs (l1 ++ l2) = removed_jobs l1 ++ removed_jobs l2.
Proof. apply flat_map_app. Qed.

Lemma admitted_add_events (p : Z) (jobs : list (nat * string)) :
  admitted_jobs (add_events p jobs) = jobs.
Proof.
  induction jobs as [| [j u] jobs IH]; [reflexivity |].
  unfold admitted_jobs, add_events in *. cbn. rewrite IH. reflexivity.
Qed.

Lemma removed_remove_events (jobs : list (nat * string)) :
  removed_jobs (remove_events jobs) = map fst jobs.
Proof.
  induction jobs as [| [j u] jobs IH]; [reflexivity |].
  unfold removed_jobs, remove_events in *. cbn. rewrite IH. reflexivity.
Qed.

Lemma add_wait_no_removal (p : Z) (jobs : list (nat * string)) :
  Forall no_removal (add_events p jobs ++ wait_events jobs).
Proof.
  apply Forall_app. split; apply Forall_forall; intros ev Hev;
    apply list_elem_of_In, in_map_iff in Hev; destruct Hev as [job [<- _]]; exact I.
Qed.

Lemma wait_no_admission (jobs : list (nat * string)) :
  admitted_jobs (wait_events jobs) = [].
Proof. induction jobs as [| job jobs IH]; [reflexivity | exact IH]. Qed.

Lemma remove_no_admission (jobs : list (nat * string)) :
  admitted_jobs (remove_events jobs) = [].
Proof. induction jobs as [| job jobs IH]; [reflexivity | exact IH]. Qed.

Lemma addScrapeJob_run (w : World) (u : string) (j : nat) (p : Z) (st : State) :
  addScrapeJob w u j p st =
  match addScrapeJob_outcome w j u with
  | Some e => (Threw e, st, [])
  | None => (Returned tt, st, [AddScrapeJob j u p])
  end.
Proof. unfold addScrapeJob. destruct (addScrapeJob_outcome w j u); reflexivity. Qed.

(** The enqueue loop: it stops at the first admission that fails. *)
Lemma add_loop_run (w : World) (p : Z) (jobs : list (nat * string)) (st : State) :
  exists done,
    state_of (mapM (fun job => addScrapeJob w (snd job) (fst job) p) jobs st) = st /\
    log_of (mapM (fun job => addScrapeJob w (snd job) (fst job) p) jobs st) =
      add_events p done /\
    incl done jobs /\
    ((exists us, outcome_of (mapM (fun job => addScrapeJob w (snd job) (fst job) p) jobs st) = Returned us) ->
     done = jobs) /\
    ((forall job, In job jobs -> addScrapeJob_outcome w (fst job) (snd job) = None) ->
     exists us, outcome_of (mapM (fun job => addScrapeJob w (snd job) (fst job) p) jobs st) = Returned us).
Proof.
  induction jobs as [| job jobs IH]; cbn [mapM].
  - exists []. repeat split; try reflexivity; [intros x [] | eexists; reflexivity].
  - rewrite run_bind, addScrapeJob_run.
    destruct (addScrapeJob_outcome w (fst job) (snd job)) as [e |] eqn:Ha.
    + exists []. cbn. repeat split; try reflexivity.
      * intros x [].
      * intros [us Hus]. discriminate Hus.
      * intros Hall. rewrite (Hall job (or_introl eq_refl)) in Ha. discriminate Ha.
    + destruct IH as [done [Hst [Hlog [Hincl [Hret Hall]]]]].
      exists (job :: done). cbn [emit outcome_of state_of log_of fst snd].
      rewrite run_bind. cbn [outcome_of state_of log_of fst snd].
      destruct (outcome_of (mapM _ jobs st)) as [us |] eqn:Hout;
        cbn [outcome_of state_of log_of fst snd ret]; rewrite Hst, Hlog.
      * repeat split; try reflexivity.
        -- rewrite app_nil_r. reflexivity.
        -- intros x [<- | Hx]; [left; reflexivity | right; apply Hincl, Hx].
        -- intros _. f_equal. apply Hret. eexists; reflexivity.
        -- intros _. eexists; reflexivity.
      * repeat split; try reflexivity.
        -- intros x [<- | Hx]; [left; reflexivity | right; apply Hincl, Hx].
        -- intros [us Hus]. discriminate Hus.
        -- intros Hall'. destruct Hall as [us Hus];
             [intros x Hx; apply Hall'; right; exact Hx | discriminate Hus].
Qed.

Lemma waitForJob_run (w : World) (j : nat) (t : Z) (st : State) :
  waitForJob w j t st =
  (match waitForJob_outcome w j t with inl e => Threw e | inr d => Returned d end,
   st, [WaitForJob j t]).
Proof.
  unfold waitForJob. rewrite run_bind. cbn.
  destruct (waitForJob_outcome w j t); reflexivity.
Qed.

Lemma settle_waits (w : World) (jobs : list (nat * string)) (st : State) :
  settleAll (fun x => waitForJob w (fst x) 60000) jobs st =
  (wait_answers w jobs, st, wait_events jobs).
Proof.
  induction jobs as [| job jobs IH]; cbn [settleAll]; [reflexivity |].
  rewrite waitForJob_run, IH. reflexivity.
Qed.

(** All waits of the batch are issued; the aggregate is [await_all]. *)
Lemma wait_all_run (w : World) (jobs : list (nat * string)) (st : State) :
  promiseAll w (fun x => waitForJob w (fst x) 60000) jobs st =
  (match await_all w jobs with inl e => Threw e | inr ds => Returned ds end,
   st, wait_events jobs).
Proof.
  unfold promiseAll, await_all. rewrite settle_waits.
  destruct (rejections (wait_answers w jobs)); reflexivity.
Qed.

Lemma remove_all_run (w : World) (jobs : list (nat * string)) (st : State) :
  promiseAll w (fun x => queue_remove (fst x)) jobs st =
  (Returned (map (fun _ => tt) jobs), st, remove_events jobs).
Proof.
  assert (H : settleAll (fun x => queue_remove (fst x)) jobs st =
              (map Returned (map (fun _ => tt) jobs), st, remove_events jobs)).
  { induction jobs as [| job jobs IH]; cbn [settleAll]; [reflexivity |].
    unfold queue_remove at 1, emit. rewrite IH. reflexivity. }
  unfold promiseAll. rewrite H.
  destruct (rejections_Returned (map (fun _ : nat * string => tt) jobs)) as [-> ->].
  reflexivity.
Qed.

Lemma rejections_wait (w : World) (jobs : list (nat * string)) (e : Thrown) :
  In e (rejections (wait_answers w jobs)) <->
  exists job, In job jobs /\ waitForJob_outcome w (fst job) 60000 = inl e.
Proof.
  induction jobs as [| job jobs IH]; cbn [wait_answers map rejections flat_map].
  - split; [intros [] | intros [job [[] _]]].
  - rewrite in_app_iff. fold (wait_answers w jobs). fold (rejections (wait_answers w jobs)).
    rewrite IH. split.
    + intros [H | [x [Hx He]]].
      * destruct (waitForJob_outcome w (fst job) 60000) as [e0 | d] eqn:Hjob;
          [| destruct H].
        destruct H as [<- | []]. exists job. split; [left; reflexivity | exact Hjob].
      * exists x. split; [right; exact Hx | exact He].
    + intros [x [[<- | Hx] He]].
      * left. rewrite He. left. reflexivity.
      * right. exists x. split; assumption.
Qed.

Lemma winner_In (w : World) (e : Thrown) (es : list Thrown) :
  In (nth (first_to_reject w (e :: es) mod length (e :: es))%nat (e :: es) e) (e :: es).
Proof.
  apply nth_In. apply Nat.mod_upper_bound. discriminate.
Qed.

Lemma await_all_first_rejection (w : World) (jobs : list (nat * string)) (e : Thrown) :
  await_all w jobs = inl e ->
  exists job, In job jobs /\ waitForJob_outcome w (fst job) 60000 = inl e.
Proof.
  unfold await_all. intros H. apply rejections_wait.
  destruct (rejections (wait_answers w jobs)) as [| e0 es]; [discriminate |].
  injection H as <-. apply winner_In.
Qed.

Lemma await_all_rejected (w : World) (jobs : list (nat * string)) :
  (exists job e, In job jobs /\ waitForJob_outcome w (fst job) 60000 = inl e) ->
  exists e job, await_all w jobs = inl e /\ In job jobs /\
                waitForJob_outcome w (fst job) 60000 = inl e.
Proof.
  intros [x [e [Hx He]]].
  assert (Hin : In e (rejections (wait_answers w jobs))).
  { apply rejections_wait. exists x. split; assumption. }
  destruct (await_all w jobs) as [e1 | ds] eqn:Hall.
  - destruct (await_all_first_rejection w jobs e1 Hall) as [job [Hjob Hout]].
    exists e1, job. repeat split; assumption.
  - unfold await_all in Hall.
    destruct (rejections (wait_answers w jobs)); [destruct Hin | discriminate Hall].
Qed.

Lemma await_all_resolved (w : World) (jobs : list (nat * string)) (ds : list Document) :
  await_all w jobs = inr ds ->
  length ds = length jobs /\
  forall job, In job jobs -> exists d, waitForJob_outcome w (fst job) 60000 = inr d.
Proof.
  unfold await_all. intros H.
  assert (Hnone : forall job, In job jobs ->
                  exists d, waitForJob_outcome w (fst job) 60000 = inr d).
  { intros job Hjob.
    destruct (waitForJob_outcome w (fst job) 60000) as [e | d] eqn:Hout;
      [| exists d; reflexivity].
    assert (Hin : In e (rejections (wait_answers w jobs))).
    { apply rejections_wait. exists job. split; assumption. }
    destruct (rejections (wait_answers w jobs)); [destruct Hin | discriminate H]. }
  split; [| exact Hnone].
  destruct (rejections (wait_answers w jobs)); [| discriminate H].
  injection H as <-. clear - Hnone.
  induction jobs as [| job jobs IH]; [reflexivity |].
  cbn [wait_answers map fulfilled flat_map].
  destruct (Hnone job (or_introl eq_refl)) as [d ->].
  cbn [app length]. f_equal. apply IH. intros x Hx. apply Hnone. right. exact Hx.
Qed.

(** The three ways a batch can end: an admission fails; every job is
    admitted and a wait rejects; every job is admitted and every wait
    resolves, after which every job is removed. *)
Lemma v0_batch_cases (w : World) (p : Z) (jobs : list (nat * string)) (st : State) :
  state_of (v0_batch w p jobs st) = st /\
  ((exists done e,
      incl done jobs /\
      ~ (forall job, In job jobs -> addScrapeJob_outcome w (fst job) (snd job) = None) /\
      outcome_of (v0_batch w p jobs st) = Threw e /\
      log_of (v0_batch w p jobs st) = add_events p done) \/
   (exists e,
      await_all w jobs = inl e /\
      outcome_of (v0_batch w p jobs st) = Threw e /\
      log_of (v0_batch w p jobs st) = add_events p jobs ++ wait_events jobs) \/
   (exists ds result,
      await_all w jobs = inr ds /\
      outcome_of (v0_batch w p jobs st) = Returned result /\
      log_of (v0_batch w p jobs st) =
        add_events p jobs ++ wait_events jobs ++
        (if (length jobs =? 0)%nat then [] else remove_events jobs))).
Proof.
  unfold v0_batch. rewrite run_bind.
  destruct (add_loop_run w p jobs st) as [done [Hst [Hlog [Hincl [Hret Hall]]]]].
  destruct (outcome_of (mapM _ jobs st)) as [us | e] eqn:Hout.
  - assert (Hdone : done = jobs) by (apply Hret; eexists; reflexivity).
    subst done. rewrite Hst, Hlog, run_bind, wait_all_run.
    cbn [outcome_of state_of log_of fst snd].
    destruct (await_all w jobs) as [e | ds] eqn:Hwait.
    + split; [reflexivity |]. right. left. exists e. repeat split.
    + destruct (await_all_resolved w jobs ds Hwait) as [Hlen _].
      rewrite length_map, Hlen.
      destruct (length jobs =? 0)%nat.
      * split; [reflexivity |]. right. right. eexists ds, _.
        split; [reflexivity |]. split; [reflexivity |].
        cbn. rewrite !app_nil_r. reflexivity.
      * rewrite run_bind, remove_all_run.
        cbn [outcome_of state_of log_of fst snd].
        destruct (length (List.filter V0.has_content (map (toLegacyDocument w) ds)) =? 0)%nat;
          (split; [reflexivity |]; right; right; eexists ds, _;
           split; [reflexivity |]; split; [reflexivity |];
           cbn; rewrite !app_nil_r; reflexivity).
  - split; [exact Hst |]. left. exists done, e. repeat split; try assumption.
    intros Hall'. destruct (Hall Hall') as [us Hus]. discriminate Hus.
Qed.

Lemma jobDatas_nonempty (c : nat) (res : list SearchResult) :
  (length res =? 0)%nat = false -> jobDatas_of c res <> [].
Proof. destruct res; [discriminate | intros _ H; discriminate H]. Qed.

(** The helper either ends without touching the queue, or runs one batch
    after a prefix that does not touch the queue. *)
Lemma v0_helper_paths (w : World) (query : option string) (team : string)
    (sub : option string) (po : V0.PageOptions) (so : V0.SearchOptions)
    (plan : option string) (st : State) :
  (exists result,
     outcome_of (V0.searchHelper w query team sub po so plan st) = Returned result /\
     Forall no_queue_change (log_of (V0.searchHelper w query team sub po so plan st))) \/
  (exists log1 st1 jobs,
     jobs <> [] /\ Forall no_queue_change log1 /\
     outcome_of (V0.searchHelper w query team sub po so plan st) =
       outcome_of (v0_batch w (getJobPriority w plan team 20) jobs st1) /\
     log_of (V0.searchHelper w query team sub po so plan st) =
       log1 ++ log_of (v0_batch w (getJobPriority w plan team 20) jobs st1)).
Proof.
  unfold V0.searchHelper.
  destruct (negb (truthy_opt query)).
  { left. eexists. split; [reflexivity | constructor]. }
  rewrite run_bind.
  match goal with
  | |- context [outcome_of (SearchResolver.search w ?a st)] =>
      destruct (search_returns w a st) as [rs Hrs];
      assert (Hlog : Forall no_queue_change (log_of (SearchResolver.search w a st)))
        by (apply (search_log w no_queue_change
                     (V0.num_results_buffer (V0.num_results_of team so)));
            [intros; exact I .. | reflexivity]);
      rewrite Hrs;
      set (st1 := state_of (SearchResolver.search w a st)) in *;
      set (log1 := log_of (SearchResolver.search w a st)) in *
  end.
  match goal with |- context [if ?b then _ else _] => destruct b end.
  { left. rewrite run_bind. cbn. eexists. split; [reflexivity |].
    apply Forall_app. split; [exact Hlog | repeat constructor]. }
  set (kept := List.filter (fun r => negb (isUrlBlocked w (sr_url r))) rs).
  set (sliced := if Z.of_nat (length kept) >? V0.num_results_of team so
                 then slice0 kept (V0.num_results_of team so) else kept).
  destruct (length sliced =? 0)%nat eqn:Hempty.
  { left. cbn. eexists. split; [reflexivity |]. rewrite app_nil_r. exact Hlog. }
  right. rewrite run_bind, jobDatas_run.
  cbn [outcome_of state_of log_of fst snd app].
  exists log1, (mkState (currentKeyIndex st1) (uuidCounter st1 + length sliced)),
         (jobDatas_of (uuidCounter st1) sliced).
  split; [apply jobDatas_nonempty, Hempty |].
  split; [exact Hlog |]. split; reflexivity.
Qed.

(** What the v0 controller answers, given how the helper ends. *)
(** The v0 controller for an authenticated caller with credits: the team is
    recorded, a job id drawn, the helper run; its result is logged and sent,
    and what it throws is answered with 408 or 500. *)
Lemma v0_controller_run (w : World) (auth : V0.AuthResult)
    (query : option string) (po : option V0.PageOptions)
    (so : option V0.SearchOptions) (st : State) :
  V0.auth_success auth = true ->
  V0.searchController w auth (inr true) query po so st =
  let h := V0.searchHelper w query (V0.team_id auth) (V0.chunk_sub_id auth)
             (nullish po (V0.mkPageOptions (Some true) (Some false) (Some false)))
             (nullish so (V0.mkSearchOptions (Some 5) None None None None None))
             (V0.plan auth) (after_uuid st) in
  match outcome_of h with
  | Returned result =>
      (Returned (V0.mkResponse (V0.returnCode result) (Some (V0.success result))
                   (V0.error result) (V0.data result)),
       state_of h,
       RedisSadd "teams_using_v0" (V0.team_id auth) ::
       log_of h ++
       [LogJob (match V0.data result with Some d => V0.data_length d | None => 0%nat end)])
  | Threw e =>
      (Returned (if is_timeout_message (errorMessage e)
                 then V0.mkResponse 408 None (Some "Request timed out") None
                 else V0.mkResponse 500 None (Some (errorMessage e)) None),
       state_of h,
       RedisSadd "teams_using_v0" (V0.team_id auth) ::
       log_of h ++
       (if is_timeout_message (errorMessage e) then []
        else [LoggerError "Unhandled error occurred in search"]))
  end.
Proof.
  intros Hauth. cbn zeta.
  unfold V0.searchController. rewrite Hauth. cbn [negb].
  rewrite run_try_catch, run_bind.
  cbn [emit outcome_of state_of log_of fst snd app].
  rewrite run_bind. cbn [uuidv4 outcome_of state_of log_of fst snd app].
  fold (after_uuid st). unfold V0.run_helper. rewrite run_bind.
  set (h := V0.searchHelper w query _ _ _ _ _ _).
  destruct (outcome_of h) as [result | e];
    cbn [outcome_of state_of log_of fst snd app].
  - rewrite run_bind. cbn [emit ret outcome_of state_of log_of fst snd app].
    reflexivity.
  - unfold V0.controller_catch.
    destruct (is_timeout_message (errorMessage e)).
    + cbn [ret outcome_of state_of log_of fst snd app]. reflexivity.
    + rewrite run_bind. cbn [emit ret outcome_of state_of log_of fst snd app].
      reflexivity.
Qed.

Lemma v0_controller_of_helper (w : World) (auth : V0.AuthResult)
    (query : option string) (po : option V0.PageOptions)
    (so : option V0.SearchOptions) (st : State) :
  V0.auth_success auth = true ->
  exists po' so' st1,
    (forall e,
       outcome_of (V0.searchHelper w query (V0.team_id auth) (V0.chunk_sub_id auth)
                     po' so' (V0.plan auth) st1) = Threw e ->
       outcome_of (V0.searchController w auth (inr true) query po so st) =
         Returned
           (if is_timeout_message (errorMessage e)
            then V0.mkResponse 408 None (Some "Request timed out") None
            else V0.mkResponse 500 None (Some (errorMessage e)) None)) /\
    (forall result,
       outcome_of (V0.searchHelper w query (V0.team_id auth) (V0.chunk_sub_id auth)
                     po' so' (V0.plan auth) st1) = Returned result ->
       outcome_of (V0.searchController w auth (inr true) query po so st) =
         Returned (V0.mkResponse (V0.returnCode result) (Some (V0.success result))
                     (V0.error result) (V0.data result))) /\
    admitted_jobs (log_of (V0.searchController w auth (inr true) query po so st)) =
      admitted_jobs (log_of (V0.searchHelper w query (V0.team_id auth)
                               (V0.chunk_sub_id auth) po' so' (V0.plan auth) st1)) /\
    removed_jobs (log_of (V0.searchController w auth (inr true) query po so st)) =
      removed_jobs (log_of (V0.searchHelper w query (V0.team_id auth)
                              (V0.chunk_sub_id auth) po' so' (V0.plan auth) st1)).
Proof.
  intros Hauth.
  exists (nullish po (V0.mkPageOptions (Some true) (Some false) (Some false))),
         (nullish so (V0.mkSearchOptions (Some 5) None None None None None)),
         (mkState (currentKeyIndex st) (S (uuidCounter st))).
  rewrite (v0_controller_run w auth query po so st Hauth). cbn zeta.
  fold (after_uuid st).
  set (h := V0.searchHelper w query _ _ _ _ _ _).
  destruct (outcome_of h) as [result | e] eqn:Hh;
    cbn [outcome_of state_of log_of fst snd].
  - split; [intros e He; discriminate He |].
    split; [intros r Hr; injection Hr as <-; reflexivity |].
    change (RedisSadd "teams_using_v0" (V0.team_id auth) :: log_of h ++ [LogJob _])
      with ([RedisSadd "teams_using_v0" (V0.team_id auth)] ++ log_of h ++ [LogJob
              (match V0.data result with Some d => V0.data_length d | None => 0%nat end)]).
    rewrite !admitted_jobs_app, !removed_jobs_app. cbn. rewrite !app_nil_r.
    split; reflexivity.
  - split; [intros e' He'; injection He' as <-; reflexivity |].
    split; [intros r Hr; discriminate Hr |].
    change (RedisSadd "teams_using_v0" (V0.team_id auth) :: log_of h ++ ?l)
      with ([RedisSadd "teams_using_v0" (V0.team_id auth)] ++ log_of h ++ l).
    rewrite !admitted_jobs_app, !removed_jobs_app.
    destruct (is_timeout_message (errorMessage e)); cbn; rewrite !app_nil_r;
      split; reflexivity.
Qed.


(** ** Timeouts *)




(** ** Removal of admitted jobs *)

Lemma released_in_batch (log1 : list Event) (p : Z) (jobs : list (nat * string))
    (j : nat) (u : string) :
  In (j, u) jobs ->
  released_after_admission
    (log1 ++ add_events p jobs ++ wait_events jobs ++ remove_events jobs) j.
Proof.
  intros Hin. unfold released_after_admission.
  destruct (in_split _ _ Hin) as [l1 [l2 ->]].
  exists (log1 ++ add_events p l1), u, p,
         (add_events p l2 ++ wait_events (l1 ++ (j, u) :: l2)
          ++ remove_events (l1 ++ (j, u) :: l2)).
  split.
  - unfold add_events. rewrite map_app. cbn [map fst snd].
    rewrite <- !app_assoc. reflexivity.
  - apply in_or_app. right. apply in_or_app. right.
    unfold remove_events. apply in_map_iff. exists (j, u).
    split; [reflexivity |]. apply in_or_app. right. left. reflexivity.
Qed.

Lemma released_is_removed (log : list Event) (j : nat) :
  released_after_admission log j -> In j (removed_jobs log).
Proof.
  intros [before [u [p [after [-> Hin]]]]].
  rewrite removed_jobs_app. apply in_or_app. right. cbn.
  unfold removed_jobs. apply in_flat_map. exists (QueueRemove j).
  split; [exact Hin | left; reflexivity].
Qed.

(** C6 (as the code has it). A job admitted by a v1 scrape task is removed,
    after the wait, exactly when the wait resolved with a document; after a
    timed-out or failed wait no removal is issued.  In the v0 helper the
    admitted jobs are removed exactly when the helper returns, that is when
    every admission succeeded and every wait resolved; if the wait of an
    admitted job is rejected, no job of the batch is removed. *)
Theorem removal_only_after_resolved_wait (w : World) :
  (forall r o st j u,
     In (j, u) (admitted_jobs (log_of (V1.scrapeSearchResult w r o st))) ->
     (released_after_admission (log_of (V1.scrapeSearchResult w r o st)) j <->
      exists doc, waitForJob_outcome w j (V1.o_timeout o) = inr doc) /\
     ((exists e, waitForJob_outcome w j (V1.o_timeout o) = inl e) ->
      removed_jobs (log_of (V1.scrapeSearchResult w r o st)) = [])) /\
  (forall query team sub po so plan st j u,
     In (j, u) (admitted_jobs (log_of (V0.searchHelper w query team sub po so plan st))) ->
     (released_after_admission
        (log_of (V0.searchHelper w query team sub po so plan st)) j <->
      exists result,
        outcome_of (V0.searchHelper w query team sub po so plan st) = Returned result) /\
     ((exists e, waitForJob_outcome w j 60000 = inl e) ->
      removed_jobs (log_of (V0.searchHelper w query team sub po so plan st)) = [])).
Proof.
  split.
  - intros r o st j u. rewrite scrapeSearchResult_run. cbn zeta.
    unfold recovered, admitted_then_waited.
    destruct (isUrlBlocked w (sr_url r)); [intros []|].
    destruct (addScrapeJob_outcome w (uuidCounter st) (sr_url r)); [intros [] |].
    destruct (waitForJob_outcome w (uuidCounter st) (V1.o_timeout o)) as [e | doc] eqn:Hw;
      cbn; intros [Heq | []]; injection Heq as <- <-; rewrite Hw.
    + split; [| intros _; reflexivity]. split.
      * intros H. apply released_is_removed in H. destruct H.
      * intros [doc Hdoc]. discriminate Hdoc.
    + split; [| intros [e He]; discriminate He]. split; [eauto |]. intros _.
      exists [], (sr_url r), (getJobPriority w (V1.o_plan o) (V1.o_teamId o) 10),
             [WaitForJob (uuidCounter st) (V1.o_timeout o); QueueRemove (uuidCounter st)].
      split; [reflexivity | right; left; reflexivity].
  - intros query team sub po so plan st j u.
    destruct (v0_helper_paths w query team sub po so plan st)
      as [[result [_ Hquiet]] | [log1 [st1 [jobs [Hjobs [Hquiet [Hout Hlog]]]]]]].
    { rewrite (proj1 (no_queue_change_jobs _ Hquiet)). intros []. }
    rewrite Hlog, Hout, admitted_jobs_app, removed_jobs_app.
    rewrite (proj1 (no_queue_change_jobs _ Hquiet)),
            (proj2 (no_queue_change_jobs _ Hquiet)). cbn [app].
    destruct (v0_batch_cases w (getJobPriority w plan team 20) jobs st1)
      as [_ [[done [e [_ [_ [He Hb]]]]] | [[e [Hall [He Hb]]] | [ds [result [Hall [Hr Hb]]]]]]];
      rewrite Hb.
    + intros _. rewrite He.
      assert (Hnone : removed_jobs (add_events (getJobPriority w plan team 20) done) = []).
      { apply no_removal_jobs, Forall_forall. intros ev Hev.
        apply list_elem_of_In, in_map_iff in Hev. destruct Hev as [job [<- _]]. exact I. }
      split; [| intros _; exact Hnone]. split.
      * intros H. apply released_is_removed in H.
        rewrite removed_jobs_app, Hnone in H.
        rewrite (proj2 (no_queue_change_jobs _ Hquiet)) in H. destruct H.
      * intros [result Hresult]. discriminate Hresult.
    + intros _. rewrite He.
      pose proof (no_removal_jobs _ (add_wait_no_removal (getJobPriority w plan team 20) jobs))
        as Hnone.
      split; [| intros _; exact Hnone]. split.
      * intros H. apply released_is_removed in H.
        rewrite removed_jobs_app, Hnone in H.
        rewrite (proj2 (no_queue_change_jobs _ Hquiet)) in H. destruct H.
      * intros [result Hresult]. discriminate Hresult.
    + destruct (length jobs =? 0)%nat eqn:Hlen.
      { destruct jobs; [elim Hjobs; reflexivity | discriminate Hlen]. }
      rewrite !admitted_jobs_app, admitted_add_events, wait_no_admission,
        remove_no_admission, !app_nil_r.
      intros Hin. rewrite Hr. split.
      * split; [eauto |]. intros _. apply (released_in_batch _ _ _ _ u Hin).
      * intros [e He]. exfalso.
        destruct (await_all_resolved w jobs ds Hall) as [_ Hres].
        destruct (Hres (j, u) Hin) as [d Hd]. cbn in Hd. congruence.
Qed.

Lemma removal_only_after_resolved_wait_witness :
  released_after_admission
    (log_of (V1.scrapeSearchResult all_scraped_world
               (mkSearchResult "https://a.example/" "A" "first")
               (v1_options v1_auth (v1_request 3 ["markdown"])) initial_state)) 0 /\
  removed_jobs
    (log_of (V0.searchHelper all_timeouts_world (Some "rust ownership") "team-1"
               None (V0.mkPageOptions None None None) (v0_options 2) None
               initial_state)) = [].
Proof.
  split.
  - apply (proj1 (proj1 (removal_only_after_resolved_wait all_scraped_world)
                    (mkSearchResult "https://a.example/" "A" "first")
                    (v1_options v1_auth (v1_request 3 ["markdown"])) initial_state
                    0%nat "https://a.example/" ltac:(vm_compute; left; reflexivity))).
    exists scraped_page. reflexivity.
  - apply (proj2 (proj2 (removal_only_after_resolved_wait all_timeouts_world)
                    (Some "rust ownership") "team-1" None
                    (V0.mkPageOptions None None None) (v0_options 2) None
                    initial_state 0%nat "https://a.example/"
                    ltac:(vm_compute; left; reflexivity))).
    exists job_wait_timeout. reflexivity.
Defined.

(** C6 (as the specification words it) fails on a timeout: the v1 task
    admits job 0, its wait times out, and no removal of job 0 is issued. *)
Lemma timed_out_job_not_removed :
  log_of (V1.scrapeSearchResult all_timeouts_world
            (mkSearchResult "https://a.example/" "A" "first")
            (v1_options v1_auth (v1_request 3 ["markdown"])) initial_state) =
  [AddScrapeJob 0 "https://a.example/" 10; WaitForJob 0 60000;
   LoggerError "Error in scrapeSearchResult: Job wait "] /\
  ~ released_after_admission
      (log_of (V1.scrapeSearchResult all_timeouts_world
                 (mkSearchResult "https://a.example/" "A" "first")
                 (v1_options v1_auth (v1_request 3 ["markdown"])) initial_state)) 0.
Proof.
  split; [vm_compute; reflexivity |].
  intros H. apply released_is_removed in H. vm_compute in H. exact H.
Qed.

(** ** Number of documents returned *)

Lemma slice0_length {A : Type} (l : list A) (k : Z) :
  0 <= k -> Z.of_nat (length (slice0 l k)) <= k.
Proof.
  intros Hk. unfold slice0.
  destruct (0 <=? k) eqn:E; [| apply Z.leb_gt in E; lia].
  rewrite length_firstn. lia.
Qed.

Lemma sliced_length {A : Type} (l : list A) (k : Z) :
  0 <= k ->
  Z.of_nat (length (if Z.of_nat (length l) >? k then slice0 l k else l)) <= k.
Proof.
  intros Hk. destruct (Z.of_nat (length l) >? k) eqn:E.
  - apply slice0_length, Hk.
  - rewrite Z.gtb_ltb in E. apply Z.ltb_ge in E. exact E.
Qed.

Lemma filter_length_le {A : Type} (f : A -> bool) (l : list A) :
  (length (List.filter f l) <= length l)%nat.
Proof.
  induction l as [| x l IH]; cbn; [lia |]. destruct (f x); cbn; lia.
Qed.

(** X18. Every answer of the v1 controller carries at most [limit]
    documents, on the SERP-only path as on the scrape path. *)
Lemma v1_documents_within_limit (w : World) (auth : V1.Auth)
    (body : V1.SearchRequest) (st : State) (resp : V1.SearchResponse)
    (docs : list Document) :
  0 <= V1.limit body ->
  outcome_of (V1.searchController w auth (inr body) st) = Returned resp ->
  V1.data resp = Some docs ->
  Z.of_nat (length docs) <= V1.limit body.
Proof.
  intros Hlimit. unfold V1.searchController. rewrite outcome_try_catch.
  unfold V1.controller_body. rewrite outcome_bind. cbn [await].
  change (outcome_of (ret body st)) with (Returned (A := V1.SearchRequest) body).
  cbn match. rewrite outcome_bind.
  change (outcome_of (uuidv4 (state_of (ret body st))))
    with (Returned (A := nat) (uuidCounter st)).
  cbn match. rewrite outcome_bind.
  match goal with
  | |- context [outcome_of (SearchResolver.search w ?a ?s)] =>
      destruct (search_returns w a s) as [rs ->];
      set (st1 := state_of (SearchResolver.search w a s))
  end.
  cbn match.
  pose proof (sliced_length rs (V1.limit body) Hlimit) as Hsliced.
  set (sliced := if Z.of_nat (length rs) >? V1.limit body
                 then slice0 rs (V1.limit body) else rs) in *.
  destruct (length sliced =? 0)%nat.
  { cbn. intros H1 H2. injection H1 as <-. injection H2 as <-. cbn. exact Hlimit. }
  destruct (V1.no_formats (V1.scrapeOptions body)).
  { rewrite outcome_bind. cbn. intros H1 H2. injection H1 as <-.
    injection H2 as <-. rewrite length_map. exact Hsliced. }
  rewrite outcome_bind.
  set (task := fun result : SearchResult => V1.scrapeSearchResult w result _).
  destruct (promiseAll_returns w task (fun _ => True) sliced
              (fun x st' => scrape_returns w x _ st') st1) as [ds [Hds [_ Hlen]]].
  rewrite Hds. cbn match. rewrite outcome_bind. cbn [emit outcome_of fst].
  destruct (length (List.filter V1.has_content ds) =? 0)%nat.
  - cbn. intros H1 H2. injection H1 as <-. injection H2 as <-. lia.
  - rewrite outcome_bind. cbn. intros H1 H2. injection H1 as <-.
    injection H2 as <-. pose proof (filter_length_le V1.has_content ds). lia.
Qed.

Lemma v0_batch_data (w : World) (p : Z) (jobs : list (nat * string)) (st : State)
    (result : V0.HelperResult) (d : V0.Data) :
  outcome_of (v0_batch w p jobs st) = Returned result ->
  V0.data result = Some d ->
  (V0.data_length d <= length jobs)%nat.
Proof.
  unfold v0_batch. rewrite outcome_bind.
  destruct (add_loop_run w p jobs st) as [done [Hst [_ _]]].
  destruct (outcome_of (mapM _ jobs st)) as [us | e]; [| discriminate].
  rewrite Hst, outcome_bind, wait_all_run. cbn [outcome_of state_of fst snd].
  destruct (await_all w jobs) as [e | ds] eqn:Hwait; [discriminate |].
  destruct (await_all_resolved w jobs ds Hwait) as [Hlen _].
  destruct (length (map (toLegacyDocument w) ds) =? 0)%nat.
  { cbn. intros H1 H2. injection H1 as <-. discriminate H2. }
  rewrite outcome_bind, remove_all_run. cbn [outcome_of state_of fst snd].
  destruct (length (List.filter V0.has_content (map (toLegacyDocument w) ds)) =? 0)%nat;
    cbn; intros H1 H2; injection H1 as <-; injection H2 as <-; cbn.
  - rewrite length_map. lia.
  - pose proof (filter_length_le V0.has_content (map (toLegacyDocument w) ds)) as Hf.
    rewrite length_map in Hf. lia.
Qed.

Lemma jobDatas_length (c : nat) (res : list SearchResult) :
  length (jobDatas_of c res) = length res.
Proof.
  unfold jobDatas_of. rewrite length_combine, length_seq, length_map. lia.
Qed.

(** X19. On the scrape path the v0 helper returns at most [num_results]
    documents; only its SERP-only path escapes the truncation. *)
Lemma v0_scrape_path_within_limit (w : World) (query : option string)
    (team : string) (sub : option string) (po : V0.PageOptions)
    (so : V0.SearchOptions) (plan : option string) (st : State)
    (result : V0.HelperResult) (d : V0.Data) :
  0 <= V0.num_results_of team so ->
  V0.fetchPageContent po <> Some false ->
  outcome_of (V0.searchHelper w query team sub po so plan st) = Returned result ->
  V0.data result = Some d ->
  Z.of_nat (V0.data_length d) <= V0.num_results_of team so.
Proof.
  intros Hnum Hfetch. unfold V0.searchHelper.
  destruct (negb (truthy_opt query)).
  { cbn. intros H1 H2. injection H1 as <-. discriminate H2. }
  rewrite outcome_bind.
  match goal with
  | |- context [outcome_of (SearchResolver.search w ?a st)] =>
      destruct (search_returns w a st) as [rs ->];
      set (st1 := state_of (SearchResolver.search w a st))
  end.
  cbn match.
  destruct (V0.fetchPageContent po) as [[|] |] eqn:Hpo;
    try (elim Hfetch; reflexivity).
  all: set (kept := List.filter (fun r => negb (isUrlBlocked w (sr_url r))) rs).
  all: pose proof (sliced_length kept (V0.num_results_of team so) Hnum) as Hsliced.
  all: set (sliced := if Z.of_nat (length kept) >? V0.num_results_of team so
                      then slice0 kept (V0.num_results_of team so) else kept) in *.
  all: destruct (length sliced =? 0)%nat;
    [cbn; intros H1 H2; injection H1 as <-; discriminate H2 |].
  all: rewrite outcome_bind, jobDatas_run; cbn [outcome_of state_of fst snd].
  all: intros Hout Hdata.
  all: pose proof (v0_batch_data w _ _ _ result d Hout Hdata) as Hlen.
  all: rewrite jobDatas_length in Hlen; lia.
Qed.

(** C3 at the failing input. The v0 helper on its SERP-only path returns
    the whole over-fetched list: with limit 2 it asks the provider for 3
    results and hands all 3 to the caller. *)
Theorem v0_serp_only_exceeds_limit :
  V0.searchController all_scraped_world v0_auth (inr true)
    (Some "rust ownership") (Some (V0.mkPageOptions (Some false) None None))
    (Some (v0_options 2)) initial_state =
  (Returned (V0.mkResponse 200 (Some true) None (Some (V0.SerpData three_results))),
   mkState 0 1,
   [RedisSadd "teams_using_v0" "team-1"; ProviderRequest RawGoogle 3; BillTeam 3;
    LogJob 3]) /\
  (V0.data_length (V0.SerpData three_results) > 2)%nat.
Proof.
  split; [vm_compute; reflexivity | cbn; lia].
Qed.

(** ** Credential rotation *)

(** One iteration of the loop of [googleCustomSearch]. *)
Lemma moved_succ (K d c : nat) :
  moved K (S d) c = ((moved K d c + 1) mod K)%nat.
Proof. reflexivity. Qed.

Lemma moved_in_range (K d c : nat) :
  K <> 0%nat -> (c < K)%nat -> (moved K d c < K)%nat.
Proof.
  intros HK Hc. destruct d as [| d]; [exact Hc |].
  rewrite moved_succ. apply Nat.mod_upper_bound, HK.
Qed.

(** The selections of the other calls move the index and nothing else. *)
Lemma others_run (keys : list string) (d : nat) (st : State) :
  keys <> [] ->
  GoogleCustomSearch.selected_by_others keys d st =
  (Returned tt,
   mkState (moved (length keys) d (currentKeyIndex st)) (uuidCounter st), []).
Proof.
  intros Hkeys. unfold GoogleCustomSearch.selected_by_others. f_equal. f_equal.
  induction d as [| d IH]; [destruct st; reflexivity |].
  rewrite Nat.iter_succ, IH, moved_succ.
  unfold GoogleCustomSearch.getNextApiKey.
  destruct (length keys =? 0)%nat eqn:HK; [| reflexivity].
  destruct keys; [elim Hkeys; reflexivity | discriminate HK].
Qed.

Lemma retryable_spec (status : option Z) :
  GoogleCustomSearch.retryable status = true <->
  status = Some 400 \/ status = Some 403 \/ status = Some 429.
Proof.
  unfold GoogleCustomSearch.retryable. destruct status as [s |].
  - rewrite !orb_true_iff, !Z.eqb_eq. split.
    + intros [[-> | ->] | ->]; auto.
    + intros [H | [H | H]]; injection H as ->; auto.
  - split; [discriminate | intros [H | [H | H]]; discriminate H].
Qed.

Lemma keyLoop_step (w : World) (keys : list string) (cse q : string) (num : Z)
    (r i : nat) (lastError : option Thrown) (st : State) :
  GoogleCustomSearch.getAllApiKeys (env w) = keys ->
  keys <> [] ->
  GoogleCustomSearch.keyLoop w keys cse q num (S r) i lastError st =
  match nth_error keys (currentKeyIndex st) with
  | None =>
      (Threw (GoogleCustomSearch.abort_error undefined_key_error),
       advanced (length keys) st, [KeySelected (currentKeyIndex st)])
  | Some key =>
      match axios_get w i key cse q num with
      | inr items =>
          (Returned (map GoogleCustomSearch.toSearchResult items),
           resumed w (length keys) i st, tried st key cse q num)
      | inl e =>
          if GoogleCustomSearch.retryable (status_of e) then
            (outcome_of (GoogleCustomSearch.keyLoop w keys cse q num r (S i)
                           (Some e) (resumed w (length keys) i st)),
             state_of (GoogleCustomSearch.keyLoop w keys cse q num r (S i)
                         (Some e) (resumed w (length keys) i st)),
             tried st key cse q num ++
             log_of (GoogleCustomSearch.keyLoop w keys cse q num r (S i)
                       (Some e) (resumed w (length keys) i st)))
          else
            (Threw (GoogleCustomSearch.abort_error e),
             resumed w (length keys) i st, tried st key cse q num)
      end
  end.
Proof.
  intros Hpool Hkeys. cbn [GoogleCustomSearch.keyLoop].
  rewrite run_bind. unfold GoogleCustomSearch.getNextApiKey.
  destruct (length keys =? 0)%nat eqn:HK.
  { destruct keys; [elim Hkeys; reflexivity | discriminate HK]. }
  cbn [outcome_of state_of log_of fst snd].
  fold (advanced (length keys) st).
  rewrite run_bind, run_try_catch, run_bind.
  unfold GoogleCustomSearch.attempt, tried.
  destruct (nth_error keys (currentKeyIndex st)) as [key |].
  - rewrite run_bind. cbn [emit outcome_of state_of log_of fst snd].
    rewrite run_bind, Hpool, (others_run keys _ _ Hkeys).
    cbn [outcome_of state_of log_of fst snd].
    change (mkState (moved (length keys) (concurrent_selections w i)
                       (currentKeyIndex (advanced (length keys) st)))
                    (uuidCounter (advanced (length keys) st)))
      with (resumed w (length keys) i st).
    rewrite run_bind.
    destruct (axios_get w i key cse q num) as [e | items];
      cbn [await throw ret outcome_of state_of log_of fst snd app].
    + destruct (GoogleCustomSearch.retryable (status_of e));
        cbn [throw ret outcome_of state_of log_of fst snd app]; [| reflexivity].
      rewrite (run_eta (GoogleCustomSearch.keyLoop w keys cse q num r (S i)
                          (Some e) (resumed w (length keys) i st))) at 1.
      reflexivity.
    + reflexivity.
  - cbn [throw ret outcome_of state_of log_of fst snd app]. reflexivity.
Qed.

Lemma rotation_tail_elem (K c n x : nat) :
  In x (rotation K ((c + 1) mod K)%nat n) ->
  exists j, (1 <= j <= n)%nat /\ x = ((c + j) mod K)%nat.
Proof.
  revert c. induction n as [| n IH]; intros c; cbn [rotation]; [intros [] |].
  intros [<- | Hin].
  - exists 1%nat. split; [lia | reflexivity].
  - destruct (IH _ Hin) as [j [Hj ->]].
    exists (S j). split; [lia |].
    rewrite Nat.Div0.add_mod_idemp_l. f_equal. lia.
Qed.

Lemma rotation_NoDup (K c n : nat) :
  (n <= K)%nat -> NoDup (rotation K c n).
Proof.
  revert c. induction n as [| n IH]; intros c Hn; cbn [rotation].
  - constructor.
  - constructor; [| apply IH; lia].
    rewrite list_elem_of_In. intros Hin.
    destruct (rotation_tail_elem K c n c Hin) as [j [Hj Hc]].
    pose proof (Nat.div_mod_eq (c + j) K) as Hdiv.
    pose proof (Nat.mod_upper_bound (c + j) K ltac:(lia)) as Hup.
    rewrite <- Hc in Hdiv, Hup.
    destruct ((c + j) / K)%nat as [| d]; [lia | nia].
Qed.

Lemma rotation_length (K c n : nat) : length (rotation K c n) = n.
Proof. revert c. induction n as [| n IH]; intros c; cbn; [| rewrite IH]; reflexivity. Qed.

Lemma selected_indices_app (l1 l2 : list Event) :
  selected_indices (l1 ++ l2) = selected_indices l1 ++ selected_indices l2.
Proof. apply flat_map_app. Qed.

Lemma selections_length (w : World) (K c i n : nat) :
  length (selections w K c i n) = n.
Proof.
  revert c i. induction n as [| n IH]; intros c i; cbn; [| rewrite IH]; reflexivity.
Qed.

Lemma selections_undisturbed (w : World) (K c i n : nat) :
  undisturbed w -> selections w K c i n = rotation K c n.
Proof.
  intros Hw. revert c i. induction n as [| n IH]; intros c i; cbn [selections rotation];
    [reflexivity |].
  rewrite Hw. cbn [moved Nat.iter nat_rect]. f_equal. apply IH.
Qed.

Lemma resumed_in_range (w : World) (K i : nat) (st : State) :
  K <> 0%nat -> (currentKeyIndex (resumed w K i st) < K)%nat.
Proof.
  intros HK. cbn [resumed currentKeyIndex].
  apply moved_in_range; [exact HK | apply Nat.mod_upper_bound, HK].
Qed.

Lemma resumed_undisturbed (w : World) (K i : nat) (st : State) :
  undisturbed w -> resumed w K i st = advanced K st.
Proof. intros Hw. unfold resumed. rewrite Hw. reflexivity. Qed.

Lemma keys_sent_app (l1 l2 : list Event) :
  keys_sent (l1 ++ l2) = keys_sent l1 ++ keys_sent l2.
Proof. apply flat_map_app. Qed.

(** The indices selected in one run of the loop are the successive values
    of the shared index at its selections. *)
Lemma keyLoop_selected (w : World) (keys : list string) (cse q : string) (num : Z)
    (r : nat) :
  GoogleCustomSearch.getAllApiKeys (env w) = keys ->
  keys <> [] ->
  forall i lastError st,
  exists n, (n <= r)%nat /\
    selected_indices
      (log_of (GoogleCustomSearch.keyLoop w keys cse q num r i lastError st)) =
    selections w (length keys) (currentKeyIndex st) i n.
Proof.
  intros Hpool Hkeys. induction r as [| r IH]; intros i lastError st.
  - exists 0%nat. split; [lia | reflexivity].
  - rewrite keyLoop_step by assumption.
    destruct (nth_error keys (currentKeyIndex st)) as [key |];
      [| exists 1%nat; split; [lia | reflexivity]].
    destruct (axios_get w i key cse q num) as [e | items];
      [| exists 1%nat; split; [lia | reflexivity]].
    destruct (GoogleCustomSearch.retryable (status_of e));
      [| exists 1%nat; split; [lia | reflexivity]].
    destruct (IH (S i) (Some e) (resumed w (length keys) i st)) as [n [Hn Hsel]].
    exists (S n). split; [lia |].
    cbn [log_of snd]. rewrite selected_indices_app, Hsel. reflexivity.
Qed.

(** Every request of the loop is sent with the key found at the index just
    selected; a selection that finds no key sends no request. *)
Lemma keyLoop_sends (w : World) (keys : list string) (cse q : string) (num : Z)
    (r : nat) :
  GoogleCustomSearch.getAllApiKeys (env w) = keys ->
  keys <> [] ->
  forall i lastError st,
    keys_sent (log_of (GoogleCustomSearch.keyLoop w keys cse q num r i lastError st)) =
    flat_map (fun j => match nth_error keys j with Some k => [k] | None => [] end)
      (selected_indices
         (log_of (GoogleCustomSearch.keyLoop w keys cse q num r i lastError st))).
Proof.
  intros Hpool Hkeys. induction r as [| r IH]; intros i lastError st.
  - reflexivity.
  - rewrite keyLoop_step by assumption.
    destruct (nth_error keys (currentKeyIndex st)) as [key |] eqn:Hkey.
    + destruct (axios_get w i key cse q num) as [e | items];
        [destruct (GoogleCustomSearch.retryable (status_of e)) |];
        cbn [log_of snd];
        try (cbn; rewrite Hkey; reflexivity).
      rewrite keys_sent_app, selected_indices_app, flat_map_app, IH.
      cbn. rewrite Hkey. reflexivity.
    + cbn. rewrite Hkey. reflexivity.
Qed.

(** C7 at the failing input.  With two keys in the pool and the index at 0,
    a call whose first request is answered with HTTP 429 while another call
    in flight takes one key selects index 0 again for its second request:
    both requests of the one call are sent with the same credential, although
    the pool holds two. *)
Theorem concurrent_call_reuses_key :
  GoogleCustomSearch.getAllApiKeys (env overlapping_calls_world) =
    ["key-one"; "key-two"] /\
  GoogleCustomSearch.googleCustomSearch overlapping_calls_world "rust ownership"
    (Some 3) initial_state =
  (Returned [mkSearchResult "https://a.example/" "A" ""],
   mkState 1 0,
   [KeySelected 0; CseRequest "key-one" "engine" "rust ownership" 3;
    KeySelected 0; CseRequest "key-one" "engine" "rust ownership" 3]) /\
  keys_sent
    (log_of (GoogleCustomSearch.googleCustomSearch overlapping_calls_world
               "rust ownership" (Some 3) initial_state)) =
    ["key-one"; "key-one"].
Proof.
  split; [vm_compute; reflexivity |]. split; vm_compute; reflexivity.
Qed.

(** ** Retry, abort and exhaustion *)

Lemma index_stays_in_range (K : nat) (st : State) :
  K <> 0%nat -> (currentKeyIndex (advanced K st) < K)%nat.
Proof. intros HK. cbn. apply Nat.mod_upper_bound, HK. Qed.

Lemma keyLoop_exhausts (w : World) (keys : list string) (cse q : string) (num : Z)
    (errs : nat -> string -> Thrown) :
  GoogleCustomSearch.getAllApiKeys (env w) = keys ->
  keys <> [] ->
  (forall i key, axios_get w i key cse q num = inl (errs i key)) ->
  (forall i key, GoogleCustomSearch.retryable (status_of (errs i key)) = true) ->
  forall r i lastError st,
    (currentKeyIndex st < length keys)%nat ->
    exists sent key_last,
      In key_last keys /\ length sent = r /\
      keys_sent
        (log_of (GoogleCustomSearch.keyLoop w keys cse q num (S r) i lastError st)) =
        sent ++ [key_last] /\
      outcome_of (GoogleCustomSearch.keyLoop w keys cse q num (S r) i lastError st) =
        Threw (GoogleCustomSearch.exhausted_error (Some (errs (i + r)%nat key_last))).
Proof.
  intros Hpool Hkeys Hfail Hretry.
  assert (HK : length keys <> 0%nat) by (destruct keys; [contradiction | discriminate]).
  induction r as [| r IH]; intros i lastError st Hc;
    rewrite keyLoop_step by assumption;
    destruct (nth_error keys (currentKeyIndex st)) as [key |] eqn:Hkey;
    try (apply nth_error_None in Hkey; lia);
    rewrite Hfail, Hretry.
  - exists [], key. rewrite Nat.add_0_r.
    split; [apply (nth_error_In _ _ Hkey) |]. repeat split.
  - destruct (IH (S i) (Some (errs i key)) (resumed w (length keys) i st)
                (resumed_in_range w _ i st HK))
      as [sent [key_last [Hin [Hlen [Hsent Hout]]]]].
    exists (key :: sent), key_last.
    split; [exact Hin |]. split; [cbn; rewrite Hlen; reflexivity |]. split.
    + cbn [log_of snd]. rewrite keys_sent_app, Hsent. reflexivity.
    + cbn [outcome_of fst]. rewrite Hout.
      replace (S i + r)%nat with (i + S r)%nat by lia. reflexivity.
Qed.

(** C8. In the loop of [googleCustomSearch], for a key that reaches the
    provider: an error with status 400, 403 or 429 makes the same call go on
    with that error as the last error and with the key the pool serves next
    (the index has moved by this selection and by those of the other calls
    in flight); an error with any other status, or with none, ends the call
    at once with the abort error, without another selection; and when every
    request fails with status 400, 403 or 429 the call sends as many requests
    as the pool has keys and throws the exhaustion error built from the
    status and message of the error of the last request. *)
Theorem retry_abort_exhaust (w : World) (keys : list string) (cse q : string)
    (num : Z) :
  GoogleCustomSearch.getAllApiKeys (env w) = keys ->
  keys <> [] ->
  (forall r i lastError st key e,
     nth_error keys (currentKeyIndex st) = Some key ->
     axios_get w i key cse q num = inl e ->
     status_of e = Some 400 \/ status_of e = Some 403 \/ status_of e = Some 429 ->
     GoogleCustomSearch.keyLoop w keys cse q num (S r) i lastError st =
       (outcome_of (GoogleCustomSearch.keyLoop w keys cse q num r (S i) (Some e)
                      (resumed w (length keys) i st)),
        state_of (GoogleCustomSearch.keyLoop w keys cse q num r (S i) (Some e)
                    (resumed w (length keys) i st)),
        tried st key cse q num ++
        log_of (GoogleCustomSearch.keyLoop w keys cse q num r (S i) (Some e)
                  (resumed w (length keys) i st)))) /\
  (forall r i lastError st key e,
     nth_error keys (currentKeyIndex st) = Some key ->
     axios_get w i key cse q num = inl e ->
     status_of e <> Some 400 -> status_of e <> Some 403 -> status_of e <> Some 429 ->
     GoogleCustomSearch.keyLoop w keys cse q num (S r) i lastError st =
       (Threw (new_Error ("Error calling Google Custom Search: "
                          +:+ interpolate_str (message_of e))),
        resumed w (length keys) i st, tried st key cse q num)) /\
  (forall errs st,
     env w !! "GOOGLE_CSE_ID" = Some cse -> truthy cse = true ->
     (currentKeyIndex st < length keys)%nat ->
     (forall i key, axios_get w i key cse q num = inl (errs i key)) ->
     (forall i key,
        status_of (errs i key) = Some 400 \/ status_of (errs i key) = Some 403 \/
        status_of (errs i key) = Some 429) ->
     exists sent key_last,
       In key_last keys /\
       keys_sent (log_of (GoogleCustomSearch.googleCustomSearch w q (Some num) st)) =
         sent ++ [key_last] /\
       length (sent ++ [key_last]) = length keys /\
       outcome_of (GoogleCustomSearch.googleCustomSearch w q (Some num) st) =
         Threw (new_Error
                  ("All Google CSE keys exhausted. Last error code: "
                   +:+ interpolate_num (status_of (errs (length keys - 1)%nat key_last))
                   +:+ ", message: "
                   +:+ or_default (message_of (errs (length keys - 1)%nat key_last))
                                  "Unknown error"))).
Proof.
  intros Hpool Hkeys. split; [| split].
  - intros r i lastError st key e Hkey Hget Hstatus.
    apply retryable_spec in Hstatus.
    rewrite keyLoop_step by assumption. rewrite Hkey, Hget, Hstatus. reflexivity.
  - intros r i lastError st key e Hkey Hget H400 H403 H429.
    assert (Hstatus : GoogleCustomSearch.retryable (status_of e) = false).
    { destruct (GoogleCustomSearch.retryable (status_of e)) eqn:E; [| reflexivity].
      apply retryable_spec in E. destruct E as [E | [E | E]]; contradiction. }
    rewrite keyLoop_step by assumption. rewrite Hkey, Hget, Hstatus. reflexivity.
  - intros errs st Hcse Htruthy Hc Hfail Hstatus.
    unfold GoogleCustomSearch.googleCustomSearch.
    rewrite Hpool, Hcse. cbn [truthy_opt nullish]. rewrite Htruthy. cbn [negb].
    destruct (length keys =? 0)%nat eqn:HK; [apply Nat.eqb_eq in HK; lia |].
    destruct (keyLoop_exhausts w keys cse q num errs Hpool Hkeys Hfail
                (fun i key => proj2 (retryable_spec _) (Hstatus i key))
                (length keys - 1)%nat 0%nat None st Hc)
      as [sent [key_last [Hin [Hlen [Hsent Hout]]]]].
    replace (S (length keys - 1)) with (length keys) in Hout, Hsent by lia.
    exists sent, key_last. split; [exact Hin |]. split; [exact Hsent |].
    split; [rewrite length_app; cbn; lia | exact Hout].
Qed.

Lemma retry_abort_exhaust_witness :
  outcome_of
    (GoogleCustomSearch.googleCustomSearch (failing_cse_world quota_errors)
       "rust ownership" (Some 3) (mkState 1 0)) =
  Threw (new_Error
           "All Google CSE keys exhausted. Last error code: 403, message: Request failed with status code 403").
Proof.
  destruct (proj2 (proj2 (retry_abort_exhaust (failing_cse_world quota_errors)
                            ["key-one"; "key-two"] "engine" "rust ownership" 3
                            ltac:(vm_compute; reflexivity) ltac:(discriminate)))
              quota_errors (mkState 1 0)
              ltac:(vm_compute; reflexivity)
              ltac:(reflexivity) ltac:(simpl; lia)
              ltac:(intros; reflexivity)
              ltac:(intros i key; unfold quota_errors; destruct (i =? 1)%nat; auto))
    as [sent [key_last [_ [_ [_ Hout]]]]].
  exact Hout.
Defined.

(** * Further properties of the embedded code *)

(** ** Closed forms of the controllers *)

Lemma v1_controller_run (w : World) (auth : V1.Auth) (body : V1.SearchRequest)
    (st : State) :
  V1.searchController w auth (inr body) st =
  let s := SearchResolver.search w (v1_search_args body) (after_uuid st) in
  let sliced := truncate (results_of (outcome_of s)) (V1.limit body) in
  if (length sliced =? 0)%nat then
    (Returned (V1.mkSearchResponse 200 true (Some [])
                 (Some "No search results found") None),
     state_of s, log_of s)
  else if V1.no_formats (V1.scrapeOptions body) then
    (Returned (V1.mkSearchResponse 200 true (Some (map V1.serp_document sliced))
                 None None),
     state_of s, log_of s ++ [BillTeam (length sliced)])
  else
    let t := promiseAll w (fun r => V1.scrapeSearchResult w r (v1_options auth body))
               sliced (state_of s) in
    let docs := results_of (outcome_of t) in
    if (length (List.filter V1.has_content docs) =? 0)%nat then
      (Returned (V1.mkSearchResponse 200 true (Some docs)
                   (Some "No content found in search results") None),
       state_of t, log_of s ++ log_of t ++ [BillTeam (length docs)])
    else
      (Returned (V1.mkSearchResponse 200 true
                   (Some (List.filter V1.has_content docs)) None None),
       state_of t,
       log_of s ++ log_of t ++
       [BillTeam (length docs); LogJob (length (List.filter V1.has_content docs))]).
Proof.
  unfold V1.searchController. rewrite run_try_catch.
  unfold V1.controller_body. rewrite run_bind. cbn [await].
  cbn [ret outcome_of state_of log_of fst snd app]. rewrite run_bind.
  cbn [uuidv4 outcome_of state_of log_of fst snd app].
  fold (after_uuid st). fold (v1_search_args body). rewrite run_bind.
  destruct (search_returns w (v1_search_args body) (after_uuid st)) as [rs Hrs].
  cbn zeta. rewrite Hrs. cbn [results_of]. fold (truncate rs (V1.limit body)).
  set (s := SearchResolver.search w (v1_search_args body) (after_uuid st)) in *.
  set (sliced := truncate rs (V1.limit body)).
  destruct (length sliced =? 0)%nat.
  { cbn -[app]. rewrite app_nil_r. reflexivity. }
  destruct (V1.no_formats (V1.scrapeOptions body)).
  { rewrite run_bind. cbn -[app]. rewrite <- ?app_assoc. reflexivity. }
  rewrite run_bind. fold (v1_options auth body).
  destruct (promiseAll_returns w
              (fun r => V1.scrapeSearchResult w r (v1_options auth body))
              (fun _ => True) sliced
              (fun x st' => scrape_returns w x _ st') (state_of s)) as [docs [Hdocs _]].
  rewrite Hdocs. cbn [results_of]. rewrite run_bind.
  cbn [emit outcome_of state_of log_of fst snd].
  destruct (length (List.filter V1.has_content docs) =? 0)%nat.
  - cbn -[app]. rewrite app_nil_r. reflexivity.
  - rewrite run_bind. cbn -[app]. rewrite <- ?app_assoc. reflexivity.
Qed.

Lemma v0_helper_run (w : World) (query : option string) (team : string)
    (sub : option string) (po : V0.PageOptions) (so : V0.SearchOptions)
    (plan : option string) (st : State) :
  V0.searchHelper w query team sub po so plan st =
  if negb (truthy_opt query) then
    (Returned (V0.mkHelperResult false (Some "Query is required") None 400), st, [])
  else
    let s := SearchResolver.search w (v0_search_args query team so) st in
    let rs := results_of (outcome_of s) in
    match V0.fetchPageContent po with
    | Some false =>
        (Returned (V0.mkHelperResult true None (Some (V0.SerpData rs)) 200),
         state_of s, log_of s ++ [BillTeam (length rs)])
    | _ =>
        let sliced :=
          truncate (List.filter (fun r => negb (isUrlBlocked w (sr_url r))) rs)
                   (V0.num_results_of team so) in
        if (length sliced =? 0)%nat then
          (Returned (V0.mkHelperResult true (Some "No search results found") None 200),
           state_of s, log_of s)
        else
          let b := v0_batch w (getJobPriority w plan team 20)
                     (jobDatas_of (uuidCounter (state_of s)) sliced)
                     (mkState (currentKeyIndex (state_of s))
                              (uuidCounter (state_of s) + length sliced)) in
          (outcome_of b, state_of b, log_of s ++ log_of b)
    end.
Proof.
  unfold V0.searchHelper.
  destruct (negb (truthy_opt query)); [reflexivity |].
  fold (v0_search_args query team so). rewrite run_bind.
  destruct (search_returns w (v0_search_args query team so) st) as [rs Hrs].
  cbn zeta. rewrite Hrs. cbn [results_of].
  set (s := SearchResolver.search w (v0_search_args query team so) st) in *.
  assert (Hscrape :
    (let res := List.filter (fun r => negb (isUrlBlocked w (sr_url r))) rs in
     let res0 := if Z.of_nat (length res) >? V0.num_results_of team so
                 then slice0 res (V0.num_results_of team so) else res in
     if (length res0 =? 0)%nat
     then ret (V0.mkHelperResult true (Some "No search results found") None 200)
     else
       jobDatas <- mapM (fun x => uuid <- uuidv4 ;; ret (uuid, sr_url x)) res0 ;;
       v0_batch w (getJobPriority w plan team 20) jobDatas) (state_of s) =
    (let sliced := truncate (List.filter (fun r => negb (isUrlBlocked w (sr_url r))) rs)
                     (V0.num_results_of team so) in
     if (length sliced =? 0)%nat
     then (Returned (V0.mkHelperResult true (Some "No search results found") None 200),
           state_of s, [])
     else
       let b := v0_batch w (getJobPriority w plan team 20)
                  (jobDatas_of (uuidCounter (state_of s)) sliced)
                  (mkState (currentKeyIndex (state_of s))
                           (uuidCounter (state_of s) + length sliced)) in
       (outcome_of b, state_of b, log_of b))).
  { cbn zeta. unfold truncate.
    match goal with |- context [(length ?l =? 0)%nat] => destruct (length l =? 0)%nat end;
      [reflexivity |].
    rewrite run_bind, jobDatas_run. cbn [outcome_of state_of log_of fst snd app].
    reflexivity. }
  destruct (V0.fetchPageContent po) as [[|] |].
  - unfold v0_batch in Hscrape. cbn zeta in Hscrape |- *.
    rewrite Hscrape.
    destruct (length (truncate _ _) =? 0)%nat; cbn -[app];
      rewrite ?app_nil_r; reflexivity.
  - rewrite run_bind. cbn -[app]. reflexivity.
  - unfold v0_batch in Hscrape. cbn zeta in Hscrape |- *.
    rewrite Hscrape.
    destruct (length (truncate _ _) =? 0)%nat; cbn -[app];
      rewrite ?app_nil_r; reflexivity.
Qed.

(** What a batch returns when it returns. *)
Lemma v0_batch_returned (w : World) (p : Z) (jobs : list (nat * string))
    (st : State) (result : V0.HelperResult) :
  jobs <> [] ->
  outcome_of (v0_batch w p jobs st) = Returned result ->
  exists ds,
    await_all w jobs = inr ds /\ length ds = length jobs /\
    result =
      (let docs := map (toLegacyDocument w) ds in
       if (length (List.filter V0.has_content docs) =? 0)%nat
       then V0.mkHelperResult true (Some "No page found") (Some (V0.DocData docs)) 200
       else V0.mkHelperResult true None
              (Some (V0.DocData (List.filter V0.has_content docs))) 200).
Proof.
  intros Hjobs. unfold v0_batch. rewrite outcome_bind.
  destruct (add_loop_run w p jobs st) as [done [Hst [_ _]]].
  destruct (outcome_of (mapM _ jobs st)) as [us | e]; [| discriminate].
  rewrite Hst, outcome_bind, wait_all_run. cbn [outcome_of state_of fst snd].
  destruct (await_all w jobs) as [e | ds] eqn:Hwait; [discriminate |].
  destruct (await_all_resolved w jobs ds Hwait) as [Hlen _].
  rewrite length_map, Hlen.
  destruct (length jobs =? 0)%nat eqn:Hz.
  { destruct jobs; [elim Hjobs; reflexivity | discriminate Hz]. }
  rewrite outcome_bind, remove_all_run. cbn [outcome_of state_of fst snd].
  intros H. exists ds. split; [reflexivity |]. split; [exact Hlen |]. cbn zeta.
  destruct (length (List.filter V0.has_content (map (toLegacyDocument w) ds)) =? 0)%nat;
    cbn in H; injection H as <-; reflexivity.
Qed.

(** ** The credential pool *)

Lemma flat_map_short {A B : Type} (f : A -> list B) (l : list A) :
  (forall x, (length (f x) <= 1)%nat) -> (length (flat_map f l) <= length l)%nat.
Proof.
  intros Hf. induction l as [| x l IH]; cbn; [lia |].
  rewrite length_app. specialize (Hf x). lia.
Qed.

Lemma flat_map_agree {A B : Type} (f g : A -> list B) (l : list A) :
  (forall x, In x l -> f x = g x) -> flat_map f l = flat_map g l.
Proof.
  induction l as [| x l IH]; intros H; cbn; [reflexivity |].
  rewrite (H x (or_introl eq_refl)), IH; [reflexivity |].
  intros y Hy. apply H. right. exact Hy.
Qed.

(** X1. The credential pool holds at most ten keys; every key in it is the
    non-blank value of one of the ten variables GOOGLE_API_KEY,
    GOOGLE_API_KEY2 .. GOOGLE_API_KEY10; and no other variable contributes:
    setting any other name (GOOGLE_API_KEY1 for one) leaves the pool as it
    was. *)
Theorem pool_reads_ten_variables (e : gmap string string) :
  (length (GoogleCustomSearch.getAllApiKeys e) <= 10)%nat /\
  (forall k,
     In k (GoogleCustomSearch.getAllApiKeys e) ->
     trim k <> "" /\
     exists name, In name GoogleCustomSearch.key_variables /\ e !! name = Some k) /\
  (forall name v,
     ~ In name GoogleCustomSearch.key_variables ->
     GoogleCustomSearch.getAllApiKeys (<[name := v]> e) =
     GoogleCustomSearch.getAllApiKeys e).
Proof.
  unfold GoogleCustomSearch.getAllApiKeys. split; [| split].
  - etransitivity; [apply filter_length_le |].
    change 10%nat with (length GoogleCustomSearch.key_variables).
    apply flat_map_short. intros name. unfold GoogleCustomSearch.push_if_set.
    destruct (e !! name) as [v |]; [destruct (truthy v) |]; cbn; lia.
  - intros k Hk. apply filter_In in Hk. destruct Hk as [Hin Htrim]. split.
    + intros H. rewrite H in Htrim. discriminate Htrim.
    + apply in_flat_map in Hin. destruct Hin as [name [Hname Hpush]].
      exists name. split; [exact Hname |].
      unfold GoogleCustomSearch.push_if_set in Hpush.
      destruct (e !! name) as [v |]; [| destruct Hpush].
      destruct (truthy v); [| destruct Hpush].
      destruct Hpush as [<- | []]. reflexivity.
  - intros name v Hname. f_equal. apply flat_map_agree. intros n Hn.
    unfold GoogleCustomSearch.push_if_set. rewrite lookup_insert_ne; [reflexivity |].
    intros <-. contradiction.
Qed.

Lemma pool_reads_ten_variables_witness :
  GoogleCustomSearch.getAllApiKeys (<["GOOGLE_API_KEY1" := "first-key"]> env_only_key2) =
  GoogleCustomSearch.getAllApiKeys env_only_key2.
Proof.
  apply (proj2 (proj2 (pool_reads_ten_variables env_only_key2))).
  cbn. intros H. repeat (destruct H as [H | H]; [discriminate H |]). exact H.
Defined.

Lemma nth_error_all {A : Type} (l : list A) :
  map (nth_error l) (seq 0 (length l)) = map Some l.
Proof.
  induction l as [| x l IH]; [reflexivity |].
  cbn [length seq map nth_error]. f_equal.
  rewrite <- seq_shift, map_map. exact IH.
Qed.

Lemma full_cycle_keys {A : Type} (l : list A) (c : nat) :
  (c < length l)%nat ->
  map (fun i => nth_error l ((c + i) mod length l)%nat) (seq 0 (length l)) =
  map Some (skipn c l ++ firstn c l).
Proof.
  intros Hc.
  assert (Hseq : seq 0 (length l) = seq 0 (length l - c) ++ seq (length l - c) c).
  { rewrite <- seq_app. f_equal. lia. }
  rewrite Hseq, !map_app. f_equal.
  - rewrite <- nth_error_all, length_skipn.
    apply map_ext_in. intros i Hi. apply in_seq in Hi.
    rewrite nth_error_skipn, Nat.mod_small by lia. reflexivity.
  - rewrite <- nth_error_all, length_firstn, Nat.min_l by lia.
    replace (seq (length l - c) c) with (map (fun i => (length l - c) + i)%nat (seq 0 c)).
    + rewrite map_map. apply map_ext_in. intros i Hi. apply in_seq in Hi.
      rewrite nth_error_firstn.
      destruct (i <? c)%nat eqn:E; [| apply Nat.ltb_ge in E; lia].
      f_equal. replace (c + (length l - c + i))%nat with (i + 1 * length l)%nat by lia.
      rewrite Nat.Div0.mod_add, Nat.mod_small by lia. reflexivity.
    + clear. generalize (length l - c)%nat as a. intros a.
      induction c as [| c IH] in a |- *; [reflexivity |].
      cbn [seq map]. rewrite Nat.add_0_r. f_equal.
      rewrite <- seq_shift, map_map, <- (IH (S a)).
      apply map_ext. intros i. lia.
Qed.

Lemma draw_keys_run (keys : list string) (n : nat) :
  keys <> [] ->
  forall st,
    (currentKeyIndex st < length keys)%nat ->
    draw_keys keys n st =
    (Returned (map (fun i => nth_error keys ((currentKeyIndex st + i) mod length keys)%nat)
                   (seq 0 n)),
     mkState ((currentKeyIndex st + n) mod length keys)%nat (uuidCounter st),
     map (fun i => KeySelected ((currentKeyIndex st + i) mod length keys)%nat) (seq 0 n)).
Proof.
  intros Hkeys.
  assert (HK : (length keys =? 0)%nat = false)
    by (destruct keys; [contradiction | reflexivity]).
  induction n as [| n IH]; intros [c u] Hc; cbn [draw_keys currentKeyIndex uuidCounter] in *.
  - cbn. rewrite Nat.add_0_r, Nat.mod_small by exact Hc. reflexivity.
  - rewrite run_bind. unfold GoogleCustomSearch.getNextApiKey. rewrite HK.
    cbn [outcome_of state_of log_of fst snd currentKeyIndex uuidCounter].
    rewrite run_bind, IH
      by (cbn; apply Nat.mod_upper_bound; apply Nat.eqb_neq; exact HK).
    cbn [outcome_of state_of log_of fst snd currentKeyIndex uuidCounter ret app seq map].
    rewrite !Nat.add_0_r, (Nat.mod_small c) by exact Hc.
    rewrite <- !seq_shift, !map_map, app_nil_r.
    f_equal; [f_equal; [f_equal; f_equal |] |].
    + apply map_ext. intros i. rewrite Nat.Div0.add_mod_idemp_l.
      do 2 f_equal. lia.
    + f_equal. rewrite Nat.Div0.add_mod_idemp_l. f_equal. lia.
    + f_equal. apply map_ext. intros i. rewrite Nat.Div0.add_mod_idemp_l.
      do 2 f_equal. lia.
Qed.

(** X2. Round robin over a non-empty pool: from an index inside the pool,
    [n] successive calls of [getNextApiKey] return the keys at the indices
    [c, c+1, ...] modulo the pool size; after exactly as many calls as the
    pool has keys, every key has been returned once, in pool order starting
    at [c], and the shared index is back at [c]. *)
Theorem round_robin_full_cycle (keys : list string) (st : State) :
  keys <> [] ->
  (currentKeyIndex st < length keys)%nat ->
  (forall n,
     outcome_of (draw_keys keys n st) =
     Returned (map (fun i => nth_error keys ((currentKeyIndex st + i) mod length keys)%nat)
                   (seq 0 n))) /\
  outcome_of (draw_keys keys (length keys) st) =
    Returned (map Some (skipn (currentKeyIndex st) keys ++
                        firstn (currentKeyIndex st) keys)) /\
  state_of (draw_keys keys (length keys) st) = st.
Proof.
  intros Hkeys Hc. split; [| split].
  - intros n. rewrite draw_keys_run by assumption. reflexivity.
  - rewrite draw_keys_run by assumption. cbn [outcome_of fst].
    rewrite full_cycle_keys by exact Hc. reflexivity.
  - rewrite draw_keys_run by assumption. cbn [state_of fst snd].
    replace (currentKeyIndex st + length keys)%nat
      with (currentKeyIndex st + 1 * length keys)%nat by lia.
    rewrite Nat.Div0.mod_add, Nat.mod_small by exact Hc.
    destruct st; reflexivity.
Qed.

Lemma round_robin_full_cycle_witness :
  outcome_of (draw_keys ["key-one"; "key-two"; "key-three"] 3 (mkState 1 0)) =
  Returned [Some "key-two"; Some "key-three"; Some "key-one"] /\
  state_of (draw_keys ["key-one"; "key-two"; "key-three"] 3 (mkState 1 0)) =
  mkState 1 0.
Proof.
  exact (proj2 (round_robin_full_cycle ["key-one"; "key-two"; "key-three"]
                  (mkState 1 0) ltac:(discriminate) ltac:(simpl; lia))).
Defined.

(** ** One call of [googleCustomSearch] *)

Lemma keyLoop_state (w : World) (keys : list string) (cse q : string) (num : Z)
    (r : nat) :
  GoogleCustomSearch.getAllApiKeys (env w) = keys ->
  keys <> [] ->
  forall i lastError st,
  exists n, (n <= r)%nat /\
    selected_indices
      (log_of (GoogleCustomSearch.keyLoop w keys cse q num r i lastError st)) =
      selections w (length keys) (currentKeyIndex st) i n /\
    uuidCounter (state_of (GoogleCustomSearch.keyLoop w keys cse q num r i lastError st)) =
      uuidCounter st /\
    (n = 0%nat ->
     state_of (GoogleCustomSearch.keyLoop w keys cse q num r i lastError st) = st) /\
    (n <> 0%nat ->
     (currentKeyIndex
        (state_of (GoogleCustomSearch.keyLoop w keys cse q num r i lastError st))
      < length keys)%nat) /\
    (undisturbed w -> n <> 0%nat ->
     currentKeyIndex
       (state_of (GoogleCustomSearch.keyLoop w keys cse q num r i lastError st)) =
     ((currentKeyIndex st + n) mod length keys)%nat).
Proof.
  intros Hpool Hkeys.
  assert (HK : length keys <> 0%nat) by (destruct keys; [contradiction | discriminate]).
  assert (Hone : forall i st st',
            st' = advanced (length keys) st \/ st' = resumed w (length keys) i st ->
            uuidCounter st' = uuidCounter st /\
            (1%nat = 0%nat -> st' = st) /\
            (1%nat <> 0%nat -> (currentKeyIndex st' < length keys)%nat) /\
            (undisturbed w -> 1%nat <> 0%nat ->
             currentKeyIndex st' = ((currentKeyIndex st + 1) mod length keys)%nat)).
  { intros i st st' Hst'. split; [destruct Hst' as [-> | ->]; reflexivity |].
    split; [intros H; discriminate H |]. split.
    - intros _. destruct Hst' as [-> | ->];
        [apply index_stays_in_range, HK | apply resumed_in_range, HK].
    - intros Hw _. destruct Hst' as [-> | ->];
        [| rewrite (resumed_undisturbed w _ _ _ Hw)]; reflexivity. }
  induction r as [| r IH]; intros i lastError st.
  - exists 0%nat. split; [lia |]. split; [reflexivity |]. split; [reflexivity |].
    split; [intros _; reflexivity |]. split; intros; congruence.
  - rewrite keyLoop_step by assumption.
    destruct (nth_error keys (currentKeyIndex st)) as [key |];
      [| exists 1%nat; split; [lia |]; split; [reflexivity |];
         apply (Hone i); left; reflexivity].
    destruct (axios_get w i key cse q num) as [e | items];
      [| exists 1%nat; split; [lia |]; split; [reflexivity |];
         apply (Hone i); right; reflexivity].
    destruct (GoogleCustomSearch.retryable (status_of e));
      [| exists 1%nat; split; [lia |]; split; [reflexivity |];
         apply (Hone i); right; reflexivity].
    destruct (IH (S i) (Some e) (resumed w (length keys) i st))
      as [n [Hn [Hsel [Hu [H0 [Hin Hseq]]]]]].
    exists (S n). split; [lia |]. cbn [state_of log_of fst snd]. split.
    { rewrite selected_indices_app, Hsel. reflexivity. }
    split; [rewrite Hu; reflexivity |].
    split; [intros H; discriminate H |].
    destruct n as [| n].
    + rewrite (H0 eq_refl). split.
      * intros _. apply resumed_in_range, HK.
      * intros Hw _. rewrite (resumed_undisturbed w _ _ _ Hw). reflexivity.
    + split; [intros _; apply Hin; discriminate |].
      intros Hw _. rewrite (Hseq Hw ltac:(discriminate)).
      rewrite (resumed_undisturbed w _ _ _ Hw). cbn [advanced currentKeyIndex].
      rewrite Nat.Div0.add_mod_idemp_l. f_equal. lia.
Qed.

(** X3. One call of [googleCustomSearch] never touches the supply of job
    ids.  If it selects no key it leaves the shared index as it was; if it
    selects at least one key it leaves the index inside the pool, whatever
    the index was before and whatever keys other calls in flight take
    meanwhile; and when no other call takes a key during the call, [n >= 1]
    selections leave the index at [(c + n) mod K]. *)
Theorem call_leaves_index_in_pool (w : World) (query : string)
    (num_results : option Z) (st : State) :
  uuidCounter (state_of (GoogleCustomSearch.googleCustomSearch w query num_results st)) =
    uuidCounter st /\
  (selected_indices
     (log_of (GoogleCustomSearch.googleCustomSearch w query num_results st)) = [] ->
   state_of (GoogleCustomSearch.googleCustomSearch w query num_results st) = st) /\
  (selected_indices
     (log_of (GoogleCustomSearch.googleCustomSearch w query num_results st)) <> [] ->
   (currentKeyIndex (state_of (GoogleCustomSearch.googleCustomSearch w query num_results st))
    < length (GoogleCustomSearch.getAllApiKeys (env w)))%nat) /\
  (undisturbed w ->
   selected_indices
     (log_of (GoogleCustomSearch.googleCustomSearch w query num_results st)) <> [] ->
   currentKeyIndex (state_of (GoogleCustomSearch.googleCustomSearch w query num_results st)) =
     ((currentKeyIndex st +
       length (selected_indices
                 (log_of (GoogleCustomSearch.googleCustomSearch w query num_results st))))
      mod length (GoogleCustomSearch.getAllApiKeys (env w)))%nat).
Proof.
  unfold GoogleCustomSearch.googleCustomSearch.
  destruct (negb (truthy_opt (env w !! "GOOGLE_CSE_ID")));
    [cbn; split; [reflexivity |];
     split; [intros _; reflexivity |];
     split; [intros H; elim H; reflexivity | intros _ H; elim H; reflexivity] |].
  destruct (length (GoogleCustomSearch.getAllApiKeys (env w)) =? 0)%nat eqn:HK;
    [cbn; split; [reflexivity |];
     split; [intros _; reflexivity |];
     split; [intros H; elim H; reflexivity | intros _ H; elim H; reflexivity] |].
  assert (Hkeys : GoogleCustomSearch.getAllApiKeys (env w) <> []).
  { intros H. rewrite H in HK. discriminate HK. }
  destruct (keyLoop_state w _ (nullish (env w !! "GOOGLE_CSE_ID") "") query
              (nullish num_results 5)
              (length (GoogleCustomSearch.getAllApiKeys (env w))) eq_refl Hkeys
              0%nat None st)
    as [n [_ [-> [Hu [H0 [Hin Hseq]]]]]].
  rewrite selections_length. split; [exact Hu |].
  destruct n as [| n].
  - split; [intros _; apply H0; reflexivity |].
    split; [intros H; elim H; reflexivity | intros _ H; elim H; reflexivity].
  - split; [intros H; discriminate H |].
    split; [intros _; apply Hin; discriminate |].
    intros Hw _. apply Hseq; [exact Hw | discriminate].
Qed.

Lemma call_leaves_index_in_pool_witness :
  (currentKeyIndex
     (state_of (GoogleCustomSearch.googleCustomSearch
                  overlapping_calls_world "rust ownership" None (mkState 7 0)))
   < 2)%nat.
Proof.
  apply (proj1 (proj2 (proj2 (call_leaves_index_in_pool overlapping_calls_world
                                "rust ownership" None (mkState 7 0))))).
  vm_compute. discriminate.
Defined.

(** X4. A primary provider that is selected but has an empty credential
    pool (GOOGLE_API_KEY set to white space only, no numbered key usable)
    makes every search return the empty list: no key is selected, no
    provider is contacted, the state is unchanged, and the only effect is the
    logged error. *)
Theorem empty_pool_yields_no_results (w : World) (a : SearchResolver.SearchArgs)
    (st : State) :
  SearchResolver.selectedProvider (env w) = GoogleCustomSearch_API ->
  GoogleCustomSearch.getAllApiKeys (env w) = [] ->
  SearchResolver.search w a st =
  (Returned [], st,
   [LoggerError
      "Error in search function: Error: No valid GOOGLE_API_KEY environment variables found."]).
Proof.
  intros Hsel Hpool. unfold SearchResolver.search. rewrite run_try_catch.
  unfold SearchResolver.search_body. rewrite Hsel.
  unfold GoogleCustomSearch.googleCustomSearch. rewrite Hpool.
  unfold SearchResolver.selectedProvider in Hsel.
  destruct (truthy_opt (env w !! "GOOGLE_API_KEY")); cbn [andb] in Hsel;
    [| destruct (truthy_opt (env w !! "SERPER_API_KEY")),
                (truthy_opt (env w !! "SEARCHAPI_API_KEY")); discriminate Hsel].
  destruct (truthy_opt (env w !! "GOOGLE_CSE_ID"));
    [| destruct (truthy_opt (env w !! "SERPER_API_KEY")),
                (truthy_opt (env w !! "SEARCHAPI_API_KEY")); discriminate Hsel].
  reflexivity.
Qed.

Lemma empty_pool_yields_no_results_witness :
  truthy_opt (env blank_key_world !! "SERPER_API_KEY") = true /\
  outcome_of (SearchResolver.search blank_key_world (plain_args 3) initial_state) =
  Returned [].
Proof.
  split; [vm_compute; reflexivity |].
  rewrite (empty_pool_yields_no_results blank_key_world (plain_args 3) initial_state
             ltac:(vm_compute; reflexivity) ltac:(vm_compute; reflexivity)).
  reflexivity.
Defined.





(** X20. One call of [googleCustomSearch] selects at most as many keys as
    the pool holds, and every request is sent with the key found at the
    index just selected.  When no other call takes a key while the call is
    in flight, the indices it selects are the successive values of the round
    robin from the index the call found, and no index is selected twice:
    such a call never sends two requests with the same pool entry. *)
Theorem undisturbed_call_never_repeats (w : World) (query : string)
    (num_results : option Z) (st : State) :
  (length (selected_indices
             (log_of (GoogleCustomSearch.googleCustomSearch w query num_results st)))
   <= length (GoogleCustomSearch.getAllApiKeys (env w)))%nat /\
  keys_sent (log_of (GoogleCustomSearch.googleCustomSearch w query num_results st)) =
    flat_map (fun j =>
                match nth_error (GoogleCustomSearch.getAllApiKeys (env w)) j with
                | Some k => [k]
                | None => []
                end)
      (selected_indices
         (log_of (GoogleCustomSearch.googleCustomSearch w query num_results st))) /\
  (undisturbed w ->
   NoDup (selected_indices
            (log_of (GoogleCustomSearch.googleCustomSearch w query num_results st))) /\
   selected_indices
     (log_of (GoogleCustomSearch.googleCustomSearch w query num_results st)) =
   rotation (length (GoogleCustomSearch.getAllApiKeys (env w))) (currentKeyIndex st)
     (length (selected_indices
                (log_of (GoogleCustomSearch.googleCustomSearch w query num_results st))))).
Proof.
  unfold GoogleCustomSearch.googleCustomSearch.
  destruct (negb (truthy_opt (env w !! "GOOGLE_CSE_ID")));
    [cbn; split; [lia | split; [reflexivity | intros _; split; [constructor | reflexivity]]] |].
  destruct (length (GoogleCustomSearch.getAllApiKeys (env w)) =? 0)%nat eqn:HK;
    [cbn; split; [lia | split; [reflexivity | intros _; split; [constructor | reflexivity]]] |].
  assert (Hkeys : GoogleCustomSearch.getAllApiKeys (env w) <> []).
  { intros H. rewrite H in HK. discriminate HK. }
  split; [| split].
  - destruct (keyLoop_selected w _ (nullish (env w !! "GOOGLE_CSE_ID") "") query
                (nullish num_results 5)
                (length (GoogleCustomSearch.getAllApiKeys (env w))) eq_refl Hkeys
                0%nat None st) as [n [Hn ->]].
    rewrite selections_length. exact Hn.
  - apply keyLoop_sends; [reflexivity | exact Hkeys].
  - intros Hw.
    destruct (keyLoop_selected w _ (nullish (env w !! "GOOGLE_CSE_ID") "") query
                (nullish num_results 5)
                (length (GoogleCustomSearch.getAllApiKeys (env w))) eq_refl Hkeys
                0%nat None st) as [n [Hn ->]].
    rewrite (selections_undisturbed w _ _ _ _ Hw), rotation_length.
    split; [apply rotation_NoDup, Hn | reflexivity].
Qed.

Lemma undisturbed_call_never_repeats_witness :
  selected_indices
    (log_of (GoogleCustomSearch.googleCustomSearch second_try_world
               "rust ownership" (Some 3) (mkState 1 0))) =
  rotation 2 1
    (length (selected_indices
               (log_of (GoogleCustomSearch.googleCustomSearch second_try_world
                          "rust ownership" (Some 3) (mkState 1 0))))).
Proof.
  apply (proj2 (proj2 (undisturbed_call_never_repeats second_try_world
                         "rust ownership" (Some 3) (mkState 1 0)))).
  intros i. reflexivity.
Defined.

(** ** The resolver *)

Lemma contacted_app (l1 l2 : list Event) :
  contacted (l1 ++ l2) = contacted l1 ++ contacted l2.
Proof. apply flat_map_app. Qed.

Lemma keyLoop_contacts (w : World) (keys : list string) (cse q : string) (num : Z)
    (r : nat) :
  GoogleCustomSearch.getAllApiKeys (env w) = keys ->
  keys <> [] ->
  forall i lastError st p,
    In p (contacted (log_of (GoogleCustomSearch.keyLoop w keys cse q num r i lastError st))) ->
    p = GoogleCustomSearch_API.
Proof.
  intros Hpool Hkeys. induction r as [| r IH]; intros i lastError st p; [intros [] |].
  rewrite keyLoop_step by assumption.
  destruct (nth_error keys (currentKeyIndex st)) as [key |]; [| intros []].
  destruct (axios_get w i key cse q num) as [e | items];
    [| intros [<- | []]; reflexivity].
  destruct (GoogleCustomSearch.retryable (status_of e));
    [| intros [<- | []]; reflexivity].
  cbn [log_of snd]. rewrite contacted_app. intros H. apply in_app_or in H.
  destruct H as [[<- | []] | H]; [reflexivity | exact (IH _ _ _ _ H)].
Qed.

(** X6. [search] never falls back from one provider to another: every
    provider request of a call goes to the provider picked from the
    environment.  When that provider is not the key-rotated one, the call
    makes exactly one request, selects no credential and leaves the state
    untouched, whether the provider answers or fails. *)
Theorem search_contacts_only_selected (w : World) (a : SearchResolver.SearchArgs)
    (st : State) :
  (forall p,
     In p (contacted (log_of (SearchResolver.search w a st))) ->
     p = SearchResolver.selectedProvider (env w)) /\
  (SearchResolver.selectedProvider (env w) <> GoogleCustomSearch_API ->
   contacted (log_of (SearchResolver.search w a st)) =
     [SearchResolver.selectedProvider (env w)] /\
   selected_indices (log_of (SearchResolver.search w a st)) = [] /\
   state_of (SearchResolver.search w a st) = st).
Proof.
  unfold SearchResolver.search. rewrite run_try_catch.
  unfold SearchResolver.search_body.
  destruct (SearchResolver.selectedProvider (env w)) eqn:Hsel.
  - split; [| intros H; elim H; reflexivity].
    intros p Hp.
    assert (Hbody : forall p',
              In p' (contacted
                       (log_of (GoogleCustomSearch.googleCustomSearch w
                                  (SearchResolver.sa_query a)
                                  (Some (po_num_results (SearchResolver.resolved_options a)))
                                  st))) ->
              p' = GoogleCustomSearch_API).
    { unfold GoogleCustomSearch.googleCustomSearch.
      destruct (negb (truthy_opt (env w !! "GOOGLE_CSE_ID"))); [intros p' [] |].
      destruct (length (GoogleCustomSearch.getAllApiKeys (env w)) =? 0)%nat eqn:HK;
        [intros p' [] |].
      apply keyLoop_contacts; [reflexivity |]. intros H. rewrite H in HK. discriminate HK. }
    destruct (outcome_of (GoogleCustomSearch.googleCustomSearch w _ _ st)) as [rs | e];
      cbn [log_of snd] in Hp.
    + exact (Hbody p Hp).
    + rewrite contacted_app in Hp. apply in_app_or in Hp.
      destruct Hp as [Hp | Hp]; [exact (Hbody p Hp) |].
      rewrite run_bind in Hp. cbn in Hp. destruct Hp.
  - rewrite run_bind. cbn [emit outcome_of state_of log_of fst snd].
    destruct (serper_search w (SearchResolver.sa_query a) (SearchResolver.resolved_options a));
      cbn; (split; [intros p [<- | []]; reflexivity | intros _; repeat split]).
  - rewrite run_bind. cbn [emit outcome_of state_of log_of fst snd].
    destruct (searchapi_search w (SearchResolver.sa_query a) (SearchResolver.resolved_options a));
      cbn; (split; [intros p [<- | []]; reflexivity | intros _; repeat split]).
  - rewrite run_bind. cbn [emit outcome_of state_of log_of fst snd].
    destruct (googleSearch w (SearchResolver.sa_query a) (SearchResolver.resolved_options a));
      cbn; (split; [intros p [<- | []]; reflexivity | intros _; repeat split]).
Qed.

Lemma search_contacts_only_selected_witness :
  contacted (log_of (SearchResolver.search all_scraped_world (plain_args 3) (mkState 5 0))) =
    [RawGoogle] /\
  state_of (SearchResolver.search all_scraped_world (plain_args 3) (mkState 5 0)) =
    mkState 5 0.
Proof.
  destruct (proj2 (search_contacts_only_selected all_scraped_world (plain_args 3)
                     (mkState 5 0)) ltac:(vm_compute; discriminate))
    as [Hc [_ Hs]].
  split; [exact Hc | exact Hs].
Defined.

(** ** The v1 controller: billing, fast path, documents *)

Lemma billed_app (l1 l2 : list Event) : billed (l1 ++ l2) = billed l1 ++ billed l2.
Proof. apply flat_map_app. Qed.

Lemma waited_jobs_app (l1 l2 : list Event) :
  waited_jobs (l1 ++ l2) = waited_jobs l1 ++ waited_jobs l2.
Proof. apply flat_map_app. Qed.

Lemma no_billing_billed (log : list Event) : Forall no_billing log -> billed log = [].
Proof.
  induction 1 as [| ev log Hev _ IH]; [reflexivity |].
  unfold billed in *. cbn [flat_map]. rewrite IH.
  destruct ev; cbn in Hev; try contradiction; reflexivity.
Qed.

Lemma no_queue_call_jobs (log : list Event) :
  Forall no_queue_call log ->
  admitted_jobs log = [] /\ waited_jobs log = [] /\ removed_jobs log = [].
Proof.
  induction 1 as [| ev log Hev _ [IHa [IHw IHr]]]; [repeat split |].
  unfold admitted_jobs, waited_jobs, removed_jobs in *. cbn [flat_map].
  rewrite IHa, IHw, IHr. destruct ev; cbn in Hev; try contradiction; repeat split.
Qed.

Lemma search_no_billing (w : World) (a : SearchResolver.SearchArgs) (st : State) :
  Forall no_billing (log_of (SearchResolver.search w a st)).
Proof.
  unfold SearchResolver.search. apply log_try_catch.
  - unfold SearchResolver.search_body.
    destruct (SearchResolver.selectedProvider (env w)).
    + apply (googleCustomSearch_log w no_billing); intros; exact I.
    + emits I. apply log_await.
    + emits I. apply log_await.
    + emits I. apply log_await.
  - intros e _. emits_only I.
Qed.

Lemma search_no_queue_call (w : World) (a : SearchResolver.SearchArgs) (st : State) :
  Forall no_queue_call (log_of (SearchResolver.search w a st)).
Proof.
  unfold SearchResolver.search. apply log_try_catch.
  - unfold SearchResolver.search_body.
    destruct (SearchResolver.selectedProvider (env w)).
    + apply (googleCustomSearch_log w no_queue_call); intros; exact I.
    + emits I. apply log_await.
    + emits I. apply log_await.
    + emits I. apply log_await.
  - intros e _. emits_only I.
Qed.

Lemma task_no_billing (w : World) (r : SearchResult) (o : V1.Options) (st : State) :
  Forall no_billing (log_of (V1.scrapeSearchResult w r o st)).
Proof. apply (scrapeSearchResult_log w no_billing); intros; exact I. Qed.

Lemma scrape_task_document (w : World) (o : V1.Options) (r : SearchResult) (st : State) :
  exists d, outcome_of (V1.scrapeSearchResult w r o st) = Returned d /\ task_document r d.
Proof.
  rewrite scrapeSearchResult_run. cbn zeta. unfold recovered, task_document.
  destruct (isUrlBlocked w (sr_url r)); [eexists; split; [reflexivity | eauto] |].
  destruct (addScrapeJob_outcome w (uuidCounter st) (sr_url r));
    [eexists; split; [reflexivity | eauto] |].
  destruct (waitForJob_outcome w (uuidCounter st) (V1.o_timeout o));
    eexists; (split; [reflexivity | eauto]).
Qed.

Lemma promiseAll_pairs {A B : Type} (w : World) (f : A -> M B) (R : A -> B -> Prop)
    (l : list A) :
  (forall x st, exists y, outcome_of (f x st) = Returned y /\ R x y) ->
  forall st, exists ys,
    outcome_of (promiseAll w f l st) = Returned ys /\ Forall2 R l ys.
Proof.
  intros Hf st.
  assert (H : exists ys, fst (fst (settleAll f l st)) = map Returned ys /\ Forall2 R l ys).
  { revert st. induction l as [| x l IH]; intros st; cbn [settleAll].
    - exists []. split; [reflexivity | constructor].
    - destruct (Hf x st) as [y [Hy HR]].
      destruct (f x st) as [[r st1] log1]. cbn in Hy. subst r.
      destruct (IH st1) as [ys [Hys HF]].
      destruct (settleAll f l st1) as [[rs st2] log2]. cbn in Hys. subst rs.
      exists (y :: ys). split; [reflexivity | constructor; assumption]. }
  destruct H as [ys [Hys HF]]. exists ys.
  split; [apply promiseAll_resolves, Hys | exact HF].
Qed.

Lemma tasks_run (w : World) (o : V1.Options) (l : list SearchResult) (st : State) :
  Forall2 task_document l
    (results_of (outcome_of (promiseAll w (fun r => V1.scrapeSearchResult w r o) l st))) /\
  billed (log_of (promiseAll w (fun r => V1.scrapeSearchResult w r o) l st)) = [].
Proof.
  split.
  - destruct (promiseAll_pairs w (fun r => V1.scrapeSearchResult w r o) task_document l
                (fun x st' => scrape_task_document w o x st') st) as [ys [-> HF]].
    exact HF.
  - apply no_billing_billed, log_promiseAll. intros x st' _. apply task_no_billing.
Qed.

(** X7. The v1 controller bills once per request, for the number of search
    results left after truncation to the limit (nothing when there is none):
    every scrape task counts, also one whose document is degraded or later
    dropped for lack of content, so the count is never below the number of
    documents returned. *)
Theorem v1_bills_truncated_results (w : World) (auth : V1.Auth)
    (body : V1.SearchRequest) (st : State) :
  billed (log_of (V1.searchController w auth (inr body) st)) =
    (if (length (v1_results w body st) =? 0)%nat then []
     else [length (v1_results w body st)]) /\
  (forall resp docs,
     outcome_of (V1.searchController w auth (inr body) st) = Returned resp ->
     V1.data resp = Some docs ->
     (length docs <= length (v1_results w body st))%nat).
Proof.
  rewrite v1_controller_run. cbn zeta. fold (v1_results w body st).
  pose proof (search_no_billing w (v1_search_args body) (after_uuid st)) as Hs.
  apply no_billing_billed in Hs.
  set (s := SearchResolver.search w (v1_search_args body) (after_uuid st)) in *.
  destruct (length (v1_results w body st) =? 0)%nat eqn:Hn.
  { split; [exact Hs |]. cbn. intros resp docs H1 H2.
    injection H1 as <-. injection H2 as <-. cbn. lia. }
  destruct (V1.no_formats (V1.scrapeOptions body)).
  { split.
    - cbn [log_of snd]. rewrite billed_app, Hs. reflexivity.
    - cbn. intros resp docs H1 H2. injection H1 as <-. injection H2 as <-.
      rewrite length_map. lia. }
  destruct (tasks_run w (v1_options auth body) (v1_results w body st) (state_of s))
    as [HF Hb].
  pose proof (Forall2_length _ _ _ HF) as Hlen.
  set (t := promiseAll w _ (v1_results w body st) (state_of s)) in *.
  destruct (length (List.filter V1.has_content (results_of (outcome_of t))) =? 0)%nat.
  - split.
    + cbn [log_of snd]. rewrite !billed_app, Hs, Hb, Hlen. reflexivity.
    + cbn. intros resp docs H1 H2. injection H1 as <-. injection H2 as <-. lia.
  - split.
    + cbn [log_of snd]. rewrite !billed_app, Hs, Hb, Hlen. reflexivity.
    + cbn. intros resp docs H1 H2. injection H1 as <-. injection H2 as <-.
      pose proof (filter_length_le V1.has_content (results_of (outcome_of t))). lia.
Qed.

Lemma v1_bills_truncated_results_witness :
  billed (log_of (V1.searchController first_only_world v1_auth
                    (inr (v1_request 2 ["markdown"])) initial_state)) = [2%nat] /\
  (1 <= 2)%nat.
Proof.
  split.
  - exact (proj1 (v1_bills_truncated_results first_only_world v1_auth
                    (v1_request 2 ["markdown"]) initial_state)).
  - apply (proj2 (v1_bills_truncated_results first_only_world v1_auth
                    (v1_request 2 ["markdown"]) initial_state)
             (V1.mkSearchResponse 200 true
                (Some [V1.spread_over_serp
                         (mkSearchResult "https://a.example/" "A" "first") scraped_page])
                None None)
             [V1.spread_over_serp
                (mkSearchResult "https://a.example/" "A" "first") scraped_page]).
    + vm_compute. reflexivity.
    + reflexivity.
Defined.

(** X8. SERP-only mode of the v1 controller: when no scrape format is
    requested, the answer is 200 with success=true and carries, in provider
    order, the truncated search results as documents holding only url, title
    and description (blocklisted URLs included, no warning unless the list
    is empty); no job is admitted, waited for or removed. *)
Theorem v1_serp_only_skips_queue (w : World) (auth : V1.Auth)
    (body : V1.SearchRequest) (st : State) :
  V1.no_formats (V1.scrapeOptions body) = true ->
  outcome_of (V1.searchController w auth (inr body) st) =
    Returned
      (V1.mkSearchResponse 200 true
         (Some (map V1.serp_document (v1_results w body st)))
         (if (length (v1_results w body st) =? 0)%nat
          then Some "No search results found" else None)
         None) /\
  admitted_jobs (log_of (V1.searchController w auth (inr body) st)) = [] /\
  waited_jobs (log_of (V1.searchController w auth (inr body) st)) = [] /\
  removed_jobs (log_of (V1.searchController w auth (inr body) st)) = [].
Proof.
  intros Hf. rewrite v1_controller_run. cbn zeta. fold (v1_results w body st).
  rewrite Hf.
  pose proof (search_no_queue_call w (v1_search_args body) (after_uuid st)) as Hs.
  destruct (length (v1_results w body st) =? 0)%nat eqn:Hn.
  - split; [| exact (no_queue_call_jobs _ Hs)].
    destruct (v1_results w body st); [reflexivity | discriminate Hn].
  - split; [reflexivity |]. apply no_queue_call_jobs.
    cbn [log_of snd]. apply Forall_app. split; [exact Hs | repeat constructor].
Qed.

Lemma v1_serp_only_skips_queue_witness :
  outcome_of (V1.searchController
                (raw_world three_results only_b_blocked (fun _ => inr scraped_page))
                v1_auth (inr (v1_request 2 [])) initial_state) =
  Returned
    (V1.mkSearchResponse 200 true
       (Some [V1.serp_document (mkSearchResult "https://a.example/" "A" "first");
              V1.serp_document (mkSearchResult "https://b.example/" "B" "second")])
       None None).
Proof.
  exact (proj1 (v1_serp_only_skips_queue
                  (raw_world three_results only_b_blocked (fun _ => inr scraped_page))
                  v1_auth (v1_request 2 []) initial_state eq_refl)).
Defined.

Lemma has_text_spec (m : string) :
  truthy m && (0 <? String.length (trim m))%nat = true <-> trim m <> "".
Proof.
  split.
  - intros H. apply andb_true_iff in H. destruct H as [_ H].
    intros Heq. rewrite Heq in H. discriminate H.
  - intros H. rewrite (trim_nonempty_truthy m H).
    destruct (trim m); [elim H; reflexivity | reflexivity].
Qed.

Lemma v1_has_content_spec (d : Document) :
  V1.has_content d = true <->
  serpResults d <> None \/ exists m, markdown d = Some m /\ trim m <> "".
Proof.
  unfold V1.has_content. destruct (serpResults d) as [r |].
  - split; [intros _; left; discriminate | reflexivity].
  - destruct (markdown d) as [m |].
    + rewrite has_text_spec. split.
      * intros H. right. exists m. split; [reflexivity | exact H].
      * intros [H | [m' [Hm H]]]; [elim H; reflexivity |].
        injection Hm as <-. exact H.
    + split; [discriminate |].
      intros [H | [m' [Hm _]]]; [elim H; reflexivity | discriminate Hm].
Qed.

(** X9. Scrape mode of the v1 controller: the task documents correspond
    one to one, in order, to the truncated search results (each is the
    recovered document of its result or the merge of its result with the
    scraped page).  A document has content when it carries SERP results or a
    markdown text that [trim] does not reduce to the empty string.  The
    answer carries the documents that have content, in that order and
    without warning; if none has content it carries all of them with the
    warning "No content found in search results". *)
Theorem v1_documents_follow_results (w : World) (auth : V1.Auth)
    (body : V1.SearchRequest) (st : State) :
  V1.no_formats (V1.scrapeOptions body) = false ->
  v1_results w body st <> [] ->
  exists all,
    Forall2 task_document (v1_results w body st) all /\
    (forall d,
       In d (List.filter V1.has_content all) <->
       In d all /\
       (serpResults d <> None \/ exists m, markdown d = Some m /\ trim m <> "")) /\
    outcome_of (V1.searchController w auth (inr body) st) =
      Returned
        (if (length (List.filter V1.has_content all) =? 0)%nat
         then V1.mkSearchResponse 200 true (Some all)
                (Some "No content found in search results") None
         else V1.mkSearchResponse 200 true
                (Some (List.filter V1.has_content all)) None None).
Proof.
  intros Hf Hne. rewrite v1_controller_run. cbn zeta. fold (v1_results w body st).
  rewrite Hf.
  destruct (length (v1_results w body st) =? 0)%nat eqn:Hn.
  { destruct (v1_results w body st); [elim Hne; reflexivity | discriminate Hn]. }
  set (s := SearchResolver.search w (v1_search_args body) (after_uuid st)).
  destruct (tasks_run w (v1_options auth body) (v1_results w body st) (state_of s))
    as [HF _].
  eexists. split; [exact HF |]. split.
  - intros d. rewrite filter_In, v1_has_content_spec. reflexivity.
  - destruct (length (List.filter V1.has_content _) =? 0)%nat; reflexivity.
Qed.

Lemma v1_documents_follow_results_witness :
  exists all,
    Forall2 task_document
      (v1_results first_only_world (v1_request 2 ["markdown"]) initial_state) all /\
    (forall d,
       In d (List.filter V1.has_content all) <->
       In d all /\
       (serpResults d <> None \/ exists m, markdown d = Some m /\ trim m <> "")) /\
    outcome_of (V1.searchController first_only_world v1_auth
                  (inr (v1_request 2 ["markdown"])) initial_state) =
      Returned
        (if (length (List.filter V1.has_content all) =? 0)%nat
         then V1.mkSearchResponse 200 true (Some all)
                (Some "No content found in search results") None
         else V1.mkSearchResponse 200 true
                (Some (List.filter V1.has_content all)) None None).
Proof.
  apply (v1_documents_follow_results first_only_world v1_auth
           (v1_request 2 ["markdown"]) initial_state).
  - reflexivity.
  - vm_compute. discriminate.
Defined.

(** X10. Only schema validation can make the v1 controller answer anything
    but 200.  For a body that passes validation the answer is 200 with
    success=true and no error, whatever providers and queue do.  For a body
    that fails validation with a thrown value whose message starts with
    "Job wait" or is "timeout" the answer is 408 "Request timed out"; for any
    other message it is 500 with that message; in both cases success=false,
    there is no data, and no provider is contacted, no job admitted and no
    team billed. *)
Theorem v1_failure_only_by_validation (w : World) (auth : V1.Auth) (st : State) :
  (forall body,
     exists resp,
       outcome_of (V1.searchController w auth (inr body) st) = Returned resp /\
       V1.status resp = 200 /\ V1.success resp = true /\
       V1.response_error resp = None) /\
  (forall e,
     (String.prefix "Job wait" (errorMessage e) = true \/ errorMessage e = "timeout" ->
      outcome_of (V1.searchController w auth (inl e) st) =
        Returned (V1.mkSearchResponse 408 false None None (Some "Request timed out"))) /\
     (String.prefix "Job wait" (errorMessage e) = false ->
      errorMessage e <> "timeout" ->
      outcome_of (V1.searchController w auth (inl e) st) =
        Returned (V1.mkSearchResponse 500 false None None (Some (errorMessage e)))) /\
     state_of (V1.searchController w auth (inl e) st) = st /\
     contacted (log_of (V1.searchController w auth (inl e) st)) = [] /\
     admitted_jobs (log_of (V1.searchController w auth (inl e) st)) = [] /\
     billed (log_of (V1.searchController w auth (inl e) st)) = []).
Proof.
  split.
  - intros body. rewrite v1_controller_run. cbn zeta.
    destruct (length (truncate _ _) =? 0)%nat;
      [eexists; split; [reflexivity | repeat split] |].
    destruct (V1.no_formats (V1.scrapeOptions body));
      [eexists; split; [reflexivity | repeat split] |].
    destruct (length (List.filter V1.has_content _) =? 0)%nat;
      eexists; (split; [reflexivity | repeat split]).
  - intros e. unfold V1.searchController. rewrite run_try_catch.
    unfold V1.controller_body. rewrite run_bind.
    cbn [await throw outcome_of state_of log_of fst snd].
    unfold V1.controller_catch, is_timeout_message, startsWith.
    destruct (String.prefix "Job wait" (errorMessage e)) eqn:Hp; cbn [orb].
    + split; [intros _; reflexivity |].
      split; [intros H; discriminate H | repeat split].
    + destruct (String.eqb_spec (errorMessage e) "timeout") as [Heq | Hne].
      * split; [intros _; reflexivity |].
        split; [intros _ H; elim H; exact Heq | repeat split].
      * rewrite run_bind. split; [intros [H | H]; [discriminate H | contradiction] |].
        split; [intros _ _; reflexivity | repeat split].
Qed.

Lemma v1_failure_only_by_validation_witness :
  outcome_of (V1.searchController all_scraped_world v1_auth
                (inl (new_Error "timeout")) initial_state) =
    Returned (V1.mkSearchResponse 408 false None None (Some "Request timed out")) /\
  outcome_of (V1.searchController all_scraped_world v1_auth
                (inl (new_Error "limit: Expected number, received string"))
                initial_state) =
    Returned (V1.mkSearchResponse 500 false None None
                (Some "limit: Expected number, received string")).
Proof.
  split.
  - apply (proj1 (proj2 (v1_failure_only_by_validation all_scraped_world v1_auth
                           initial_state) (new_Error "timeout"))).
    right. reflexivity.
  - apply (proj1 (proj2 (proj2 (v1_failure_only_by_validation all_scraped_world v1_auth
                                  initial_state)
                           (new_Error "limit: Expected number, received string")))).
    + reflexivity.
    + discriminate.
Defined.

(** ** Queue calls *)

Lemma no_queue_call_queued_with (p t : Z) (log : list Event) :
  Forall no_queue_call log -> Forall (queued_with p t) log.
Proof.
  intros H. apply (Forall_impl _ _ _ H).
  intros ev Hev. destruct ev; cbn in *; try contradiction; exact I.
Qed.

Lemma task_queued_with (w : World) (r : SearchResult) (o : V1.Options) (st : State) :
  Forall (queued_with (getJobPriority w (V1.o_plan o) (V1.o_teamId o) 10) (V1.o_timeout o))
         (log_of (V1.scrapeSearchResult w r o st)).
Proof.
  rewrite scrapeSearchResult_run. cbn zeta. unfold recovered, admitted_then_waited.
  destruct (isUrlBlocked w (sr_url r)); [repeat constructor |].
  destruct (addScrapeJob_outcome w (uuidCounter st) (sr_url r)); [repeat constructor |].
  destruct (waitForJob_outcome w (uuidCounter st) (V1.o_timeout o));
    repeat constructor.
Qed.

Lemma batch_queued_with (w : World) (p : Z) (jobs : list (nat * string)) (st : State) :
  Forall (queued_with p 60000) (log_of (v0_batch w p jobs st)).
Proof.
  assert (Hadd : forall l, Forall (queued_with p 60000) (add_events p l)).
  { intros l. apply Forall_forall. intros ev Hev.
    apply list_elem_of_In, in_map_iff in Hev. destruct Hev as [job [<- _]]. reflexivity. }
  assert (Hwait : Forall (queued_with p 60000) (wait_events jobs)).
  { apply Forall_forall. intros ev Hev.
    apply list_elem_of_In, in_map_iff in Hev. destruct Hev as [job [<- _]]. reflexivity. }
  assert (Hrem : Forall (queued_with p 60000)
                   (if (length jobs =? 0)%nat then [] else remove_events jobs)).
  { destruct (length jobs =? 0)%nat; [constructor |]. apply Forall_forall. intros ev Hev.
    apply list_elem_of_In, in_map_iff in Hev. destruct Hev as [job [<- _]]. exact I. }
  destruct (v0_batch_cases w p jobs st)
    as [_ [[done [e [_ [_ [_ ->]]]]] | [[e [_ [_ ->]]] | [ds [result [_ [_ ->]]]]]]].
  - apply Hadd.
  - apply Forall_app. split; [apply Hadd | exact Hwait].
  - repeat (apply Forall_app; split); [apply Hadd | exact Hwait | exact Hrem].
Qed.

(** Properties of logs that hold of the empty log and are kept by
    concatenation can be checked part by part. *)
Section LogClosed.

Variable Q : list Event -> Prop.
Hypothesis Q_nil : Q [].
Hypothesis Q_app : forall l1 l2, Q l1 -> Q l2 -> Q (l1 ++ l2).

Lemma promiseAll_closed {A B : Type} (w : World) (f : A -> M B) (l : list A) :
  (forall x st, Q (log_of (f x st))) ->
  forall st, Q (log_of (promiseAll w f l st)).
Proof.
  intros Hf st.
  assert (H : Q (snd (settleAll f l st))).
  { revert st. induction l as [| x l IH]; intros st; cbn [settleAll].
    - exact Q_nil.
    - specialize (Hf x st). destruct (f x st) as [[r st1] log1].
      specialize (IH st1). destruct (settleAll f l st1) as [[rs st2] log2].
      cbn [log_of snd] in *. apply Q_app; assumption. }
  unfold promiseAll. destruct (settleAll f l st) as [[rs st'] log]. exact H.
Qed.

Lemma v1_controller_closed (w : World) (auth : V1.Auth) (body : V1.SearchRequest)
    (st : State) :
  Q (log_of (SearchResolver.search w (v1_search_args body) (after_uuid st))) ->
  (forall r st', Q (log_of (V1.scrapeSearchResult w r (v1_options auth body) st'))) ->
  (forall c, Q [BillTeam c]) ->
  (forall c, Q [LogJob c]) ->
  Q (log_of (V1.searchController w auth (inr body) st)).
Proof.
  intros Hs Ht Hbill Hlogjob. rewrite v1_controller_run. cbn zeta.
  destruct (length (truncate _ _) =? 0)%nat; [exact Hs |].
  destruct (V1.no_formats (V1.scrapeOptions body)).
  { apply Q_app; [exact Hs | apply Hbill]. }
  destruct (length (List.filter V1.has_content _) =? 0)%nat; cbn [log_of snd].
  - apply Q_app; [exact Hs |]. apply Q_app; [| apply Hbill].
    apply promiseAll_closed. exact Ht.
  - apply Q_app; [exact Hs |]. apply Q_app; [apply promiseAll_closed; exact Ht |].
    apply (Q_app [_] [_]); [apply Hbill | apply Hlogjob].
Qed.

Lemma v0_helper_closed (w : World) (query : option string) (team : string)
    (sub : option string) (po : V0.PageOptions) (so : V0.SearchOptions)
    (plan : option string) (st : State) :
  Q (log_of (SearchResolver.search w (v0_search_args query team so) st)) ->
  (forall c, Q [BillTeam c]) ->
  (forall jobs st', jobs <> [] ->
     Q (log_of (v0_batch w (getJobPriority w plan team 20) jobs st'))) ->
  Q (log_of (V0.searchHelper w query team sub po so plan st)).
Proof.
  intros Hs Hbill Hbatch. rewrite v0_helper_run.
  destruct (negb (truthy_opt query)); [exact Q_nil |]. cbn zeta.
  assert (Hscrape :
    forall (res : list SearchResult) (x : V0.HelperResult) (s' : State),
      Q (log_of
           (if (length res =? 0)%nat
            then (Returned x, s',
                  log_of (SearchResolver.search w (v0_search_args query team so) st))
            else
              (outcome_of (v0_batch w (getJobPriority w plan team 20)
                             (jobDatas_of (uuidCounter s') res)
                             (mkState (currentKeyIndex s') (uuidCounter s' + length res))),
               state_of (v0_batch w (getJobPriority w plan team 20)
                           (jobDatas_of (uuidCounter s') res)
                           (mkState (currentKeyIndex s') (uuidCounter s' + length res))),
               log_of (SearchResolver.search w (v0_search_args query team so) st) ++
               log_of (v0_batch w (getJobPriority w plan team 20)
                         (jobDatas_of (uuidCounter s') res)
                         (mkState (currentKeyIndex s') (uuidCounter s' + length res))))))).
  { intros res x s'. destruct (length res =? 0)%nat eqn:Hres; [exact Hs |].
    cbn [log_of snd]. apply Q_app; [exact Hs |].
    apply Hbatch, jobDatas_nonempty, Hres. }
  destruct (V0.fetchPageContent po) as [[|] |]; [apply Hscrape | | apply Hscrape].
  cbn [log_of snd]. apply Q_app; [exact Hs | apply Hbill].
Qed.

End LogClosed.

(** X11. Scrape jobs of a v1 search are admitted with the priority computed
    from base 10 and waited for with the timeout of the request; scrape jobs
    of a v0 search are admitted with the priority computed from base 20 and
    waited for with a fixed 60000 ms, whatever the request says. *)
Theorem queue_calls_use_fixed_bases (w : World) :
  (forall auth body st,
     Forall (queued_with (getJobPriority w (V1.plan auth) (V1.team_id auth) 10)
                         (V1.timeout body))
            (log_of (V1.searchController w auth (inr body) st))) /\
  (forall query team sub po so plan st,
     Forall (queued_with (getJobPriority w plan team 20) 60000)
            (log_of (V0.searchHelper w query team sub po so plan st))).
Proof.
  split.
  - intros auth body st. apply v1_controller_closed.
    + constructor.
    + intros l1 l2 H1 H2. apply Forall_app. split; assumption.
    + apply no_queue_call_queued_with, search_no_queue_call.
    + intros r st'. apply (task_queued_with w r (v1_options auth body) st').
    + intros c. repeat constructor.
    + intros c. repeat constructor.
  - intros query team sub po so plan st. apply v0_helper_closed.
    + constructor.
    + intros l1 l2 H1 H2. apply Forall_app. split; assumption.
    + apply no_queue_call_queued_with, search_no_queue_call.
    + intros c. repeat constructor.
    + intros jobs st' _. apply batch_queued_with.
Qed.

Lemma admitted_are_waited_nil : admitted_are_waited [].
Proof. split; [reflexivity | intros x []]. Qed.

Lemma admitted_are_waited_app (l1 l2 : list Event) :
  admitted_are_waited l1 -> admitted_are_waited l2 -> admitted_are_waited (l1 ++ l2).
Proof.
  intros [Hw1 Hr1] [Hw2 Hr2]. unfold admitted_are_waited.
  rewrite waited_jobs_app, admitted_jobs_app, removed_jobs_app, map_app, Hw1, Hw2.
  split; [reflexivity |]. rewrite <- Hw1, <- Hw2.
  intros x Hx. apply in_or_app. apply in_app_or in Hx.
  destruct Hx as [Hx | Hx]; [left; apply Hr1, Hx | right; apply Hr2, Hx].
Qed.

Lemma quiet_admitted_are_waited (log : list Event) :
  Forall no_queue_call log -> admitted_are_waited log.
Proof.
  intros H. destruct (no_queue_call_jobs log H) as [Ha [Hw Hr]].
  unfold admitted_are_waited. rewrite Ha, Hw, Hr. split; [reflexivity | intros x []].
Qed.

Lemma task_admitted_are_waited (w : World) (r : SearchResult) (o : V1.Options)
    (st : State) :
  admitted_are_waited (log_of (V1.scrapeSearchResult w r o st)).
Proof.
  rewrite scrapeSearchResult_run. cbn zeta. unfold recovered, admitted_then_waited.
  destruct (isUrlBlocked w (sr_url r)); [split; [reflexivity | intros x []] |].
  destruct (addScrapeJob_outcome w (uuidCounter st) (sr_url r));
    [split; [reflexivity | intros x []] |].
  destruct (waitForJob_outcome w (uuidCounter st) (V1.o_timeout o));
    (split; [reflexivity | cbn; intros x Hx; first [exact Hx | destruct Hx]]).
Qed.

Lemma waited_add_events (p : Z) (jobs : list (nat * string)) :
  waited_jobs (add_events p jobs) = [].
Proof. induction jobs as [| job jobs IH]; [reflexivity | exact IH]. Qed.

Lemma waited_wait_events (jobs : list (nat * string)) :
  waited_jobs (wait_events jobs) = map fst jobs.
Proof.
  induction jobs as [| [j u] jobs IH]; [reflexivity |].
  unfold waited_jobs, wait_events in *. cbn. rewrite IH. reflexivity.
Qed.

Lemma waited_remove_events (jobs : list (nat * string)) :
  waited_jobs (remove_events jobs) = [].
Proof. induction jobs as [| job jobs IH]; [reflexivity | exact IH]. Qed.

Lemma removed_add_events (p : Z) (jobs : list (nat * string)) :
  removed_jobs (add_events p jobs) = [].
Proof. induction jobs as [| job jobs IH]; [reflexivity | exact IH]. Qed.

Lemma removed_wait_events (jobs : list (nat * string)) :
  removed_jobs (wait_events jobs) = [].
Proof. induction jobs as [| job jobs IH]; [reflexivity | exact IH]. Qed.

(** The queue calls of a batch, by the way it ends. *)
Lemma batch_queue_calls (w : World) (p : Z) (jobs : list (nat * string)) (st : State) :
  jobs <> [] ->
  ((exists result, outcome_of (v0_batch w p jobs st) = Returned result) /\
   admitted_jobs (log_of (v0_batch w p jobs st)) = jobs /\
   waited_jobs (log_of (v0_batch w p jobs st)) = map fst jobs /\
   removed_jobs (log_of (v0_batch w p jobs st)) = map fst jobs) \/
  ((exists e, outcome_of (v0_batch w p jobs st) = Threw e) /\
   admitted_jobs (log_of (v0_batch w p jobs st)) = jobs /\
   waited_jobs (log_of (v0_batch w p jobs st)) = map fst jobs /\
   removed_jobs (log_of (v0_batch w p jobs st)) = []) \/
  ((exists e, outcome_of (v0_batch w p jobs st) = Threw e) /\
   waited_jobs (log_of (v0_batch w p jobs st)) = [] /\
   removed_jobs (log_of (v0_batch w p jobs st)) = []).
Proof.
  intros Hjobs.
  destruct (v0_batch_cases w p jobs st)
    as [_ [[done [e [_ [_ [He ->]]]]] | [[e [_ [He ->]]] | [ds [result [_ [Hr ->]]]]]]].
  - right. right. split; [eauto |].
    rewrite waited_add_events, removed_add_events. split; reflexivity.
  - right. left. split; [eauto |].
    rewrite admitted_jobs_app, waited_jobs_app, removed_jobs_app,
      admitted_add_events, wait_no_admission, waited_add_events, waited_wait_events,
      removed_add_events, removed_wait_events, app_nil_r.
    repeat split.
  - left. split; [eauto |].
    destruct (length jobs =? 0)%nat eqn:Hlen;
      [destruct jobs; [elim Hjobs; reflexivity | discriminate Hlen] |].
    rewrite !admitted_jobs_app, !waited_jobs_app, !removed_jobs_app,
      admitted_add_events, wait_no_admission, remove_no_admission,
      waited_add_events, waited_wait_events, waited_remove_events,
      removed_add_events, removed_wait_events, removed_remove_events, !app_nil_r.
    repeat split.
Qed.

(** The helper either returns without any queue call, or runs one batch
    right after the search. *)
Lemma v0_helper_split (w : World) (query : option string) (team : string)
    (sub : option string) (po : V0.PageOptions) (so : V0.SearchOptions)
    (plan : option string) (st : State) :
  (exists result,
     outcome_of (V0.searchHelper w query team sub po so plan st) = Returned result /\
     Forall no_queue_call (log_of (V0.searchHelper w query team sub po so plan st))) \/
  (exists jobs st1,
     jobs <> [] /\
     V0.fetchPageContent po <> Some false /\
     outcome_of (V0.searchHelper w query team sub po so plan st) =
       outcome_of (v0_batch w (getJobPriority w plan team 20) jobs st1) /\
     log_of (V0.searchHelper w query team sub po so plan st) =
       log_of (SearchResolver.search w (v0_search_args query team so) st) ++
       log_of (v0_batch w (getJobPriority w plan team 20) jobs st1)).
Proof.
  rewrite v0_helper_run.
  destruct (negb (truthy_opt query)); [left; eexists; split; [reflexivity | constructor] |].
  cbn zeta.
  pose proof (search_no_queue_call w (v0_search_args query team so) st) as Hs.
  destruct (V0.fetchPageContent po) as [[|] |] eqn:Hpo.
  2: { left. eexists. split; [reflexivity |]. cbn [log_of snd].
       apply Forall_app. split; [exact Hs | repeat constructor]. }
  all: destruct (length (truncate _ _) =? 0)%nat eqn:Hres;
    [left; eexists; split; [reflexivity | exact Hs] |].
  all: right; eexists _, _; split; [apply jobDatas_nonempty, Hres |].
  all: split; [discriminate | split; reflexivity].
Qed.

(** ** Blocklisted URLs in both controllers *)

Lemma await_all_documents (w : World) (jobs : list (nat * string)) (ds : list Document) :
  await_all w jobs = inr ds ->
  forall d, In d ds ->
    exists job, In job jobs /\ waitForJob_outcome w (fst job) 60000 = inr d.
Proof.
  unfold await_all.
  destruct (rejections (wait_answers w jobs)); [| discriminate].
  intros H. injection H as <-. clear.
  induction jobs as [| job jobs IH]; intros d Hd; [destruct Hd |].
  cbn [wait_answers map fulfilled flat_map] in Hd. apply in_app_or in Hd.
  destruct Hd as [Hd | Hd].
  - destruct (waitForJob_outcome w (fst job) 60000) as [e | d0] eqn:Hjob;
      [destruct Hd |].
    destruct Hd as [<- | []]. exists job. split; [left; reflexivity | exact Hjob].
  - destruct (IH d Hd) as [x [Hx Hout]]. exists x. split; [right; exact Hx | exact Hout].
Qed.

(** The documents the v0 helper returns are legacy forms of the pages that
    the waits on its admitted jobs resolved with. *)
Lemma v0_helper_documents (w : World) (query : option string) (team : string)
    (sub : option string) (po : V0.PageOptions) (so : V0.SearchOptions)
    (plan : option string) (st : State) (result : V0.HelperResult)
    (docs : list (option LegacyDocument)) :
  outcome_of (V0.searchHelper w query team sub po so plan st) = Returned result ->
  V0.data result = Some (V0.DocData docs) ->
  forall doc, In doc docs ->
    exists j u d,
      In (j, u) (admitted_jobs (log_of (V0.searchHelper w query team sub po so plan st))) /\
      waitForJob_outcome w j 60000 = inr d /\ doc = toLegacyDocument w d.
Proof.
  rewrite v0_helper_run.
  destruct (negb (truthy_opt query));
    [cbn; intros H; injection H as <-; discriminate |].
  cbn zeta.
  destruct (no_queue_call_jobs _
              (search_no_queue_call w (v0_search_args query team so) st)) as [Hs _].
  destruct (V0.fetchPageContent po) as [[|] |].
  2: { cbn. intros H. injection H as <-. discriminate. }
  all: destruct (length (truncate _ _) =? 0)%nat eqn:Hz;
    [cbn; intros H; injection H as <-; discriminate |].
  all: cbn [outcome_of log_of fst snd]; intros Hb Hdata doc Hdoc.
  all: destruct (v0_batch_returned w _ _ _ result (jobDatas_nonempty _ _ Hz) Hb)
         as [ds [Hall [Hlen Hres]]].
  all: match type of Hb with
       | outcome_of (v0_batch _ ?p ?jobs ?st1) = _ =>
           destruct (batch_queue_calls w p jobs st1 (jobDatas_nonempty _ _ Hz))
             as [[_ [Hadm _]] | [[[e He] _] | [[e He] _]]];
             [| rewrite He in Hb; discriminate Hb ..]
       end.
  all: rewrite admitted_jobs_app, Hs, Hadm; cbn [app].
  all: assert (Hin : In doc (map (toLegacyDocument w) ds))
         by (subst result; cbn zeta in Hdata;
             destruct (length (List.filter V0.has_content
                                 (map (toLegacyDocument w) ds)) =? 0)%nat;
             cbn in Hdata; injection Hdata as <-;
             [exact Hdoc | apply filter_In in Hdoc; apply Hdoc]).
  all: apply in_map_iff in Hin; destruct Hin as [d [<- Hd]].
  all: destruct (await_all_documents w _ ds Hall d Hd) as [[j u] [Hjob Hout]].
  all: exists j, u, d; split; [exact Hjob | split; [exact Hout | reflexivity]].
Qed.

(** C5 (as the code has it). Neither controller ever admits a scrape job
    for a blocklisted URL.  In the v1 controller the task of such a URL
    resolves, without any queue call (no admission, no wait, no removal), to
    a rejection document that carries status code 403 and the fixed message.
    The v0 helper instead filters the URL out of the result list: every
    document of a v0 response is the legacy form of the page that the wait on
    a job admitted for a URL that is not blocklisted resolved with, so a
    blocklisted URL yields no document there, and no rejection document in
    particular.  On its SERP-only path the v0 helper creates no job and hands
    back the search results as the resolver returned them, blocklisted or
    not. *)
Theorem blocked_url_never_admitted (w : World) :
  (forall auth parsed st j u,
     In (j, u) (admitted_jobs (log_of (V1.searchController w auth parsed st))) ->
     isUrlBlocked w u = false) /\
  (forall auth credits query po so st j u,
     In (j, u) (admitted_jobs
                  (log_of (V0.searchController w auth credits query po so st))) ->
     isUrlBlocked w u = false) /\
  (forall r o st,
     isUrlBlocked w (sr_url r) = true ->
     outcome_of (V1.scrapeSearchResult w r o st) =
       Returned (V1.error_document r
                   ("Could not scrape url: " +:+ BLOCKLISTED_URL_MESSAGE w)) /\
     metadata (V1.error_document r
                 ("Could not scrape url: " +:+ BLOCKLISTED_URL_MESSAGE w)) =
       Some (mkMetadata (Some 403)
               (Some ("Could not scrape url: " +:+ BLOCKLISTED_URL_MESSAGE w))
               None) /\
     admitted_jobs (log_of (V1.scrapeSearchResult w r o st)) = [] /\
     waited_jobs (log_of (V1.scrapeSearchResult w r o st)) = [] /\
     removed_jobs (log_of (V1.scrapeSearchResult w r o st)) = []) /\
  (forall auth credits query po so st resp docs doc,
     outcome_of (V0.searchController w auth credits query po so st) = Returned resp ->
     V0.body_data resp = Some (V0.DocData docs) ->
     In doc docs ->
     exists j u d,
       In (j, u) (admitted_jobs
                    (log_of (V0.searchController w auth credits query po so st))) /\
       isUrlBlocked w u = false /\
       waitForJob_outcome w j 60000 = inr d /\
       doc = toLegacyDocument w d) /\
  (forall query team sub po so plan st,
     V0.fetchPageContent po = Some false ->
     truthy_opt query = true ->
     outcome_of (V0.searchHelper w query team sub po so plan st) =
       Returned
         (V0.mkHelperResult true None
            (Some (V0.SerpData
                     (results_of
                        (outcome_of (SearchResolver.search w
                                       (v0_search_args query team so) st)))))
            200) /\
     admitted_jobs (log_of (V0.searchHelper w query team sub po so plan st)) = []).
Proof.
  assert (Hv0 : forall auth credits query po so st j u,
            In (j, u) (admitted_jobs
                         (log_of (V0.searchController w auth credits query po so st))) ->
            isUrlBlocked w u = false).
  { intros auth credits query po so st j u H.
    apply (admitted_jobs_all w _) in H; [exact H |].
    eapply (v0_controller_log w (admits_unblocked w));
      try (intros; exact I); [intros; assumption | reflexivity]. }
  split; [| split; [exact Hv0 | split; [| split]]].
  4: { intros query team sub po so plan st Hpo Hq.
       rewrite v0_helper_run, Hq, Hpo. cbn [negb]. cbn zeta.
       split; [reflexivity |]. cbn [log_of snd]. rewrite admitted_jobs_app.
       destruct (no_queue_call_jobs _
                   (search_no_queue_call w (v0_search_args query team so) st))
         as [-> _].
       reflexivity. }
  - intros auth parsed st j u H.
    apply (admitted_jobs_all w _) in H; [exact H |].
    destruct parsed as [e | body].
    + apply (v1_controller_log w (admits_unblocked w) 0);
        try (intros; exact I); [intros; assumption | intros b Hb; discriminate].
    + apply (v1_controller_log w (admits_unblocked w)
               (V1.num_results_buffer (V1.limit body)));
        try (intros; exact I); [intros; assumption |].
      intros b Hb. injection Hb as <-. reflexivity.
  - intros r o st Hb. rewrite scrapeSearchResult_run. cbn zeta. rewrite Hb.
    repeat split.
  - intros auth credits query po so st resp docs doc Hresp Hdata Hdoc.
    assert (Hadm : exists j u d,
              In (j, u) (admitted_jobs
                           (log_of (V0.searchController w auth credits query po so st))) /\
              waitForJob_outcome w j 60000 = inr d /\ doc = toLegacyDocument w d).
    { revert Hresp Hdata.
      destruct (V0.auth_success auth) eqn:Hauth.
      2: { unfold V0.searchController. rewrite Hauth. cbn.
           intros H. injection H as <-. discriminate. }
      destruct credits as [e | [|]].
      1, 3: unfold V0.searchController; rewrite Hauth; cbn [negb];
        rewrite run_try_catch, run_bind;
        cbn [emit outcome_of state_of log_of fst snd];
        rewrite run_bind; cbn [uuidv4 outcome_of state_of log_of fst snd];
        rewrite ?run_bind; cbn; intros H; injection H as <-; discriminate.
      rewrite (v0_controller_run w auth query po so st Hauth). cbn zeta.
      set (h := V0.searchHelper w query _ _ _ _ _ _).
      destruct (outcome_of h) as [result | e] eqn:Hh; cbn [outcome_of log_of fst snd].
      - intros H Hdata. injection H as <-. cbn in Hdata.
        destruct (v0_helper_documents w query _ _ _ _ _ _ result docs Hh Hdata doc Hdoc)
          as [j [u [d [Hin [Hout Heq]]]]].
        exists j, u, d. split; [| split; assumption].
        change (RedisSadd "teams_using_v0" (V0.team_id auth) :: log_of h ++ ?l)
          with ([RedisSadd "teams_using_v0" (V0.team_id auth)] ++ log_of h ++ l).
        rewrite !admitted_jobs_app. cbn [admitted_jobs flat_map app].
        apply in_or_app. left. exact Hin.
      - intros H. injection H as <-.
        destruct (is_timeout_message (errorMessage e)); discriminate. }
    destruct Hadm as [j [u [d [Hin [Hout Heq]]]]].
    exists j, u, d. split; [exact Hin |]. split; [exact (Hv0 _ _ _ _ _ _ _ _ Hin) |].
    split; assumption.
Qed.

Lemma blocked_url_never_admitted_witness :
  outcome_of
    (V1.scrapeSearchResult
       (raw_world three_results only_b_blocked (fun _ => inr scraped_page))
       (mkSearchResult "https://b.example/" "B" "second")
       (v1_options v1_auth (v1_request 2 ["markdown"])) initial_state) =
    Returned (V1.error_document (mkSearchResult "https://b.example/" "B" "second")
                "Could not scrape url: URL is blocked") /\
  waited_jobs
    (log_of
       (V1.scrapeSearchResult
          (raw_world three_results only_b_blocked (fun _ => inr scraped_page))
          (mkSearchResult "https://b.example/" "B" "second")
          (v1_options v1_auth (v1_request 2 ["markdown"])) initial_state)) = [].
Proof.
  destruct (proj1 (proj2 (proj2 (blocked_url_never_admitted
                    (raw_world three_results only_b_blocked (fun _ => inr scraped_page)))))
              (mkSearchResult "https://b.example/" "B" "second")
              (v1_options v1_auth (v1_request 2 ["markdown"])) initial_state
              ltac:(reflexivity))
    as [Hout [_ [_ [Hwait _]]]].
  split; [exact Hout | exact Hwait].
Defined.

(** C5 (as the specification words it) fails in the v0 helper: a search
    whose only result is blocklisted admits no job, but the response carries
    no rejection document at all. *)
Lemma blocked_url_dropped_by_v0 :
  isUrlBlocked
    (raw_world [mkSearchResult "https://b.example/" "B" "second"]
               only_b_blocked (fun _ => inr scraped_page))
    "https://b.example/" = true /\
  V0.searchController
    (raw_world [mkSearchResult "https://b.example/" "B" "second"]
               only_b_blocked (fun _ => inr scraped_page))
    v0_auth (inr true) (Some "rust ownership") None (Some (v0_options 3))
    initial_state =
  (Returned (V0.mkResponse 200 (Some true) (Some "No search results found") None),
   mkState 0 1,
   [RedisSadd "teams_using_v0" "team-1"; ProviderRequest RawGoogle 4; LogJob 0]).
Proof.
  split; vm_compute; reflexivity.
Qed.

(** X12. In a v1 search every admitted job is waited for, in admission
    order, nothing else is waited for and only waited jobs are removed.  In
    the v0 helper the same holds whenever the helper returns, and then every
    admitted job is also removed; otherwise either every admitted job was
    waited for and none removed, or (an admission failed) no job was waited
    for or removed at all. *)
Theorem admitted_jobs_are_waited (w : World) :
  (forall auth body st,
     admitted_are_waited (log_of (V1.searchController w auth (inr body) st))) /\
  (forall query team sub po so plan st,
     ((exists result,
         outcome_of (V0.searchHelper w query team sub po so plan st) = Returned result) ->
      waited_jobs (log_of (V0.searchHelper w query team sub po so plan st)) =
        map fst (admitted_jobs (log_of (V0.searchHelper w query team sub po so plan st))) /\
      removed_jobs (log_of (V0.searchHelper w query team sub po so plan st)) =
        map fst (admitted_jobs (log_of (V0.searchHelper w query team sub po so plan st)))) /\
     ((exists e,
         outcome_of (V0.searchHelper w query team sub po so plan st) = Threw e) ->
      removed_jobs (log_of (V0.searchHelper w query team sub po so plan st)) = [] /\
      (waited_jobs (log_of (V0.searchHelper w query team sub po so plan st)) =
         map fst (admitted_jobs (log_of (V0.searchHelper w query team sub po so plan st))) \/
       waited_jobs (log_of (V0.searchHelper w query team sub po so plan st)) = []))).
Proof.
  split.
  - intros auth body st. apply v1_controller_closed.
    + exact admitted_are_waited_nil.
    + exact admitted_are_waited_app.
    + apply quiet_admitted_are_waited, search_no_queue_call.
    + intros r st'. apply task_admitted_are_waited.
    + intros c. split; [reflexivity | intros x []].
    + intros c. split; [reflexivity | intros x []].
  - intros query team sub po so plan st.
    destruct (v0_helper_split w query team sub po so plan st)
      as [[result [Hres Hquiet]] | [jobs [st1 [Hjobs [_ [Hout Hlog]]]]]].
    + destruct (no_queue_call_jobs _ Hquiet) as [Ha [Hw Hr]].
      rewrite Ha, Hw, Hr. split.
      * intros _. split; reflexivity.
      * intros _. split; [reflexivity | left; reflexivity].
    + rewrite Hlog, Hout, waited_jobs_app, admitted_jobs_app, removed_jobs_app.
      destruct (no_queue_call_jobs _
                  (search_no_queue_call w (v0_search_args query team so) st))
        as [-> [-> ->]].
      cbn [app].
      destruct (batch_queue_calls w (getJobPriority w plan team 20) jobs st1 Hjobs)
        as [[[result Hr] [Hadm [Hwt Hrm]]] | [[[e He] [Hadm [Hwt Hrm]]] | [[e He] [Hwt Hrm]]]].
      * rewrite Hr, Hadm, Hwt, Hrm. split.
        -- intros _. split; reflexivity.
        -- intros [e He]. discriminate He.
      * rewrite He, Hadm, Hwt, Hrm. split.
        -- intros [result Hr]. discriminate Hr.
        -- intros _. split; [reflexivity | left; reflexivity].
      * rewrite He, Hwt, Hrm. split.
        -- intros [result Hr]. discriminate Hr.
        -- intros _. split; [reflexivity | right; reflexivity].
Qed.

Lemma admitted_jobs_are_waited_witness :
  waited_jobs
    (log_of (V0.searchHelper all_scraped_world (Some "rust ownership") "team-1" None
               (V0.mkPageOptions None None None) (v0_options 2) None initial_state)) =
  [0%nat; 1%nat] /\
  removed_jobs
    (log_of (V0.searchHelper all_timeouts_world (Some "rust ownership") "team-1" None
               (V0.mkPageOptions None None None) (v0_options 2) None initial_state)) = [].
Proof.
  split.
  - apply (proj1 (proj1 (proj2 (admitted_jobs_are_waited all_scraped_world)
                           (Some "rust ownership") "team-1" None
                           (V0.mkPageOptions None None None) (v0_options 2) None
                           initial_state)
                    ltac:(vm_compute; eexists; reflexivity))).
  - apply (proj1 (proj2 (proj2 (admitted_jobs_are_waited all_timeouts_world)
                           (Some "rust ownership") "team-1" None
                           (V0.mkPageOptions None None None) (v0_options 2) None
                           initial_state)
                    ltac:(vm_compute; eexists; reflexivity))).
Defined.

(** ** The v0 helper and controller *)

Lemma batch_no_billing (w : World) (p : Z) (jobs : list (nat * string)) (st : State) :
  billed (log_of (v0_batch w p jobs st)) = [].
Proof.
  assert (Hadd : forall l, billed (add_events p l) = []).
  { induction l as [| job l IH]; [reflexivity | exact IH]. }
  assert (Hwait : forall l, billed (wait_events l) = []).
  { induction l as [| job l IH]; [reflexivity | exact IH]. }
  assert (Hrem : forall l, billed (remove_events l) = []).
  { induction l as [| job l IH]; [reflexivity | exact IH]. }
  destruct (v0_batch_cases w p jobs st)
    as [_ [[done [e [_ [_ [_ ->]]]]] | [[e [_ [_ ->]]] | [ds [result [_ [_ ->]]]]]]].
  - apply Hadd.
  - rewrite billed_app, Hadd, Hwait. reflexivity.
  - rewrite !billed_app, Hadd, Hwait.
    destruct (length jobs =? 0)%nat; [reflexivity | apply Hrem].
Qed.

(** X13. The v0 helper bills only on its SERP-only path, and there for the
    whole list the resolver returned (not truncated to the limit, blocklisted
    URLs included), which is also the list it hands back without any queue
    call; on the scrape path it issues no billing call at all. *)
Theorem v0_bills_only_serp_only (w : World) (query : option string) (team : string)
    (sub : option string) (po : V0.PageOptions) (so : V0.SearchOptions)
    (plan : option string) (st : State) :
  (V0.fetchPageContent po <> Some false ->
   billed (log_of (V0.searchHelper w query team sub po so plan st)) = []) /\
  (V0.fetchPageContent po = Some false -> truthy_opt query = true ->
   outcome_of (V0.searchHelper w query team sub po so plan st) =
     Returned
       (V0.mkHelperResult true None
          (Some (V0.SerpData
                   (results_of
                      (outcome_of (SearchResolver.search w
                                     (v0_search_args query team so) st)))))
          200) /\
   billed (log_of (V0.searchHelper w query team sub po so plan st)) =
     [length (results_of
                (outcome_of (SearchResolver.search w (v0_search_args query team so) st)))] /\
   Forall no_queue_call (log_of (V0.searchHelper w query team sub po so plan st))).
Proof.
  pose proof (no_billing_billed _ (search_no_billing w (v0_search_args query team so) st))
    as Hs.
  pose proof (search_no_queue_call w (v0_search_args query team so) st) as Hq.
  rewrite v0_helper_run. split.
  - intros Hpo. destruct (negb (truthy_opt query)); [reflexivity |]. cbn zeta.
    destruct (V0.fetchPageContent po) as [[|] |]; try (elim Hpo; reflexivity).
    all: destruct (length (truncate _ _) =? 0)%nat; [exact Hs |].
    all: cbn [log_of snd]; rewrite billed_app, Hs, batch_no_billing; reflexivity.
  - intros Hpo Hquery. rewrite Hquery, Hpo. cbn [negb]. cbn zeta.
    split; [reflexivity |]. cbn [log_of snd]. split.
    + rewrite billed_app, Hs. reflexivity.
    + apply Forall_app. split; [exact Hq | repeat constructor].
Qed.

Lemma v0_bills_only_serp_only_witness :
  billed (log_of (V0.searchHelper all_scraped_world (Some "rust ownership") "team-1" None
                    (V0.mkPageOptions None None None) (v0_options 2) None
                    initial_state)) = [] /\
  billed (log_of (V0.searchHelper all_scraped_world (Some "rust ownership") "team-1" None
                    (V0.mkPageOptions (Some false) None None) (v0_options 2) None
                    initial_state)) = [3%nat].
Proof.
  split.
  - apply (proj1 (v0_bills_only_serp_only all_scraped_world (Some "rust ownership")
                    "team-1" None (V0.mkPageOptions None None None) (v0_options 2) None
                    initial_state)).
    discriminate.
  - exact (proj1 (proj2 (proj2 (v0_bills_only_serp_only all_scraped_world
                                  (Some "rust ownership") "team-1" None
                                  (V0.mkPageOptions (Some false) None None)
                                  (v0_options 2) None initial_state)
                           eq_refl eq_refl))).
Defined.

(** X14. The v0 pipeline starts only for an authenticated caller with
    credits and a query.  A failed authentication is answered with its own
    status and error before anything else happens.  For an authenticated
    caller the team is recorded in "teams_using_v0" and a job id is drawn
    before the credit check; then missing credits are answered with 402, a
    failing credit check with 500 "Internal server error", and a missing or
    empty query with 400 "Query is required" and success=false.  In none of
    these cases is a provider contacted, a job admitted or a team billed. *)
Theorem v0_pipeline_gates (w : World) (auth : V0.AuthResult)
    (credits : Thrown + bool) (query : option string)
    (po : option V0.PageOptions) (so : option V0.SearchOptions) (st : State) :
  (V0.auth_success auth = false ->
   V0.searchController w auth credits query po so st =
     (Returned (V0.mkResponse (V0.auth_status auth) None (V0.auth_error auth) None),
      st, [])) /\
  (V0.auth_success auth = true -> credits = inr false ->
   V0.searchController w auth credits query po so st =
     (Returned (V0.mkResponse 402 None (Some "Insufficient credits") None),
      after_uuid st, [RedisSadd "teams_using_v0" (V0.team_id auth)])) /\
  (V0.auth_success auth = true -> forall e, credits = inl e ->
   V0.searchController w auth credits query po so st =
     (Returned (V0.mkResponse 500 None (Some "Internal server error") None),
      after_uuid st,
      [RedisSadd "teams_using_v0" (V0.team_id auth); LoggerError (errorMessage e)])) /\
  (V0.auth_success auth = true -> credits = inr true -> truthy_opt query = false ->
   V0.searchController w auth credits query po so st =
     (Returned (V0.mkResponse 400 (Some false) (Some "Query is required") None),
      after_uuid st, [RedisSadd "teams_using_v0" (V0.team_id auth); LogJob 0])).
Proof.
  split; [| split; [| split]].
  - intros Hauth. unfold V0.searchController. rewrite Hauth. reflexivity.
  - intros Hauth ->. unfold V0.searchController. rewrite Hauth. cbn [negb].
    rewrite run_try_catch, run_bind. cbn [emit outcome_of state_of log_of fst snd].
    rewrite run_bind. reflexivity.
  - intros Hauth e ->. unfold V0.searchController. rewrite Hauth. cbn [negb].
    rewrite run_try_catch, run_bind. cbn [emit outcome_of state_of log_of fst snd].
    rewrite run_bind. cbn [uuidv4 outcome_of state_of log_of fst snd].
    rewrite run_bind. reflexivity.
  - intros Hauth -> Hq. rewrite (v0_controller_run w auth query po so st Hauth).
    cbn zeta. rewrite v0_helper_run, Hq. reflexivity.
Qed.

Lemma v0_pipeline_gates_witness :
  V0.searchController all_scraped_world v0_auth (inr false) (Some "rust ownership")
    None None initial_state =
  (Returned (V0.mkResponse 402 None (Some "Insufficient credits") None),
   mkState 0 1, [RedisSadd "teams_using_v0" "team-1"]).
Proof.
  apply (proj1 (proj2 (v0_pipeline_gates all_scraped_world v0_auth (inr false)
                         (Some "rust ownership") None None initial_state)));
    reflexivity.
Defined.

Lemma num_results_at_most_10 (team : string) (so : V0.SearchOptions) :
  V0.num_results_of team so <= 10.
Proof.
  unfold V0.num_results_of. destruct (String.eqb team V0.single_result_team); lia.
Qed.

Lemma truncate_length {A : Type} (l : list A) (k : Z) :
  0 <= k -> Z.of_nat (length (truncate l k)) <= k.
Proof. apply sliced_length. Qed.

(** The admissions of a batch are a prefix of its job list. *)
Lemma batch_admits_prefix (w : World) (p : Z) (jobs : list (nat * string)) (st : State) :
  (length (admitted_jobs (log_of (v0_batch w p jobs st))) <= length jobs)%nat.
Proof.
  assert (Hadd : forall l st',
            (length (admitted_jobs
                       (log_of (mapM (fun job => addScrapeJob w (snd job) (fst job) p) l st')))
             <= length l)%nat).
  { induction l as [| job l IH]; intros st'; cbn [mapM]; [cbn; lia |].
    rewrite run_bind, addScrapeJob_run.
    destruct (addScrapeJob_outcome w (fst job) (snd job)); [cbn; lia |].
    cbn [outcome_of state_of log_of fst snd]. rewrite run_bind.
    specialize (IH st').
    destruct (outcome_of (mapM _ l st'));
      cbn [outcome_of state_of log_of fst snd ret]; rewrite ?app_nil_r;
      rewrite admitted_jobs_app, length_app; cbn; lia. }
  unfold v0_batch. rewrite run_bind. specialize (Hadd jobs st).
  destruct (add_loop_run w p jobs st) as [done [Hst _]].
  destruct (outcome_of (mapM _ jobs st)); cbn [log_of snd]; [| exact Hadd].
  rewrite Hst, run_bind, wait_all_run. cbn [outcome_of state_of log_of fst snd].
  destruct (await_all w jobs) as [e | ds]; cbn [log_of snd].
  - rewrite !admitted_jobs_app, wait_no_admission, app_nil_r. exact Hadd.
  - destruct (length (map (toLegacyDocument w) ds) =? 0)%nat.
    + cbn [ret log_of snd]. rewrite !admitted_jobs_app, wait_no_admission, !app_nil_r.
      exact Hadd.
    + rewrite run_bind, remove_all_run. cbn [outcome_of state_of log_of fst snd].
      assert (Hret : forall (x y : V0.HelperResult) (b : bool) (st' : State),
                admitted_jobs (log_of ((if b then ret x else ret y) st')) = [])
        by (intros x y b st'; destruct b; reflexivity).
      rewrite !admitted_jobs_app, wait_no_admission, remove_no_admission, Hret, !app_nil_r.
      exact Hadd.
Qed.

(** X15. Whatever limit is requested, the v0 helper never asks a provider
    for more than 15 results, and with no limit given it asks for 10 (1 for
    the single-result team); for a non-negative limit it never admits more
    than 10 scrape jobs per request. *)
Theorem v0_caps_requests (w : World) (query : option string) (team : string)
    (sub : option string) (po : V0.PageOptions) (so : V0.SearchOptions)
    (plan : option string) (st : State) :
  (forall m,
     In m (requested_sizes (log_of (V0.searchHelper w query team sub po so plan st))) ->
     m <= 15) /\
  (V0.limit so = None ->
   forall m,
     In m (requested_sizes (log_of (V0.searchHelper w query team sub po so plan st))) ->
     m = if String.eqb team V0.single_result_team then 1 else 10) /\
  (0 <= V0.num_results_of team so ->
   (length (admitted_jobs (log_of (V0.searchHelper w query team sub po so plan st)))
    <= 10)%nat).
Proof.
  assert (Hreq : forall m,
            In m (requested_sizes (log_of (V0.searchHelper w query team sub po so plan st))) ->
            m = (3 * V0.num_results_of team so) / 2).
  { intros m Hm.
    apply (requested_sizes_all ((3 * V0.num_results_of team so) / 2) _) in Hm; [exact Hm |].
    apply (v0_helper_log w (asks_for ((3 * V0.num_results_of team so) / 2))
             ((3 * V0.num_results_of team so) / 2));
      try (intros; exact I); try reflexivity.
    apply floor_three_halves. }
  pose proof (num_results_at_most_10 team so) as H10.
  split; [| split].
  - intros m Hm. rewrite (Hreq m Hm).
    apply Z.div_le_upper_bound; lia.
  - intros Hnone m Hm. rewrite (Hreq m Hm). unfold V0.num_results_of. rewrite Hnone.
    destruct (String.eqb team V0.single_result_team); reflexivity.
  - intros Hnum. rewrite v0_helper_run.
    destruct (negb (truthy_opt query)); [cbn; lia |]. cbn zeta.
    destruct (no_queue_call_jobs _
                (search_no_queue_call w (v0_search_args query team so) st)) as [Hs _].
    assert (Hscrape : forall rs,
      (length
         (admitted_jobs
            (log_of
               (let sliced := truncate rs (V0.num_results_of team so) in
                if (length sliced =? 0)%nat
                then (Returned (V0.mkHelperResult true (Some "No search results found") None 200),
                      state_of (SearchResolver.search w (v0_search_args query team so) st),
                      log_of (SearchResolver.search w (v0_search_args query team so) st))
                else
                  let b := v0_batch w (getJobPriority w plan team 20)
                             (jobDatas_of
                                (uuidCounter
                                   (state_of (SearchResolver.search w
                                                (v0_search_args query team so) st)))
                                sliced)
                             (mkState
                                (currentKeyIndex
                                   (state_of (SearchResolver.search w
                                                (v0_search_args query team so) st)))
                                (uuidCounter
                                   (state_of (SearchResolver.search w
                                                (v0_search_args query team so) st))
                                 + length sliced)) in
                  (outcome_of b, state_of b,
                   log_of (SearchResolver.search w (v0_search_args query team so) st)
                   ++ log_of b)))) <= 10)%nat).
    { intros rs. cbn zeta. pose proof (truncate_length rs _ Hnum) as Hlen.
      destruct (length (truncate rs _) =? 0)%nat; cbn [log_of snd];
        [rewrite Hs; cbn; lia |].
      rewrite admitted_jobs_app, Hs. cbn [app].
      etransitivity; [apply batch_admits_prefix |]. rewrite jobDatas_length. lia. }
    destruct (V0.fetchPageContent po) as [[|] |]; [apply Hscrape | | apply Hscrape].
    cbn [log_of snd]. rewrite admitted_jobs_app, Hs. cbn. lia.
Qed.

Lemma v0_caps_requests_witness :
  (length (admitted_jobs
             (log_of (V0.searchHelper all_scraped_world (Some "rust ownership") "team-1"
                        None (V0.mkPageOptions None None None) (v0_options 50) None
                        initial_state))) <= 10)%nat.
Proof.
  apply (proj2 (proj2 (v0_caps_requests all_scraped_world (Some "rust ownership") "team-1"
                         None (V0.mkPageOptions None None None) (v0_options 50) None
                         initial_state))).
  vm_compute. discriminate.
Defined.

(** X16. A failed wait fails the whole v0 request: if the wait on any job
    admitted by a v0 search is rejected (timeout or job failure), the
    controller answers 408 or 500 with a bare error object, no success flag
    and no data, whatever the other jobs of the batch returned. *)
Theorem v0_one_rejected_wait_fails_request (w : World) (auth : V0.AuthResult)
    (query : option string) (po : option V0.PageOptions)
    (so : option V0.SearchOptions) (st : State) (j : nat) (u : string) (e : Thrown) :
  V0.auth_success auth = true ->
  In (j, u) (admitted_jobs
               (log_of (V0.searchController w auth (inr true) query po so st))) ->
  waitForJob_outcome w j 60000 = inl e ->
  exists resp,
    outcome_of (V0.searchController w auth (inr true) query po so st) = Returned resp /\
    (V0.status resp = 408 \/ V0.status resp = 500) /\
    V0.body_success resp = None /\ V0.body_data resp = None.
Proof.
  intros Hauth Hin Hwait.
  destruct (v0_controller_of_helper w auth query po so st Hauth)
    as [po' [so' [st1 [Hthrew [_ [Heq _]]]]]].
  rewrite Heq in Hin.
  assert (Hfail : exists e',
            outcome_of (V0.searchHelper w query (V0.team_id auth) (V0.chunk_sub_id auth)
                          po' so' (V0.plan auth) st1) = Threw e').
  { destruct (v0_helper_split w query (V0.team_id auth) (V0.chunk_sub_id auth)
                po' so' (V0.plan auth) st1)
      as [[result [_ Hquiet]] | [jobs [st2 [Hjobs [_ [Hout Hlog]]]]]].
    { rewrite (proj1 (no_queue_call_jobs _ Hquiet)) in Hin. destruct Hin. }
    rewrite Hlog, admitted_jobs_app in Hin.
    rewrite (proj1 (no_queue_call_jobs _ (search_no_queue_call w _ st1))) in Hin.
    cbn [app] in Hin. rewrite Hout.
    destruct (v0_batch_cases w (getJobPriority w (V0.plan auth) (V0.team_id auth) 20)
                jobs st2)
      as [_ [[done [e' [_ [_ [He _]]]]] | [[e' [_ [He _]]] | [ds [result [Hall [_ Hb]]]]]]];
      [eauto | eauto |].
    exfalso. rewrite Hb in Hin.
    destruct (length jobs =? 0)%nat eqn:Hlen;
      [destruct jobs; [elim Hjobs; reflexivity | discriminate Hlen] |].
    rewrite !admitted_jobs_app, admitted_add_events, wait_no_admission,
      remove_no_admission, !app_nil_r in Hin.
    destruct (await_all_resolved w jobs ds Hall) as [_ Hres].
    destruct (Hres (j, u) Hin) as [d Hd]. cbn in Hd. congruence. }
  destruct Hfail as [e' He']. rewrite (Hthrew e' He').
  destruct (is_timeout_message (errorMessage e')); eexists;
    (split; [reflexivity |]); cbn; auto.
Qed.

Lemma v0_one_rejected_wait_fails_request_witness :
  exists resp,
    outcome_of (V0.searchController first_only_world v0_auth (inr true)
                  (Some "rust ownership") None (Some (v0_options 2)) initial_state) =
      Returned resp /\
    (V0.status resp = 408 \/ V0.status resp = 500) /\
    V0.body_success resp = None /\ V0.body_data resp = None.
Proof.
  apply (v0_one_rejected_wait_fails_request first_only_world v0_auth
           (Some "rust ownership") None (Some (v0_options 2)) initial_state
           2%nat "https://b.example/" job_wait_timeout).
  - reflexivity.
  - vm_compute. right. left. reflexivity.
  - reflexivity.
Defined.

Lemma filter_all_true {A : Type} (f : A -> bool) (l : list A) :
  Forall (fun x => f x = true) (List.filter f l).
Proof.
  apply Forall_forall. intros x Hx. apply list_elem_of_In, filter_In in Hx. apply Hx.
Qed.

Lemma filter_none_false {A : Type} (f : A -> bool) (l : list A) :
  (length (List.filter f l) =? 0)%nat = true -> Forall (fun x => f x = false) l.
Proof.
  induction l as [| x l IH]; cbn; [constructor |].
  destruct (f x) eqn:Hx; [discriminate |]. intros H. constructor; [exact Hx | apply IH, H].
Qed.

Lemma v0_has_content_spec (doc : option LegacyDocument) :
  V0.has_content doc = true <->
  exists x c, doc = Some x /\ content x = Some c /\ trim c <> "".
Proof.
  unfold V0.has_content. destruct doc as [x |].
  - destruct (content x) as [c |] eqn:Hc.
    + rewrite has_text_spec. split.
      * intros H. exists x, c. repeat split; assumption.
      * intros [x' [c' [Hx [Hc' H]]]]. injection Hx as <-.
        rewrite Hc in Hc'. injection Hc' as <-. exact H.
    + split; [discriminate |].
      intros [x' [c' [Hx [Hc' _]]]]. injection Hx as <-.
      rewrite Hc in Hc'. discriminate Hc'.
  - split; [discriminate | intros [x [c [H _]]]; discriminate H].
Qed.

(** X17. What the v0 helper returns for a non-empty query is always
    success=true with return code 200.  The message "No search results
    found" comes only with no data and no admitted job (so only before any
    job is created); a list of documents is never empty, and it is either
    the documents that have content, with no error, or all documents of the
    batch when none has content, with the error "No page found".  A legacy
    document has content when it is defined and its [content] is a text
    that [trim] does not reduce to the empty string. *)
Theorem v0_helper_results (w : World) (query : option string) (team : string)
    (sub : option string) (po : V0.PageOptions) (so : V0.SearchOptions)
    (plan : option string) (st : State) (result : V0.HelperResult) :
  truthy_opt query = true ->
  outcome_of (V0.searchHelper w query team sub po so plan st) = Returned result ->
  V0.success result = true /\ V0.returnCode result = 200 /\
  (V0.error result = Some "No search results found" ->
   V0.data result = None /\
   admitted_jobs (log_of (V0.searchHelper w query team sub po so plan st)) = []) /\
  (forall docs,
     V0.data result = Some (V0.DocData docs) ->
     docs <> [] /\
     (V0.error result = None /\ Forall (fun d => V0.has_content d = true) docs \/
      V0.error result = Some "No page found" /\
      Forall (fun d => V0.has_content d = false) docs)) /\
  (forall doc,
     V0.has_content doc = true <->
     exists x c, doc = Some x /\ content x = Some c /\ trim c <> "").
Proof.
  intros Hq Hout.
  cut (V0.success result = true /\ V0.returnCode result = 200 /\
       (V0.error result = Some "No search results found" ->
        V0.data result = None /\
        admitted_jobs (log_of (V0.searchHelper w query team sub po so plan st)) = []) /\
       (forall docs,
          V0.data result = Some (V0.DocData docs) ->
          docs <> [] /\
          (V0.error result = None /\ Forall (fun d => V0.has_content d = true) docs \/
           V0.error result = Some "No page found" /\
           Forall (fun d => V0.has_content d = false) docs))).
  { intros [H1 [H2 [H3 H4]]]. repeat (split; [assumption |]).
    exact v0_has_content_spec. }
  revert Hout.
  rewrite v0_helper_run, Hq. cbn [negb]. cbn zeta.
  destruct (no_queue_call_jobs _
              (search_no_queue_call w (v0_search_args query team so) st)) as [Hs _].
  assert (Hscrape : forall (rs : list SearchResult) (s' : State) (log : list Event),
    admitted_jobs log = [] ->
    outcome_of
      (let sliced := truncate rs (V0.num_results_of team so) in
       if (length sliced =? 0)%nat
       then (Returned (V0.mkHelperResult true (Some "No search results found") None 200),
             s', log)
       else
         let b := v0_batch w (getJobPriority w plan team 20)
                    (jobDatas_of (uuidCounter s') sliced)
                    (mkState (currentKeyIndex s') (uuidCounter s' + length sliced)) in
         (outcome_of b, state_of b, log ++ log_of b)) = Returned result ->
    V0.success result = true /\ V0.returnCode result = 200 /\
    (V0.error result = Some "No search results found" ->
     V0.data result = None /\
     admitted_jobs
       (log_of
          (let sliced := truncate rs (V0.num_results_of team so) in
           if (length sliced =? 0)%nat
           then (Returned (V0.mkHelperResult true (Some "No search results found") None 200),
                 s', log)
           else
             let b := v0_batch w (getJobPriority w plan team 20)
                        (jobDatas_of (uuidCounter s') sliced)
                        (mkState (currentKeyIndex s') (uuidCounter s' + length sliced)) in
             (outcome_of b, state_of b, log ++ log_of b))) = []) /\
    (forall docs,
       V0.data result = Some (V0.DocData docs) ->
       docs <> [] /\
       (V0.error result = None /\ Forall (fun d => V0.has_content d = true) docs \/
        V0.error result = Some "No page found" /\
        Forall (fun d => V0.has_content d = false) docs))).
  { intros rs s' log Hlog. cbn zeta.
    destruct (length (truncate rs _) =? 0)%nat eqn:Hres.
    { cbn. intros H. injection H as <-. cbn.
      split; [reflexivity | split; [reflexivity | split]].
      - intros _. split; [reflexivity | exact Hlog].
      - intros docs Hd. discriminate Hd. }
    cbn [outcome_of fst]. intros Hb.
    destruct (v0_batch_returned w _ _ _ result (jobDatas_nonempty _ _ Hres) Hb)
      as [ds [_ [Hlen ->]]].
    cbn zeta.
    assert (Hne : map (toLegacyDocument w) ds <> []).
    { rewrite jobDatas_length in Hlen. destruct ds; [| discriminate].
      cbn in Hlen. rewrite <- Hlen in Hres. discriminate Hres. }
    destruct (length (List.filter V0.has_content (map (toLegacyDocument w) ds)) =? 0)%nat
      eqn:Hf; cbn.
    - split; [reflexivity | split; [reflexivity | split]].
      + intros H. discriminate H.
      + intros docs Hd. injection Hd as <-. split; [exact Hne |].
        right. split; [reflexivity | apply filter_none_false, Hf].
    - split; [reflexivity | split; [reflexivity | split]].
      + intros H. discriminate H.
      + intros docs Hd. injection Hd as <-. split.
        * intros Hnil. rewrite Hnil in Hf. discriminate Hf.
        * left. split; [reflexivity | apply filter_all_true]. }
  destruct (V0.fetchPageContent po) as [[|] |].
  - apply Hscrape, Hs.
  - cbn. intros H. injection H as <-. cbn.
    split; [reflexivity | split; [reflexivity | split]].
    + intros H. discriminate H.
    + intros docs Hd. discriminate Hd.
  - apply Hscrape, Hs.
Qed.

Lemma v0_helper_results_witness :
  outcome_of
    (V0.searchHelper
       (raw_world three_results (fun _ => false)
          (fun _ => inr (mkDocument None None None None None None None None)))
       (Some "rust ownership") "team-1" None (V0.mkPageOptions None None None)
       (v0_options 1) None initial_state) =
    Returned
      (V0.mkHelperResult true (Some "No page found")
         (Some (V0.DocData [Some (mkLegacyDocument None None None)])) 200) /\
  (forall docs,
     Some (V0.DocData [Some (mkLegacyDocument None None None)]) =
       Some (V0.DocData docs) ->
     docs <> [] /\
     (Some "No page found" = None /\ Forall (fun d => V0.has_content d = true) docs \/
      Some "No page found" = Some "No page found" /\
      Forall (fun d => V0.has_content d = false) docs)).
Proof.
  assert (Hrun :
    outcome_of
      (V0.searchHelper
         (raw_world three_results (fun _ => false)
            (fun _ => inr (mkDocument None None None None None None None None)))
         (Some "rust ownership") "team-1" None (V0.mkPageOptions None None None)
         (v0_options 1) None initial_state) =
      Returned
        (V0.mkHelperResult true (Some "No page found")
           (Some (V0.DocData [Some (mkLegacyDocument None None None)])) 200))
    by (vm_compute; reflexivity).
  split; [exact Hrun |].
  exact (proj1 (proj2 (proj2 (proj2
           (v0_helper_results
              (raw_world three_results (fun _ => false)
                 (fun _ => inr (mkDocument None None None None None None None None)))
              (Some "rust ownership") "team-1" None (V0.mkPageOptions None None None)
              (v0_options 1) None initial_state
              (V0.mkHelperResult true (Some "No page found")
                 (Some (V0.DocData [Some (mkLegacyDocument None None None)])) 200)
              eq_refl Hrun))))).
Defined.

Lemma v1_documents_within_limit_witness :
  exists resp docs,
    outcome_of (V1.searchController all_scraped_world v1_auth
                  (inr (v1_request 2 ["markdown"])) initial_state) = Returned resp /\
    V1.data resp = Some docs /\
    Z.of_nat (length docs) <= 2.
Proof.
  eexists. eexists.
  split; [vm_compute; reflexivity |].
  split; [reflexivity |].
  eapply (v1_documents_within_limit all_scraped_world v1_auth
           (v1_request 2 ["markdown"]) initial_state).
  - cbn. lia.
  - vm_compute. reflexivity.
  - reflexivity.
Defined.

Lemma v0_scrape_path_within_limit_witness :
  exists result d,
    outcome_of (V0.searchHelper all_scraped_world (Some "rust ownership") "team-1" None
                  (V0.mkPageOptions None None None) (v0_options 2) None
                  initial_state) = Returned result /\
    V0.data result = Some d /\
    Z.of_nat (V0.data_length d) <= 2.
Proof.
  eexists. eexists.
  split; [vm_compute; reflexivity |].
  split; [reflexivity |].
  eapply (v0_scrape_path_within_limit all_scraped_world (Some "rust ownership") "team-1"
           None (V0.mkPageOptions None None None) (v0_options 2) None initial_state).
  - vm_compute. discriminate.
  - discriminate.
  - vm_compute. reflexivity.
  - reflexivity.
Defined.
